(** * ffmpeg-service: a shallow embedding of [app.py]

    The service wraps an external media engine.  Every handler builds an
    argument list (often holding a filter-graph string), runs the engine as a
    subprocess and turns the outcome into a JSON response.

    The embedding keeps the three things the handlers do apart:
    - pure builders of strings and argument lists are Rocq functions;
    - the collaborators (network, file system, engine, probe) are the fields
      of a [world] record, so a handler is a function of the world, the
      request body and the job identifier;
    - the order of the effects is kept in a trace of [event]s, and Python's
      exceptions and early [return]s are the outcomes of a small monad.

    Request bodies are read at the JSON types the handlers' docstrings give
    them, one record per handler; a field that is [None] is an absent key.
    A raised exception is known by its class name: the text of [str(e)] is
    not tracked. *)

From Stdlib Require Import String Ascii List ZArith Lia Bool.
From Stdlib Require Import DecimalString DecimalZ.
Import ListNotations.
Set Warnings "-register-all".
Open Scope string_scope.
Open Scope Z_scope.

(** ** Python values *)

(** [f"{i}"] for a Python [int]. *)
Definition py_int (z : Z) : string := NilZero.string_of_int (Z.to_int z).

(** [range(n)] as the list [0; 1; ...; n-1] (empty when [n <= 0]). *)
Definition py_range (n : Z) : list Z := map Z.of_nat (seq 0 (Z.to_nat n)).

(** [s[-k:]] for a non-empty slice width [k]: the last [k] characters, the
    whole string when it is shorter. *)
Definition slice_last (k : nat) (s : string) : string :=
  string_of_list_ascii
    (skipn (String.length s - k) (list_ascii_of_string s)).

(** Truth value of a [str]. *)
Definition str_truthy (s : string) : bool :=
  negb (Nat.eqb (String.length s) 0).

(** Truth value of [data.get(k)] for a key holding a string. *)
Definition get_truthy (o : option string) : bool :=
  match o with
  | Some s => str_truthy s
  | None => false
  end.

(** [data.get(k, default)]. *)
Definition get_or {A : Type} (o : option A) (default : A) : A :=
  match o with
  | Some a => a
  | None => default
  end.

(** [c in s] for a character. *)
Definition has_char (c : ascii) (s : string) : bool :=
  existsb (Ascii.eqb c) (list_ascii_of_string s).

(** Python numbers that are only formatted, subtracted, compared with zero
    and tested for truth.  Floating point stays abstract: the handlers never look inside. *)
Class PyNum : Type := {
  num : Type;
  (** [f"{x}"] *)
  num_str : num -> string;
  (** [x - y] *)
  num_sub : num -> num -> num;
  (** [x > 0] *)
  num_gt0 : num -> bool;
  (** [bool(x)]: [x != 0] *)
  num_truthy : num -> bool;
  (** an [int] literal *)
  num_of_Z : Z -> num;
  (** a [float] literal, by its source text *)
  num_lit : string -> num;
  (** [float(s)] for a [str]; [None] is [ValueError] *)
  num_parse : string -> option num
}.

(** Integers alone, for running the handlers on requests whose numbers are
    all [int]: the instance has no [float], so a [float] literal or a parsed
    string is outside it (the samples below never reach one). *)
Definition ZNum : PyNum := {|
  num := Z;
  num_str := py_int;
  num_sub := Z.sub;
  num_gt0 := fun z => 0 <? z;
  num_truthy := fun z => negb (z =? 0);
  num_of_Z := fun z => z;
  num_lit := fun _ => 0;
  num_parse := fun _ => None
|}.

Section Base.

Context {N : PyNum}.

(** JSON documents: response bodies and the probe's output. *)
Inductive json : Type :=
| JNull
| JBool (b : bool)
| JNum (x : num)
| JStr (s : string)
| JArr (l : list json)
| JObj (fields : list (string * json)).

(** [d[k]] on a parsed document; [None] is [KeyError] or [TypeError]. *)
Fixpoint assoc (k : string) (fields : list (string * json)) : option json :=
  match fields with
  | [] => None
  | (k', v) :: rest => if String.eqb k k' then Some v else assoc k rest
  end.

Definition subscript (j : json) (k : string) : option json :=
  match j with
  | JObj fields => assoc k fields
  | _ => None
  end.

(** Truth value of a parsed document ([if info]). *)
Definition json_truthy (j : json) : bool :=
  match j with
  | JNull => false
  | JBool b => b
  | JNum x => num_truthy x
  | JStr s => str_truthy s
  | JArr l => negb (Nat.eqb (List.length l) 0)
  | JObj f => negb (Nat.eqb (List.length f) 0)
  end.

(** [float(v)]; [None] is [ValueError] or [TypeError]. *)
Definition py_float (j : json) : option num :=
  match j with
  | JNum x => Some x
  | JStr s => num_parse s
  | _ => None
  end.

(** A Flask response: [jsonify(body), status]. *)
Definition response : Type := (list (string * json) * Z)%type.

Definition field (k : string) (r : response) : option json := assoc k (fst r).
Definition status (r : response) : Z := snd r.

(** ** Collaborators *)

(** [subprocess.CompletedProcess] with captured text output. *)
Record completed : Type := {
  returncode : Z;
  stdout : string;
  stderr : string
}.

(** What the handlers ask of the outside.  A [false] or a [None] is the call
    raising. *)
Record world : Type := {
  (** [requests.get(url, stream=True)] then [raise_for_status] and the copy
      to disk *)
  http_get : string -> bool;
  (** [base64.b64decode] then the write *)
  b64decode : string -> bool;
  (** [subprocess.run(cmd, timeout=t)] of the engine; [None] is
      [TimeoutExpired] *)
  ffmpeg : list string -> Z -> option completed;
  (** [subprocess.run(cmd)] of the probe *)
  ffprobe : list string -> completed;
  (** [json.loads]; [None] is [JSONDecodeError] *)
  json_loads : string -> option json;
  (** [mkdir], [open(..., 'w')] and [write], [shutil.copy] *)
  fs_ok : string -> bool;
  (** [shutil.rmtree] *)
  rmtree_ok : string -> bool;
  (** [path.stat().st_size]; [None] is [FileNotFoundError] *)
  stat_size : string -> option num
}.

(** The effects a handler performs, in order. *)
Inductive event : Type :=
| EvMkdir (dir : string)
| EvDownload (url dest : string)
| EvSaveB64 (dest : string)
| EvWrite (path content : string)
| EvEngine (cmd : list string) (timeout : Z)
| EvProbe (cmd : list string)
| EvCopy (src dst : string)
| EvRmtree (dir : string).

(** ** The handler monad: a trace, and a value, an early [return] or a raised
    exception. *)
Inductive outcome (A : Type) : Type :=
| Val (a : A)
| Return (r : response)
| Raise (msg : string).
Arguments Val {A} a.
Arguments Return {A} r.
Arguments Raise {A} msg.

Definition M (A : Type) : Type := (list event * outcome A)%type.

Definition ret {A : Type} (a : A) : M A := ([], Val a).
Definition return_ {A : Type} (r : response) : M A := ([], Return r).
Definition raise {A : Type} (msg : string) : M A := ([], Raise msg).
Definition emit (e : event) : M unit := ([e], Val tt).

Definition bind {A B : Type} (m : M A) (f : A -> M B) : M B :=
  match m with
  | (t, Val a) => let (t', o) := f a in ((t ++ t')%list, o)
  | (t, Return r) => (t, Return r)
  | (t, Raise msg) => (t, Raise msg)
  end.

End Base.

Arguments Val {N A} a.
Arguments Return {N A} r.
Arguments Raise {N A} msg.

Declare Scope handler_scope.
Delimit Scope handler_scope with handler.
Notation "x <- m ;; k" := (bind m (fun x => k))
  (at level 61, m at next level, right associativity) : handler_scope.
Notation "m ;;; k" := (bind m (fun _ => k))
  (at level 61, right associativity) : handler_scope.

Section Handlers.

Context {N : PyNum}.

(** The upstream renderer's base address (read from the process environment
    when the service starts). *)
Variable MANIM_RENDERER_URL : string.

Variable w : world.

Open Scope handler_scope.

(** ** Utilities *)

Definition TEMP_DIR : string := "/tmp/ffmpeg-service".

(** [dir / name] for a relative [name]. *)
Definition path_join (dir name : string) : string := dir ++ "/" ++ name.

Definition get_job_dir (job_id : string) : M string :=
  let job_dir := path_join TEMP_DIR job_id in
  emit (EvMkdir job_dir) ;;;
  if fs_ok w job_dir then ret job_dir else raise "OSError".

Definition download_file (url dest_path : string) : M string :=
  emit (EvDownload url dest_path) ;;;
  if http_get w url then ret dest_path else raise "RequestException".

Definition save_base64_file (base64_data dest_path : string) : M string :=
  emit (EvSaveB64 dest_path) ;;;
  if b64decode w base64_data then ret dest_path else raise "binascii.Error".

Definition write_file (path content : string) : M unit :=
  emit (EvWrite path content) ;;;
  if fs_ok w path then ret tt else raise "OSError".

Definition rmtree (dir : string) : M unit :=
  emit (EvRmtree dir) ;;;
  if rmtree_ok w dir then ret tt else raise "OSError".

Definition copy (src dst : string) : M unit :=
  emit (EvCopy src dst) ;;;
  if fs_ok w dst then ret tt else raise "OSError".

Definition stat_st_size (path : string) : M num :=
  match stat_size w path with
  | Some sz => ret sz
  | None => raise "FileNotFoundError"
  end.

Definition probe_cmd (file_path : string) : list string :=
  ["ffprobe"; "-v"; "quiet";
   "-print_format"; "json";
   "-show_format"; "-show_streams";
   file_path].

Definition get_media_info (file_path : string) : M (option json) :=
  let cmd := probe_cmd file_path in
  emit (EvProbe cmd) ;;;
  let result := ffprobe w cmd in
  if returncode result =? 0 then
    match json_loads w (stdout result) with
    | Some j => ret (Some j)
    | None => raise "JSONDecodeError"
    end
  else ret None.

(** The dictionary [run_ffmpeg] returns. *)
Record ffmpeg_result : Type := {
  success : bool;
  res_returncode : Z;
  res_stdout : string;
  res_stderr : option string
}.

(** The dictionary built from a finished process. *)
Definition result_of (result : completed) : ffmpeg_result := {|
  success := returncode result =? 0;
  res_returncode := returncode result;
  res_stdout := stdout result;
  res_stderr := if str_truthy (stderr result)
                then Some (slice_last 1000 (stderr result))
                else None
|}.

Definition run_ffmpeg (cmd : list string) (timeout : Z) : M ffmpeg_result :=
  emit (EvEngine cmd timeout) ;;;
  match ffmpeg w cmd timeout with
  | Some result => ret (result_of result)
  | None => raise "TimeoutExpired"
  end.

(** [jsonify] of an optional string ([None] becomes [null]). *)
Definition json_opt_str (o : option string) : json :=
  match o with
  | Some s => JStr s
  | None => JNull
  end.

Definition json_opt (o : option json) : json :=
  match o with
  | Some j => j
  | None => JNull
  end.

(** [try: ... except Exception as e: return jsonify(...), 500] around a body
    that always ends in a [return]. *)
Definition handle (body : M Empty_set) : list event * response :=
  match body with
  | (t, Val a) => match a with end
  | (t, Return r) => (t, r)
  | (t, Raise msg) => (t, ([("success", JBool false); ("error", JStr msg)], 500))
  end.

Definition ffmpeg_failed {A : Type} (result : ffmpeg_result) : M A :=
  return_ ([("success", JBool false); ("error", JStr "FFmpeg failed");
            ("details", json_opt_str (res_stderr result))], 500).

(** ** Probe *)

Record probe_request : Type := {
  probe_url : option string;
  probe_job_id : option string
}.

Definition probe_media (data : probe_request) (job_id : string)
  : list event * response :=
  handle (
    job_dir <- get_job_dir job_id ;;
    let file_path := path_join job_dir "probe_file" in
    (if get_truthy (probe_url data) then
       download_file (get_or (probe_url data) "") file_path
     else if get_truthy (probe_job_id data) then
       let url := MANIM_RENDERER_URL ++ "/video/" ++ get_or (probe_job_id data) "" in
       download_file url file_path
     else
       return_ ([("success", JBool false); ("error", JStr "url or job_id required")], 400)) ;;;
    info <- get_media_info file_path ;;
    rmtree job_dir ;;;
    return_ ([("success", JBool true); ("info", json_opt info)], 200)).

(** ** Concatenation *)

(** One entry of ["videos"]. *)
Record video_source : Type := {
  src_url : option string;
  src_job_id : option string;
  src_base64 : option string
}.

Record concat_request : Type := {
  videos : option (list video_source);
  transition : option string;
  transition_duration : option num
}.

Definition len {A : Type} (l : list A) : Z := Z.of_nat (List.length l).

(** The download loop, [for i, video in enumerate(videos)], from index [i]
    on, with the files gathered so far. *)
Fixpoint download_videos (job_dir : string) (i : Z) (vs : list video_source)
    (input_files : list string) : M (list string) :=
  match vs with
  | [] => ret input_files
  | video :: rest =>
      let video_path := path_join job_dir ("input_" ++ py_int i ++ ".mp4") in
      (if get_truthy (src_url video) then
         download_file (get_or (src_url video) "") video_path
       else if get_truthy (src_job_id video) then
         let url := MANIM_RENDERER_URL ++ "/video/" ++ get_or (src_job_id video) "" in
         download_file url video_path
       else if get_truthy (src_base64 video) then
         save_base64_file (get_or (src_base64 video) "") video_path
       else
         return_ ([("success", JBool false);
                   ("error", JStr ("Invalid video source at index " ++ py_int i))], 400)) ;;;
      download_videos job_dir (i + 1) rest (input_files ++ [video_path])%list
  end.

(** The first loop of the crossfade filter: one video and one audio reset
    per input. *)
Definition setpts_line (i : Z) : string :=
  ("[" ++ py_int i ++ ":v]setpts=PTS-STARTPTS[v" ++ py_int i ++ "];")
  ++ ("[" ++ py_int i ++ ":a]asetpts=PTS-STARTPTS[a" ++ py_int i ++ "];").

(** The second loop: transition [i]. *)
Definition xfade_line (trans_duration : num) (i : Z) : string :=
  if i =? 0 then
    "[v0][v1]xfade=transition=fade:duration=" ++ num_str trans_duration
    ++ ":offset=0[vout" ++ py_int i ++ "];"
  else
    "[vout" ++ py_int (i - 1) ++ "][v" ++ py_int (i + 1)
    ++ "]xfade=transition=fade:duration=" ++ num_str trans_duration
    ++ ":offset=0[vout" ++ py_int i ++ "];".

(** [filter_complex] as the ['fade'] branch leaves it, for [n] inputs. *)
Definition fade_filter_complex (n : Z) (trans_duration : num) : string :=
  let filter_complex := "" in
  let filter_complex :=
    fold_left (fun acc i => acc ++ setpts_line i) (py_range n) filter_complex in
  let filter_complex :=
    fold_left (fun acc i => acc ++ xfade_line trans_duration i)
              (py_range (n - 1)) filter_complex in
  filter_complex ++ "[vout" ++ py_int (n - 2) ++ "]null[vfinal]".

(** [inputs]: ['-i', file] for each input. *)
Definition input_args (input_files : list string) : list string :=
  fold_left (fun inputs vf => (inputs ++ ["-i"; vf])%list) input_files [].

(** Reading a local variable that only some branches have bound. *)
Definition read_local {A : Type} (v : option A) : M A :=
  match v with
  | Some a => ret a
  | None => raise "UnboundLocalError"
  end.

(** The command of the branch with transitions. *)
Definition transition_cmd (transition : string) (trans_duration : num)
    (input_files : list string) (output_path : string) : M (list string) :=
  let n := len input_files in
  let inputs := input_args input_files in
  let filter_complex :=
    if String.eqb transition "fade"
    then Some (fade_filter_complex n trans_duration)
    else None in
  fc <- (if negb (String.eqb transition "none")
         then read_local filter_complex
         else ret "") ;;
  ret (["ffmpeg"; "-y"] ++ inputs ++
       ["-filter_complex"; fc;
        "-map"; "[vfinal]";
        "-c:v"; "libx264";
        "-preset"; "medium";
        "-crf"; "23";
        "-movflags"; "+faststart";
        output_path])%list.

Definition newline : string := String (ascii_of_nat 10) "".

(** The text of the concat demuxer's list file. *)
Definition list_file_text (input_files : list string) : string :=
  fold_left (fun f vf => f ++ "file '" ++ vf ++ "'" ++ newline) input_files "".

Definition concat_videos (data : concat_request) (job_id : string)
  : list event * response :=
  handle (
    job_dir <- get_job_dir job_id ;;
    let videos := get_or (videos data) [] in
    if len videos <? 2 then
      return_ ([("success", JBool false);
                ("error", JStr "At least 2 videos required")], 400)
    else
      let transition := get_or (transition data) "none" in
      let trans_duration := get_or (transition_duration data) (num_lit "0.5") in
      input_files <- download_videos job_dir 0 videos [] ;;
      let output_path := path_join job_dir ("concat_" ++ job_id ++ ".mp4") in
      cmd <- (if String.eqb transition "none" then
                let list_file := path_join job_dir "inputs.txt" in
                write_file list_file (list_file_text input_files) ;;;
                ret ["ffmpeg"; "-y";
                     "-f"; "concat";
                     "-safe"; "0";
                     "-i"; list_file;
                     "-c"; "copy";
                     "-movflags"; "+faststart";
                     output_path]
              else
                transition_cmd transition trans_duration input_files output_path) ;;
      result <- run_ffmpeg cmd 900 ;;
      if negb (success result) then ffmpeg_failed result
      else
        file_size <- stat_st_size output_path ;;
        return_ ([("success", JBool true);
                  ("job_id", JStr job_id);
                  ("operation", JStr "concat");
                  ("video_count", JNum (num_of_Z (len videos)));
                  ("output_url", JStr ("/download/" ++ job_id ++ "/concat_" ++ job_id ++ ".mp4"));
                  ("file_size", JNum file_size)], 200)).

(** ** The full pipeline *)

Record pipeline_request : Type := {
  video_job_id : option string;
  audio_base64 : option string;
  subtitles : option string;
  background_music_url : option string;
  music_volume : option num;
  platform : option string;
  normalize : option bool
}.

(** The sequencer's state: [current_video] and [steps_completed]. *)
Record pipeline_state : Type := {
  current_video : string;
  steps_completed : list string
}.

(** [current_video = p; steps_completed.append(name)]. *)
Definition advance (st : pipeline_state) (p name : string) : pipeline_state :=
  {| current_video := p;
     steps_completed := (steps_completed st ++ [name])%list |}.

Definition merge_cmd (current audio_path merged_path : string) : list string :=
  ["ffmpeg"; "-y";
   "-i"; current;
   "-i"; audio_path;
   "-c:v"; "copy";
   "-c:a"; "aac";
   "-b:a"; "192k";
   "-shortest";
   "-movflags"; "+faststart";
   merged_path].

(** 2. Merge with the narration. *)
Definition step_merge (data : pipeline_request) (job_dir : string)
    (st : pipeline_state) : M pipeline_state :=
  if get_truthy (audio_base64 data) then
    let audio_path := path_join job_dir "tts_audio.mp3" in
    save_base64_file (get_or (audio_base64 data) "") audio_path ;;;
    let merged_path := path_join job_dir "02_merged.mp4" in
    result <- run_ffmpeg (merge_cmd (current_video st) audio_path merged_path) 600 ;;
    if negb (success result) then
      return_ ([("success", JBool false); ("error", JStr "Merge failed");
                ("details", json_opt_str (res_stderr result))], 500)
    else ret (advance st merged_path "merge_tts")
  else ret st.

(** [float(info['format']['duration']) if info else 60]. *)
Definition media_duration (info : option json) : M num :=
  if json_truthy (json_opt info) then
    match subscript (json_opt info) "format" with
    | None => raise "KeyError"
    | Some fmt =>
        match subscript fmt "duration" with
        | None => raise "KeyError"
        | Some d =>
            match py_float d with
            | Some x => ret x
            | None => raise "ValueError"
            end
        end
    end
  else ret (num_of_Z 60).

Definition pipeline_music_filter (music_vol duration : num) : string :=
  "[0:a]volume=1.0[voice];"
  ++ ("[1:a]aloop=loop=-1:size=2e+09,volume=" ++ num_str music_vol ++ ",")
  ++ ("afade=t=out:st=" ++ num_str (num_sub duration (num_of_Z 2)) ++ ":d=2[music];")
  ++ "[voice][music]amix=inputs=2:duration=first[aout]".

Definition pipeline_music_cmd (current music_path filter_complex out : string)
  : list string :=
  ["ffmpeg"; "-y";
   "-i"; current;
   "-stream_loop"; "-1";
   "-i"; music_path;
   "-filter_complex"; filter_complex;
   "-map"; "0:v";
   "-map"; "[aout]";
   "-c:v"; "copy";
   "-c:a"; "aac";
   "-b:a"; "192k";
   "-shortest";
   "-movflags"; "+faststart";
   out].

(** 3. Background music. *)
Definition step_music (data : pipeline_request) (job_dir : string)
    (st : pipeline_state) : M pipeline_state :=
  if get_truthy (background_music_url data) then
    let music_path := path_join job_dir "music.mp3" in
    download_file (get_or (background_music_url data) "") music_path ;;;
    let music_vol := get_or (music_volume data) (num_lit "0.1") in
    let music_path_out := path_join job_dir "03_with_music.mp4" in
    info <- get_media_info (current_video st) ;;
    duration <- media_duration info ;;
    let filter_complex := pipeline_music_filter music_vol duration in
    result <- run_ffmpeg
                (pipeline_music_cmd (current_video st) music_path
                                    filter_complex music_path_out) 600 ;;
    if success result then ret (advance st music_path_out "add_music")
    else ret st
  else ret st.

Definition pipeline_subtitles_cmd (current srt_path out : string) : list string :=
  ["ffmpeg"; "-y";
   "-i"; current;
   "-vf"; "subtitles='" ++ srt_path
          ++ "':force_style='FontSize=24,PrimaryColour=&H00FFFFFF,OutlineColour=&H00000000,BorderStyle=3,Outline=2,MarginV=50'";
   "-c:v"; "libx264";
   "-preset"; "medium";
   "-crf"; "23";
   "-c:a"; "copy";
   "-movflags"; "+faststart";
   out].

(** 4. Subtitles. *)
Definition step_subtitles (data : pipeline_request) (job_dir : string)
    (st : pipeline_state) : M pipeline_state :=
  if get_truthy (subtitles data) then
    let srt_path := path_join job_dir "subtitles.srt" in
    write_file srt_path (get_or (subtitles data) "") ;;;
    let subtitled_path := path_join job_dir "04_subtitled.mp4" in
    result <- run_ffmpeg
                (pipeline_subtitles_cmd (current_video st) srt_path subtitled_path) 600 ;;
    if success result then ret (advance st subtitled_path "add_subtitles")
    else ret st
  else ret st.

(** The pipeline's platform table. *)
Definition pipeline_presets : list (string * (Z * Z)) :=
  [("youtube_shorts", (1080, 1920));
   ("tiktok", (1080, 1920));
   ("instagram_reels", (1080, 1920));
   ("instagram_feed", (1080, 1080));
   ("youtube_long", (1920, 1080))].

Fixpoint lookup {A : Type} (k : string) (d : list (string * A)) : option A :=
  match d with
  | [] => None
  | (k', v) :: rest => if String.eqb k k' then Some v else lookup k rest
  end.

(** The letterbox filter for a target size. *)
Definition contain_vf (width height : Z) (bg_color : string) : string :=
  "scale=" ++ py_int width ++ ":" ++ py_int height
  ++ ":force_original_aspect_ratio=decrease,pad=" ++ py_int width ++ ":"
  ++ py_int height ++ ":(ow-iw)/2:(oh-ih)/2:color=" ++ bg_color ++ ",setsar=1".

Definition reencode_vf_cmd (input vf out : string) : list string :=
  ["ffmpeg"; "-y";
   "-i"; input;
   "-vf"; vf;
   "-c:v"; "libx264";
   "-preset"; "medium";
   "-crf"; "23";
   "-c:a"; "copy";
   "-movflags"; "+faststart";
   out].

(** 5. Resize for the platform. *)
Definition step_resize (data : pipeline_request) (job_dir : string)
    (st : pipeline_state) : M pipeline_state :=
  let platform := platform data in
  match (if get_truthy platform
         then lookup (get_or platform "") pipeline_presets else None) with
  | Some (width, height) =>
      let resized_path := path_join job_dir "05_resized.mp4" in
      let vf := contain_vf width height "black" in
      result <- run_ffmpeg (reencode_vf_cmd (current_video st) vf resized_path) 600 ;;
      if success result
      then ret (advance st resized_path ("resize_" ++ get_or platform ""))
      else ret st
  | None => ret st
  end.

Definition pipeline_normalize_cmd (current out : string) : list string :=
  ["ffmpeg"; "-y";
   "-i"; current;
   "-c:v"; "copy";
   "-af"; "loudnorm=I=-14:TP=-1:LRA=11";
   "-c:a"; "aac";
   "-b:a"; "192k";
   "-movflags"; "+faststart";
   out].

(** 6. Loudness. *)
Definition step_normalize (data : pipeline_request) (job_dir : string)
    (st : pipeline_state) : M pipeline_state :=
  if get_or (normalize data) false then
    let normalized_path := path_join job_dir "06_normalized.mp4" in
    result <- run_ffmpeg
                (pipeline_normalize_cmd (current_video st) normalized_path) 600 ;;
    if success result then ret (advance st normalized_path "normalize_audio")
    else ret st
  else ret st.

Definition final_path_of (job_dir job_id : string) : string :=
  path_join job_dir ("final_" ++ job_id ++ ".mp4").

(** The closing block: the current artifact is copied to its final name. *)
Definition finish_pipeline (job_dir job_id : string) (st : pipeline_state)
  : M Empty_set :=
  let final_path := final_path_of job_dir job_id in
  copy (current_video st) final_path ;;;
  file_size <- stat_st_size final_path ;;
  return_ ([("success", JBool true);
            ("job_id", JStr job_id);
            ("operation", JStr "full-pipeline");
            ("steps_completed", JArr (map JStr (steps_completed st)));
            ("output_url", JStr ("/download/" ++ job_id ++ "/final_" ++ job_id ++ ".mp4"));
            ("file_size", JNum file_size)], 200).

Definition full_pipeline (data : pipeline_request) (job_id : string)
  : list event * response :=
  handle (
    job_dir <- get_job_dir job_id ;;
    let video_path := path_join job_dir "01_video.mp4" in
    if negb (get_truthy (video_job_id data)) then
      return_ ([("success", JBool false); ("error", JStr "video_job_id required")], 400)
    else
      let url := MANIM_RENDERER_URL ++ "/video/" ++ get_or (video_job_id data) "" in
      download_file url video_path ;;;
      let st := {| current_video := video_path;
                   steps_completed := ["download_video"] |} in
      st <- step_merge data job_dir st ;;
      st <- step_music data job_dir st ;;
      st <- step_subtitles data job_dir st ;;
      st <- step_resize data job_dir st ;;
      st <- step_normalize data job_dir st ;;
      finish_pipeline job_dir job_id st).

(** The four best-effort steps of the pipeline, in the order they run. *)
Inductive optional_step : Type :=
| AddMusic
| AddSubtitles
| ResizePlatform
| NormalizeAudio.

Definition optional_steps : list optional_step :=
  [AddMusic; AddSubtitles; ResizePlatform; NormalizeAudio].

Definition run_step (s : optional_step) (data : pipeline_request)
    (job_dir : string) (st : pipeline_state) : M pipeline_state :=
  match s with
  | AddMusic => step_music data job_dir st
  | AddSubtitles => step_subtitles data job_dir st
  | ResizePlatform => step_resize data job_dir st
  | NormalizeAudio => step_normalize data job_dir st
  end.

(** The name a step appends to [steps_completed]. *)
Definition step_name (data : pipeline_request) (s : optional_step) : string :=
  match s with
  | AddMusic => "add_music"
  | AddSubtitles => "add_subtitles"
  | ResizePlatform => "resize_" ++ get_or (platform data) ""
  | NormalizeAudio => "normalize_audio"
  end.

(** The artifact a step writes. *)
Definition step_output (job_dir : string) (s : optional_step) : string :=
  match s with
  | AddMusic => path_join job_dir "03_with_music.mp4"
  | AddSubtitles => path_join job_dir "04_subtitled.mp4"
  | ResizePlatform => path_join job_dir "05_resized.mp4"
  | NormalizeAudio => path_join job_dir "06_normalized.mp4"
  end.

(** The steps of a list, one after the other on the running state. *)
Fixpoint run_steps (ss : list optional_step) (data : pipeline_request)
    (job_dir : string) (st : pipeline_state) : M pipeline_state :=
  match ss with
  | [] => ret st
  | s :: rest =>
      st <- run_step s data job_dir st ;;
      run_steps rest data job_dir st
  end.

(** The probe of a file followed by the reading of its duration. *)
Definition probe_duration (file_path : string) : M num :=
  info <- get_media_info file_path ;;
  media_duration info.

(** ** Shared by the one-step handlers *)

(** The source video: [video_url], else [video_job_id], else a 400. *)
Definition fetch_video (video_url video_job_id : option string)
    (video_path : string) : M string :=
  if get_truthy video_url then
    download_file (get_or video_url "") video_path
  else if get_truthy video_job_id then
    let url := MANIM_RENDERER_URL ++ "/video/" ++ get_or video_job_id "" in
    download_file url video_path
  else
    return_ ([("success", JBool false);
              ("error", JStr "video_url or video_job_id required")], 400).

(** ** Subtitles *)

Record subtitles_request : Type := {
  sub_video_url : option string;
  sub_video_job_id : option string;
  sub_subtitles : option string;
  sub_subtitles_url : option string;
  sub_style : option string;
  sub_font_size : option num;
  sub_font_color : option string;
  sub_outline_color : option string;
  sub_position : option string
}.

Definition margin_v (position : string) : Z :=
  if String.eqb position "bottom" then 50 else 50.

Definition alignment (position : string) : Z :=
  if String.eqb position "bottom" then 2 else 6.

(** The burn-in filter.  [font_color] and [outline_color] are the handler's
    locals of these names. *)
Definition subtitle_filter (srt_path : string) (font_size : num)
    (font_color outline_color position : string) : string :=
  ("subtitles='" ++ srt_path ++ "':")
  ++ ("force_style='FontSize=" ++ num_str font_size ++ ",")
  ++ "PrimaryColour=&H00FFFFFF,"
  ++ "OutlineColour=&H00000000,"
  ++ "BorderStyle=3,"
  ++ "Outline=2,"
  ++ ("MarginV=" ++ py_int (margin_v position) ++ ",")
  ++ ("Alignment=" ++ py_int (alignment position) ++ "'").

Definition add_subtitles (data : subtitles_request) (job_id : string)
  : list event * response :=
  handle (
    job_dir <- get_job_dir job_id ;;
    let video_path := path_join job_dir "input_video.mp4" in
    fetch_video (sub_video_url data) (sub_video_job_id data) video_path ;;;
    let srt_path := path_join job_dir "subtitles.srt" in
    (if get_truthy (sub_subtitles data) then
       write_file srt_path (get_or (sub_subtitles data) "") ;;; ret srt_path
     else if get_truthy (sub_subtitles_url data) then
       download_file (get_or (sub_subtitles_url data) "") srt_path
     else
       return_ ([("success", JBool false);
                 ("error", JStr "subtitles or subtitles_url required")], 400)) ;;;
    let style := get_or (sub_style data) "hardcoded" in
    let font_size := get_or (sub_font_size data) (num_of_Z 24) in
    let font_color := get_or (sub_font_color data) "white" in
    let outline_color := get_or (sub_outline_color data) "black" in
    let position := get_or (sub_position data) "bottom" in
    let output_path := path_join job_dir ("subtitled_" ++ job_id ++ ".mp4") in
    let cmd :=
      if String.eqb style "hardcoded" then
        reencode_vf_cmd video_path
          (subtitle_filter srt_path font_size font_color outline_color position)
          output_path
      else
        ["ffmpeg"; "-y";
         "-i"; video_path;
         "-i"; srt_path;
         "-c:v"; "copy";
         "-c:a"; "copy";
         "-c:s"; "mov_text";
         "-movflags"; "+faststart";
         output_path] in
    result <- run_ffmpeg cmd 600 ;;
    if negb (success result) then ffmpeg_failed result
    else
      file_size <- stat_st_size output_path ;;
      return_ ([("success", JBool true);
                ("job_id", JStr job_id);
                ("operation", JStr "add-subtitles");
                ("style", JStr style);
                ("output_url", JStr ("/download/" ++ job_id ++ "/subtitled_" ++ job_id ++ ".mp4"));
                ("file_size", JNum file_size)], 200)).

(** ** Background music *)

Record music_request : Type := {
  mus_video_url : option string;
  mus_video_job_id : option string;
  mus_music_url : option string;
  mus_music_base64 : option string;
  mus_music_volume : option num;
  mus_voice_volume : option num;
  mus_loop_music : option bool;
  mus_fade_out : option num
}.

(** The music branch of the graph. *)
Definition music_filter (music_vol : num) (loop_music : bool)
    (fade_out duration : num) : string :=
  let music_filter := "[1:a]volume=" ++ num_str music_vol in
  let music_filter :=
    if loop_music
    then "[1:a]aloop=loop=-1:size=2e+09,volume=" ++ num_str music_vol
    else music_filter in
  let music_filter :=
    if num_gt0 fade_out
    then music_filter ++ ",afade=t=out:st=" ++ num_str (num_sub duration fade_out)
         ++ ":d=" ++ num_str fade_out
    else music_filter in
  music_filter ++ "[music]".

Definition music_filter_complex (voice_vol music_vol : num) (loop_music : bool)
    (fade_out duration : num) : string :=
  ("[0:a]volume=" ++ num_str voice_vol ++ "[voice];")
  ++ (music_filter music_vol loop_music fade_out duration ++ ";")
  ++ "[voice][music]amix=inputs=2:duration=first[aout]".

Definition music_cmd (video_path : string) (loop_music : bool)
    (music_path filter_complex output_path : string) : list string :=
  ["ffmpeg"; "-y";
   "-i"; video_path;
   "-stream_loop"; if loop_music then "-1" else "0";
   "-i"; music_path;
   "-filter_complex"; filter_complex;
   "-map"; "0:v";
   "-map"; "[aout]";
   "-c:v"; "copy";
   "-c:a"; "aac";
   "-b:a"; "192k";
   "-shortest";
   "-movflags"; "+faststart";
   output_path].

Definition add_background_music (data : music_request) (job_id : string)
  : list event * response :=
  handle (
    job_dir <- get_job_dir job_id ;;
    let video_path := path_join job_dir "input_video.mp4" in
    fetch_video (mus_video_url data) (mus_video_job_id data) video_path ;;;
    let music_path := path_join job_dir "music.mp3" in
    (if get_truthy (mus_music_base64 data) then
       save_base64_file (get_or (mus_music_base64 data) "") music_path
     else if get_truthy (mus_music_url data) then
       download_file (get_or (mus_music_url data) "") music_path
     else
       return_ ([("success", JBool false);
                 ("error", JStr "music_url or music_base64 required")], 400)) ;;;
    let music_vol := get_or (mus_music_volume data) (num_lit "0.15") in
    let voice_vol := get_or (mus_voice_volume data) (num_lit "1.0") in
    let loop_music := get_or (mus_loop_music data) true in
    let fade_out := get_or (mus_fade_out data) (num_lit "2.0") in
    let output_path := path_join job_dir ("with_music_" ++ job_id ++ ".mp4") in
    info <- get_media_info video_path ;;
    duration <- media_duration info ;;
    let filter_complex :=
      music_filter_complex voice_vol music_vol loop_music fade_out duration in
    result <- run_ffmpeg
                (music_cmd video_path loop_music music_path filter_complex output_path)
                600 ;;
    if negb (success result) then ffmpeg_failed result
    else
      file_size <- stat_st_size output_path ;;
      return_ ([("success", JBool true);
                ("job_id", JStr job_id);
                ("operation", JStr "add-background-music");
                ("output_url", JStr ("/download/" ++ job_id ++ "/with_music_" ++ job_id ++ ".mp4"));
                ("file_size", JNum file_size)], 200)).

(** ** Resize *)

Record resize_request : Type := {
  rsz_video_url : option string;
  rsz_video_job_id : option string;
  rsz_width : option Z;
  rsz_height : option Z;
  rsz_preset : option string;
  rsz_fit : option string;
  rsz_background_color : option string
}.

Definition resize_presets : list (string * (Z * Z)) :=
  [("youtube_shorts", (1080, 1920));
   ("tiktok", (1080, 1920));
   ("instagram_reels", (1080, 1920));
   ("instagram_feed", (1080, 1080));
   ("youtube_long", (1920, 1080));
   ("youtube_4k", (3840, 2160));
   ("linkedin", (1920, 1080))].

(** The target size: the preset's when one is named and known. *)
Definition resize_dimensions (data : resize_request) : Z * Z :=
  match (if get_truthy (rsz_preset data)
         then lookup (get_or (rsz_preset data) "") resize_presets else None) with
  | Some (width, height) => (width, height)
  | None => (get_or (rsz_width data) 1920, get_or (rsz_height data) 1080)
  end.

(** The geometry filter for a fit mode. *)
Definition resize_vf (fit : string) (width height : Z) (bg_color : string)
  : string :=
  if String.eqb fit "contain" then
    contain_vf width height bg_color
  else if String.eqb fit "cover" then
    "scale=" ++ py_int width ++ ":" ++ py_int height
    ++ ":force_original_aspect_ratio=increase,crop=" ++ py_int width ++ ":"
    ++ py_int height ++ ",setsar=1"
  else
    "scale=" ++ py_int width ++ ":" ++ py_int height ++ ",setsar=1".

Definition resize_video (data : resize_request) (job_id : string)
  : list event * response :=
  handle (
    job_dir <- get_job_dir job_id ;;
    let (width, height) := resize_dimensions data in
    let fit := get_or (rsz_fit data) "contain" in
    let bg_color := get_or (rsz_background_color data) "black" in
    let video_path := path_join job_dir "input_video.mp4" in
    fetch_video (rsz_video_url data) (rsz_video_job_id data) video_path ;;;
    let output_path := path_join job_dir ("resized_" ++ job_id ++ ".mp4") in
    let vf := resize_vf fit width height bg_color in
    result <- run_ffmpeg (reencode_vf_cmd video_path vf output_path) 600 ;;
    if negb (success result) then ffmpeg_failed result
    else
      file_size <- stat_st_size output_path ;;
      return_ ([("success", JBool true);
                ("job_id", JStr job_id);
                ("operation", JStr "resize");
                ("dimensions", JStr (py_int width ++ "x" ++ py_int height));
                ("output_url", JStr ("/download/" ++ job_id ++ "/resized_" ++ job_id ++ ".mp4"));
                ("file_size", JNum file_size)], 200)).

End Handlers.

(** ** Filter graphs as data

    The builders above write text.  The claims about them speak of stages,
    labels and sizes, so each graph is also given as data together with the
    function that prints it; the theorems show that the builder's text is the
    printed graph. *)

Section Graphs.

Context {N : PyNum}.








End Graphs.

(** *** The audio mix stage *)

(** The [duration] option of the mix filter. *)
Inductive mix_duration : Type := MixLongest | MixShortest | MixFirst.

Definition mix_duration_name (m : mix_duration) : string :=
  match m with
  | MixLongest => "longest"
  | MixShortest => "shortest"
  | MixFirst => "first"
  end.

Record amix : Type := {
  amix_inputs : list string;
  amix_duration : mix_duration;
  amix_out : string
}.

Definition render_labels (ls : list string) : string :=
  String.concat "" (map (fun l => "[" ++ l ++ "]") ls).

Definition render_amix (a : amix) : string :=
  render_labels (amix_inputs a)
  ++ "amix=inputs=" ++ py_int (Z.of_nat (List.length (amix_inputs a)))
  ++ ":duration=" ++ mix_duration_name (amix_duration a)
  ++ "[" ++ amix_out a ++ "]".

(** The mix stage both music builders end with. *)
Definition voice_music_mix : amix :=
  {| amix_inputs := ["voice"; "music"];
     amix_duration := MixFirst;
     amix_out := "aout" |}.

(** How long a stream runs: a length in milliseconds, or without end (a
    looped input). *)
Inductive extent : Type := Finite (ms : Z) | Endless.

Definition extent_le (a b : extent) : Prop :=
  match a, b with
  | Finite x, Finite y => x <= y
  | _, Endless => True
  | Endless, Finite _ => False
  end.

Definition extent_max (a b : extent) : extent :=
  match a, b with
  | Finite x, Finite y => Finite (Z.max x y)
  | _, _ => Endless
  end.

Definition extent_min (a b : extent) : extent :=
  match a, b with
  | Finite x, Finite y => Finite (Z.min x y)
  | Finite x, Endless => Finite x
  | Endless, b => b
  end.

(** Engine contract (the engine's documentation of [amix], not code of this
    repository): the length the mix declares for its output, from the lengths
    of its inputs.  [first] is the length of the first input. *)
Definition mix_declared (m : mix_duration) (inputs : list extent) : extent :=
  match inputs with
  | [] => Finite 0
  | first :: rest =>
      match m with
      | MixFirst => first
      | MixLongest => fold_left extent_max rest first
      | MixShortest => fold_left extent_min rest first
      end
  end.

(** *** Geometry filters *)












(** *** Reading a filter chain *)












(** *** Reading the trace *)

Section Traces.

Context {N : PyNum}.

(** The engine invocations of a trace, in order. *)
Definition engine_calls (t : list event) : list (list string * Z) :=
  flat_map (fun e => match e with
                     | EvEngine cmd timeout => [(cmd, timeout)]
                     | _ => []
                     end) t.

(** The files a trace copies, as (source, destination). *)
Definition copies (t : list event) : list (string * string) :=
  flat_map (fun e => match e with
                     | EvCopy src dst => [(src, dst)]
                     | _ => []
                     end) t.

(** The output file of an engine command: its last argument. *)
Definition output_of (cmd : list string) : string := last cmd "".

(** The engine invocation exits with status 0. *)
Definition engine_succeeds (w : world) (cmd : list string) (timeout : Z) : bool :=
  match ffmpeg w cmd timeout with
  | Some p => returncode p =? 0
  | None => false
  end.

(** The artifact produced last: the output of the last engine invocation of
    the trace that succeeded, [init] when there is none. *)
Definition last_produced (w : world) (init : string) (t : list event) : string :=
  fold_left (fun cur c =>
               if engine_succeeds w (fst c) (snd c) then output_of (fst c) else cur)
            (engine_calls t) init.

(** Every engine invocation of a computation satisfies [P]. *)
Definition calls_all {A : Type} (P : list string * Z -> Prop) (m : M A) : Prop :=
  Forall P (engine_calls (fst m)).

(** What a step that ran the engine returns, by the engine's outcome. *)
Definition outcome_by_exit (w : world) (cmd : list string) (st : pipeline_state)
    (out name : string) : outcome pipeline_state :=
  match ffmpeg w cmd 600 with
  | Some p => if returncode p =? 0 then Val (advance st out name) else Val st
  | None => Raise "TimeoutExpired"
  end.

(** A world in which only the engine's exit status can go wrong: every
    fetch, decode and file operation works, the engine never overruns its
    timeout and the probe of any file yields a duration. *)
Record cooperative (w : world) : Prop := {
  coop_http : forall url, http_get w url = true;
  coop_b64 : forall data, b64decode w data = true;
  coop_fs : forall path, fs_ok w path = true;
  coop_engine : forall cmd timeout, ffmpeg w cmd timeout <> None;
  coop_stat : forall path, stat_size w path <> None;
  coop_probe : forall path,
      exists d, probe_duration w path = ([EvProbe (probe_cmd path)], Val d)
}.

(** The value of a response's ["success"] key. *)
Definition succeeded (r : response) : bool :=
  match field "success" r with
  | Some (JBool b) => b
  | _ => false
  end.

(** The strings of ["steps_completed"]. *)
Definition steps_of (r : response) : list string :=
  match field "steps_completed" r with
  | Some (JArr l) =>
      flat_map (fun j => match j with JStr s => [s] | _ => [] end) l
  | _ => []
  end.

End Traces.

(** ** The other one-step handlers *)

Section MoreHandlers.

Context {N : PyNum}.

Variable MANIM_RENDERER_URL : string.

Variable w : world.

Open Scope handler_scope.

(** *** Merge *)

Record merge_request : Type := {
  mrg_video_url : option string;
  mrg_video_job_id : option string;
  mrg_audio_base64 : option string;
  mrg_audio_url : option string;
  mrg_volume : option num
}.

Definition merge_audio_video_cmd (video_path audio_path : string) (volume : num)
    (output_path : string) : list string :=
  ["ffmpeg"; "-y";
   "-i"; video_path;
   "-i"; audio_path;
   "-filter_complex"; "[1:a]volume=" ++ num_str volume ++ "[a]";
   "-map"; "0:v";
   "-map"; "[a]";
   "-c:v"; "copy";
   "-c:a"; "aac";
   "-b:a"; "192k";
   "-shortest";
   "-movflags"; "+faststart";
   output_path].

Definition merge_audio_video (data : merge_request) (job_id : string)
  : list event * response :=
  handle (
    job_dir <- get_job_dir w job_id ;;
    let video_path := path_join job_dir "input_video.mp4" in
    fetch_video MANIM_RENDERER_URL w (mrg_video_url data) (mrg_video_job_id data)
                video_path ;;;
    let audio_path := path_join job_dir "input_audio.mp3" in
    (if get_truthy (mrg_audio_base64 data) then
       save_base64_file w (get_or (mrg_audio_base64 data) "") audio_path
     else if get_truthy (mrg_audio_url data) then
       download_file w (get_or (mrg_audio_url data) "") audio_path
     else
       return_ ([("success", JBool false);
                 ("error", JStr "audio_base64 or audio_url required")], 400)) ;;;
    let volume := get_or (mrg_volume data) (num_lit "1.0") in
    let output_path := path_join job_dir ("merged_" ++ job_id ++ ".mp4") in
    result <- run_ffmpeg w (merge_audio_video_cmd video_path audio_path volume output_path)
                         600 ;;
    if negb (success result) then ffmpeg_failed result
    else
      file_size <- stat_st_size w output_path ;;
      return_ ([("success", JBool true);
                ("job_id", JStr job_id);
                ("operation", JStr "merge");
                ("output_url", JStr ("/download/" ++ job_id ++ "/merged_" ++ job_id ++ ".mp4"));
                ("file_size", JNum file_size)], 200)).

(** *** Extract audio *)

Record extract_request : Type := {
  ext_video_url : option string;
  ext_video_job_id : option string;
  ext_format : option string
}.

Definition codec_map : list (string * string) :=
  [("mp3", "libmp3lame");
   ("aac", "aac");
   ("wav", "pcm_s16le")].

Definition extract_audio_cmd (video_path audio_format output_path : string)
  : list string :=
  ["ffmpeg"; "-y";
   "-i"; video_path;
   "-vn";
   "-c:a"; get_or (lookup audio_format codec_map) "libmp3lame";
   "-b:a"; "192k";
   output_path].

(** The name of the extracted file, [audio_<job>.<format>]. *)
Definition extract_audio_name (job_id audio_format : string) : string :=
  "audio_" ++ job_id ++ "." ++ audio_format.

Definition extract_audio (data : extract_request) (job_id : string)
  : list event * response :=
  handle (
    job_dir <- get_job_dir w job_id ;;
    let video_path := path_join job_dir "input_video.mp4" in
    fetch_video MANIM_RENDERER_URL w (ext_video_url data) (ext_video_job_id data)
                video_path ;;;
    let audio_format := get_or (ext_format data) "mp3" in
    let output_path := path_join job_dir (extract_audio_name job_id audio_format) in
    result <- run_ffmpeg w (extract_audio_cmd video_path audio_format output_path) 600 ;;
    if negb (success result) then ffmpeg_failed result
    else
      file_size <- stat_st_size w output_path ;;
      return_ ([("success", JBool true);
                ("job_id", JStr job_id);
                ("operation", JStr "extract-audio");
                ("format", JStr audio_format);
                ("output_url",
                 JStr ("/download/" ++ job_id ++ "/" ++ extract_audio_name job_id audio_format));
                ("file_size", JNum file_size)], 200)).

(** *** Thumbnail *)

Record thumbnail_request : Type := {
  thb_video_url : option string;
  thb_video_job_id : option string;
  thb_timestamp : option num;
  thb_width : option Z;
  thb_height : option Z
}.

Definition thumbnail_vf (width height : Z) : string :=
  "scale=" ++ py_int width ++ ":" ++ py_int height
  ++ ":force_original_aspect_ratio=decrease,pad=" ++ py_int width ++ ":"
  ++ py_int height ++ ":(ow-iw)/2:(oh-ih)/2".

Definition thumbnail_cmd (timestamp : num) (video_path : string) (width height : Z)
    (output_path : string) : list string :=
  ["ffmpeg"; "-y";
   "-ss"; num_str timestamp;
   "-i"; video_path;
   "-vframes"; "1";
   "-vf"; thumbnail_vf width height;
   "-q:v"; "2";
   output_path].

Definition generate_thumbnail (data : thumbnail_request) (job_id : string)
  : list event * response :=
  handle (
    job_dir <- get_job_dir w job_id ;;
    let video_path := path_join job_dir "input_video.mp4" in
    fetch_video MANIM_RENDERER_URL w (thb_video_url data) (thb_video_job_id data)
                video_path ;;;
    let timestamp := get_or (thb_timestamp data) (num_lit "5.0") in
    let width := get_or (thb_width data) 1280 in
    let height := get_or (thb_height data) 720 in
    let output_path := path_join job_dir ("thumbnail_" ++ job_id ++ ".jpg") in
    result <- run_ffmpeg w (thumbnail_cmd timestamp video_path width height output_path)
                         600 ;;
    if negb (success result) then ffmpeg_failed result
    else
      file_size <- stat_st_size w output_path ;;
      return_ ([("success", JBool true);
                ("job_id", JStr job_id);
                ("operation", JStr "thumbnail");
                ("output_url", JStr ("/download/" ++ job_id ++ "/thumbnail_" ++ job_id ++ ".jpg"));
                ("file_size", JNum file_size)], 200)).

(** *** Trim

    The three times are read as integers of seconds, as the handler's
    docstring gives them. *)

Record trim_request : Type := {
  trm_video_url : option string;
  trm_video_job_id : option string;
  trm_start : option Z;
  trm_end : option Z;
  trm_duration : option Z
}.

(** [duration] after [if duration is None and end is not None]. *)
Definition trim_duration (start : Z) (duration end_ : option Z) : option Z :=
  match duration, end_ with
  | None, Some e => Some (e - start)
  | _, _ => duration
  end.

(** Truth value of an optional [int]: present and not zero. *)
Definition int_truthy (o : option Z) : bool :=
  match o with
  | Some z => negb (z =? 0)
  | None => false
  end.

Definition trim_cmd (start : Z) (duration : option Z) (video_path output_path : string)
  : list string :=
  let cmd := ["ffmpeg"; "-y";
              "-ss"; py_int start;
              "-i"; video_path] in
  let cmd := if int_truthy duration
             then (cmd ++ ["-t"; py_int (get_or duration 0)])%list
             else cmd in
  (cmd ++ ["-c"; "copy";
           "-movflags"; "+faststart";
           output_path])%list.

Definition trim_video (data : trim_request) (job_id : string)
  : list event * response :=
  handle (
    job_dir <- get_job_dir w job_id ;;
    let video_path := path_join job_dir "input_video.mp4" in
    fetch_video MANIM_RENDERER_URL w (trm_video_url data) (trm_video_job_id data)
                video_path ;;;
    let start := get_or (trm_start data) 0 in
    let duration := trim_duration start (trm_duration data) (trm_end data) in
    let output_path := path_join job_dir ("trimmed_" ++ job_id ++ ".mp4") in
    result <- run_ffmpeg w (trim_cmd start duration video_path output_path) 600 ;;
    if negb (success result) then ffmpeg_failed result
    else
      file_size <- stat_st_size w output_path ;;
      return_ ([("success", JBool true);
                ("job_id", JStr job_id);
                ("operation", JStr "trim");
                ("output_url", JStr ("/download/" ++ job_id ++ "/trimmed_" ++ job_id ++ ".mp4"));
                ("file_size", JNum file_size)], 200)).

(** *** Normalize audio *)

Record normalize_request : Type := {
  nrm_video_url : option string;
  nrm_video_job_id : option string;
  nrm_target_lufs : option num;
  nrm_peak_limit : option num
}.

Definition normalize_af (target_lufs peak_limit : num) : string :=
  "loudnorm=I=" ++ num_str target_lufs ++ ":TP=" ++ num_str peak_limit ++ ":LRA=11".

Definition normalize_cmd (video_path af output_path : string) : list string :=
  ["ffmpeg"; "-y";
   "-i"; video_path;
   "-c:v"; "copy";
   "-af"; af;
   "-c:a"; "aac";
   "-b:a"; "192k";
   "-movflags"; "+faststart";
   output_path].

Definition normalize_audio (data : normalize_request) (job_id : string)
  : list event * response :=
  handle (
    job_dir <- get_job_dir w job_id ;;
    let video_path := path_join job_dir "input_video.mp4" in
    fetch_video MANIM_RENDERER_URL w (nrm_video_url data) (nrm_video_job_id data)
                video_path ;;;
    let target_lufs := get_or (nrm_target_lufs data) (num_of_Z (-14)) in
    let peak_limit := get_or (nrm_peak_limit data) (num_lit "-1.0") in
    let output_path := path_join job_dir ("normalized_" ++ job_id ++ ".mp4") in
    let af := normalize_af target_lufs peak_limit in
    result <- run_ffmpeg w (normalize_cmd video_path af output_path) 600 ;;
    if negb (success result) then ffmpeg_failed result
    else
      file_size <- stat_st_size w output_path ;;
      return_ ([("success", JBool true);
                ("job_id", JStr job_id);
                ("operation", JStr "normalize-audio");
                ("target_lufs", JNum target_lufs);
                ("output_url", JStr ("/download/" ++ job_id ++ "/normalized_" ++ job_id ++ ".mp4"));
                ("file_size", JNum file_size)], 200)).

End MoreHandlers.

(** ** Retrieval and cleanup

    The three routes below look at the file system itself, through paths
    made of the staging root and the one or two segments of the route.  The
    state keeps what such a path can reach: the entries of the staging root
    (a job directory with the names of the files in it, or a plain file),
    whether the root is there at all, and the names beside it in [/tmp].
    Flask's default converter delivers a segment that is not empty and holds
    no [/]; it may be [.] or [..]. *)

Inductive node : Type :=
| Dir (files : list string)
| File.

Record store : Type := {
  (** the entries of [/tmp/ffmpeg-service]; [None] when the directory is not
      there *)
  entries : option (list (string * node));
  (** the other names of [/tmp] *)
  beside : string -> bool;
  (** whether [shutil.rmtree] of an entry of the root (the root itself for
      [.]) runs to its end *)
  removable : string -> bool
}.

Definition with_entries (st : store) (es : option (list (string * node))) : store :=
  {| entries := es; beside := beside st; removable := removable st |}.

(** The entry of the staging root with a given name. *)
Fixpoint find_entry (name : string) (es : list (string * node)) : option node :=
  match es with
  | [] => None
  | (n, e) :: rest => if String.eqb name n then Some e else find_entry name rest
  end.

(** One segment joined to a path: [pathlib] drops [.] (and the empty
    string) and keeps [..], which the file system resolves. *)
Inductive segment : Type :=
| Here
| Up
| Name (n : string).

Definition segment_of (s : string) : segment :=
  if String.eqb s "" || String.eqb s "." then Here
  else if String.eqb s ".." then Up
  else Name s.

(** [str(dir / s)]. *)
Definition join_segment (dir s : string) : string :=
  match segment_of s with
  | Here => dir
  | _ => dir ++ "/" ++ s
  end.

(** [(TEMP_DIR / job_id).exists()]. *)
Definition job_exists (st : store) (job_id : string) : bool :=
  match entries st with
  | None => false
  | Some es =>
      match segment_of job_id with
      | Here | Up => true
      | Name j => match find_entry j es with Some _ => true | None => false end
      end
  end.

(** [(TEMP_DIR / job_id / filename).exists()]: the root, [/tmp] or [/] for
    dots alone, an entry of the root, a name beside the root, or a file of a
    job directory.  Nothing is found through a plain file or once the root
    is gone. *)
Definition file_exists (st : store) (job_id filename : string) : bool :=
  match entries st with
  | None => false
  | Some es =>
      match segment_of job_id, segment_of filename with
      | Here, Here | Here, Up | Up, Here | Up, Up => true
      | Here, Name f =>
          match find_entry f es with Some _ => true | None => false end
      | Up, Name f => String.eqb f "ffmpeg-service" || beside st f
      | Name j, Here =>
          match find_entry j es with Some _ => true | None => false end
      | Name j, Up =>
          match find_entry j es with Some (Dir _) => true | _ => false end
      | Name j, Name f =>
          match find_entry j es with
          | Some (Dir files) => existsb (String.eqb f) files
          | _ => false
          end
      end
  end.

(** The entries without those of a given name. *)
Definition remove_entry (name : string) (es : list (string * node))
  : list (string * node) :=
  filter (fun e => negb (String.eqb name (fst e))) es.

Definition is_dir (e : string * node) : bool :=
  match snd e with
  | Dir _ => true
  | File => false
  end.

(** [s.endswith(suffix)]. *)
Definition endswith (s suffix : string) : bool :=
  String.eqb (slice_last (String.length suffix) s) suffix.

(** The content type the download route gives a file name. *)
Definition mimetype_of (filename : string) : string :=
  let mimetype := "video/mp4" in
  if endswith filename ".mp3" then "audio/mpeg"
  else if endswith filename ".jpg" then "image/jpeg"
  else if endswith filename ".png" then "image/png"
  else mimetype.

(** What [send_file] is asked to send. *)
Record sent_file : Type := {
  sent_path : string;
  sent_mimetype : string;
  sent_as_attachment : bool;
  sent_download_name : string
}.

Section Routes.

Context {N : PyNum}.

(** [GET /download/<job_id>/<filename>]: the 404 answer, or the call of
    [send_file]. *)
Definition download_file_route (st : store) (job_id filename : string)
  : response + sent_file :=
  let file_path := join_segment (join_segment TEMP_DIR job_id) filename in
  if negb (file_exists st job_id filename) then
    inl ([("error", JStr "File not found")], 404)
  else
    inr {| sent_path := file_path;
           sent_mimetype := mimetype_of filename;
           sent_as_attachment := true;
           sent_download_name := filename |}.

(** [shutil.rmtree(TEMP_DIR / job_id)] on a path that exists: the state
    afterwards, or [None] when it raises: on a plain file, on a removal that
    fails, and on [..], where the last step is the removal of a path that
    ends in [..], which the system refuses (what is left on disk then is not
    tracked).  For [.] the path is the staging root itself. *)
Definition rmtree_job (st : store) (job_id : string) : option store :=
  match segment_of job_id with
  | Here => if removable st job_id then Some (with_entries st None) else None
  | Up => None
  | Name j =>
      match find_entry j (get_or (entries st) []) with
      | Some (Dir _) =>
          if removable st j
          then Some (with_entries st
                       (Some (remove_entry j (get_or (entries st) []))))
          else None
      | _ => None
      end
  end.

(** [DELETE /cleanup/<job_id>]: the state afterwards and the answer; [None]
    is the removal raising, which the route does not handle. *)
Definition cleanup (st : store) (job_id : string) : option (store * response) :=
  if job_exists st job_id then
    match rmtree_job st job_id with
    | Some st' =>
        Some (st', ([("success", JBool true);
                     ("message", JStr ("Cleaned up " ++ job_id))], 200))
    | None => None
    end
  else
    Some (st, ([("success", JBool false); ("error", JStr "Job not found")], 404)).

(** [DELETE /cleanup-all]: every directory of the staging root is removed
    and counted; plain files stay.  [None] is an exception the route does not
    handle: [iterdir] on a root that is not there, or a removal that fails
    (the directories before it are gone by then). *)
Definition cleanup_all (st : store) : option (store * response) :=
  match entries st with
  | None => None
  | Some es =>
      match
        fold_left (fun acc item =>
                     match acc with
                     | None => None
                     | Some (kept, count) =>
                         if is_dir item then
                           if removable st (fst item)
                           then Some (kept, count + 1)
                           else None
                         else Some ((kept ++ [item])%list, count)
                     end)
                  es (Some ([], 0))
      with
      | None => None
      | Some (kept, count) =>
          Some (with_entries st (Some kept),
                ([("success", JBool true); ("cleaned", JNum (num_of_Z count))], 200))
      end
  end.

End Routes.

(** ** Reading runs *)

Section Readings.

Context {N : PyNum}.

(** Every event of a computation satisfies [P]. *)
Definition trace_all {A : Type} (P : event -> Prop) (m : M A) : Prop :=
  Forall P (fst m).

(** The response a computation returns early, if it does, satisfies [P]. *)
Definition answers {A : Type} (P : response -> Prop) (m : M A) : Prop :=
  match snd m with
  | Return r => P r
  | _ => True
  end.

(** The status and the ["success"] flag of a response agree. *)
Definition coherent (r : response) : Prop :=
  (status r = 200 /\ field "success" r = Some (JBool true))
  \/ ((status r = 400 \/ status r = 500) /\ field "success" r = Some (JBool false)).

(** A plain name: one path segment that names an entry of the directory it
    is joined to.  It is not empty, is neither [.] nor [..] and holds no
    [/]. *)
Definition plain_name (name : string) : bool :=
  negb (String.eqb name "")
  && negb (String.eqb name ".")
  && negb (String.eqb name "..")
  && negb (has_char "/" name).



(** A success is backed by the engine: a computation that returns a success
    ran the engine exactly once, and that run exited with status 0; one that
    is still going has not run it. *)
Definition engine_backed {A : Type} (w : world) (m : M A) : Prop :=
  match snd m with
  | Return r =>
      succeeded r = true ->
      exists cmd timeout,
        engine_calls (fst m) = [(cmd, timeout)]
        /\ engine_succeeds w cmd timeout = true
  | Val _ => engine_calls (fst m) = []
  | Raise _ => True
  end.

(** A failed engine run is reported: a computation that returns after an
    engine run that exited with a nonzero status returns the 500
    ["FFmpeg failed"] with the diagnostics of that run, and one that raises
    does so after no such run. *)
Definition failure_reported {A : Type} (w : world) (m : M A) : Prop :=
  match snd m with
  | Return r =>
      forall cmd timeout p,
        In (cmd, timeout) (engine_calls (fst m)) ->
        ffmpeg w cmd timeout = Some p ->
        returncode p <> 0 ->
        r = ([("success", JBool false); ("error", JStr "FFmpeg failed");
              ("details", json_opt_str (res_stderr (result_of p)))], 500)
  | Val _ => engine_calls (fst m) = []
  | Raise _ =>
      forall cmd timeout p,
        In (cmd, timeout) (engine_calls (fst m)) ->
        ffmpeg w cmd timeout = Some p ->
        returncode p = 0
  end.

(** An engine run that overran its timeout ended the computation with
    [TimeoutExpired], and is the last thing it did. *)
Definition timeout_raises {A : Type} (w : world) (m : M A) : Prop :=
  forall cmd timeout,
    In (cmd, timeout) (engine_calls (fst m)) ->
    ffmpeg w cmd timeout = None ->
    snd m = Raise "TimeoutExpired"
    /\ exists before, fst m = (before ++ [EvEngine cmd timeout])%list.

(** The same three readings of a finished run, its trace and its answer. *)

Definition run_backed (w : world) (run : list event * response) : Prop :=
  succeeded (snd run) = true ->
  exists cmd timeout,
    engine_calls (fst run) = [(cmd, timeout)]
    /\ engine_succeeds w cmd timeout = true.

Definition run_reports_failure (w : world) (run : list event * response) : Prop :=
  forall cmd timeout p,
    In (cmd, timeout) (engine_calls (fst run)) ->
    ffmpeg w cmd timeout = Some p ->
    returncode p <> 0 ->
    snd run = ([("success", JBool false); ("error", JStr "FFmpeg failed");
                ("details", json_opt_str (res_stderr (result_of p)))], 500).

Definition run_reports_timeout (w : world) (run : list event * response) : Prop :=
  forall cmd timeout,
    In (cmd, timeout) (engine_calls (fst run)) ->
    ffmpeg w cmd timeout = None ->
    snd run = ([("success", JBool false); ("error", JStr "TimeoutExpired")], 500)
    /\ exists before, fst run = (before ++ [EvEngine cmd timeout])%list.

(** The run of a request turned down right after its job directory was
    made (or while making it). *)
Definition rejected_run (w : world) (job_id error : string)
  : list event * response :=
  ([EvMkdir (path_join TEMP_DIR job_id)],
   if fs_ok w (path_join TEMP_DIR job_id)
   then ([("success", JBool false); ("error", JStr error)], 400)
   else ([("success", JBool false); ("error", JStr "OSError")], 500)).

(** The address [fetch_video] downloads the video from, if the request names
    one: [video_url], else the renderer's address of [video_job_id]. *)
Definition video_address (renderer : string) (video_url video_job_id : option string)
  : option string :=
  if get_truthy video_url then Some (get_or video_url "")
  else if get_truthy video_job_id
       then Some (renderer ++ "/video/" ++ get_or video_job_id "")
       else None.

(** The run of a request turned down once its video has been fetched from
    [url]. *)
Definition rejected_after_fetch (job_id url error : string)
  : list event * response :=
  ([EvMkdir (path_join TEMP_DIR job_id);
    EvDownload url (path_join (path_join TEMP_DIR job_id) "input_video.mp4")],
   ([("success", JBool false); ("error", JStr error)], 400)).




(** The file a concat request stores its clip number [i] in. *)
Definition input_path (job_dir : string) (i : Z) : string :=
  path_join job_dir ("input_" ++ py_int i ++ ".mp4").

(** A clip that names no source. *)
Definition sourceless (video : video_source) : bool :=
  negb (get_truthy (src_url video))
  && negb (get_truthy (src_job_id video))
  && negb (get_truthy (src_base64 video)).

(** What a request asks of a best-effort step of the pipeline: the test at
    the head of the step's block. *)
Definition step_requested (data : pipeline_request) (s : optional_step) : bool :=
  match s with
  | AddMusic => get_truthy (background_music_url data)
  | AddSubtitles => get_truthy (subtitles data)
  | ResizePlatform =>
      match (if get_truthy (platform data)
             then lookup (get_or (platform data) "") pipeline_presets else None) with
      | Some _ => true
      | None => false
      end
  | NormalizeAudio => get_or (normalize data) false
  end.

(** The log entries of the best-effort steps that [done] marks, in the order
    the steps run. *)
Definition logged_steps (data : pipeline_request) (done : optional_step -> bool)
  : list string :=
  flat_map (fun s => if done s then [step_name data s] else []) optional_steps.

(** A computation that goes on does so with a value satisfying [Q]; one that
    returns early does so with a response satisfying [P]. *)
Definition ends {A : Type} (Q : A -> Prop) (P : response -> Prop) (m : M A) : Prop :=
  match snd m with
  | Val a => Q a
  | Return r => P r
  | Raise _ => True
  end.

(** A trace holds at most [n] engine invocations, each with the time limit
    [timeout]. *)
Definition budget (n : nat) (timeout : Z) (t : list event) : Prop :=
  (List.length (engine_calls t) <= n)%nat
  /\ Forall (fun c => snd c = timeout) (engine_calls t).

(** The event removes a directory. *)
Definition removes (e : event) : bool :=
  match e with
  | EvRmtree _ => true
  | _ => false
  end.

End Readings.

(** ** Sample worlds and requests

    Concrete collaborators on which the handlers are run below.  Numbers are
    integers ([ZNum]). *)

Definition sample_renderer : string := "http://renderer.local".

Definition sample_job : string := "1a2b3c4d".

Definition sample_info : json (N := ZNum) :=
  JObj [("format", JObj [("duration", JNum (60 : @num ZNum))])].

(** Every collaborator does its work; the engine exits with the status
    [exit_status] gives its command. *)
Definition world_with (exit_status : list string -> Z) (probe_status : Z)
  : world (N := ZNum) := {|
  http_get := fun _ => true;
  b64decode := fun _ => true;
  ffmpeg := fun cmd _ =>
    Some {| returncode := exit_status cmd; stdout := ""; stderr := "ffmpeg: error" |};
  ffprobe := fun _ => {| returncode := probe_status; stdout := "{}"; stderr := "" |};
  json_loads := fun _ => Some sample_info;
  fs_ok := fun _ => true;
  rmtree_ok := fun _ => true;
  stat_size := fun _ => Some (1024 : @num ZNum)
|}.

(** Nothing fails. *)
Definition calm_world : world (N := ZNum) := world_with (fun _ => 0) 0.

(** Everything works but the removal of a directory. *)
Definition stuck_removal_world : world (N := ZNum) := {|
  http_get := fun _ => true;
  b64decode := fun _ => true;
  ffmpeg := fun _ _ => Some {| returncode := 0; stdout := ""; stderr := "" |};
  ffprobe := fun _ => {| returncode := 0; stdout := "{}"; stderr := "" |};
  json_loads := fun _ => Some sample_info;
  fs_ok := fun _ => true;
  rmtree_ok := fun _ => false;
  stat_size := fun _ => Some (1024 : @num ZNum)
|}.

(** The probe exits with status 1. *)
Definition probe_failing_world : world (N := ZNum) := world_with (fun _ => 0) 1.

(** The engine exits with status 1 on the command that writes [name] in the
    sample job's directory, with 0 on the others. *)
Definition failing_on (name : string) : world (N := ZNum) :=
  world_with (fun cmd =>
                if String.eqb (last cmd "") (TEMP_DIR ++ "/" ++ sample_job ++ "/" ++ name)
                then 1 else 0) 0.

(** The engine overruns its timeout on the command that writes [name] in the
    sample job's directory, and exits with 0 on the others. *)
Definition overrunning_on (name : string) : world (N := ZNum) := {|
  http_get := fun _ => true;
  b64decode := fun _ => true;
  ffmpeg := fun cmd _ =>
    if String.eqb (last cmd "") (TEMP_DIR ++ "/" ++ sample_job ++ "/" ++ name)
    then None
    else Some {| returncode := 0; stdout := ""; stderr := "" |};
  ffprobe := fun _ => {| returncode := 0; stdout := "{}"; stderr := "" |};
  json_loads := fun _ => Some sample_info;
  fs_ok := fun _ => true;
  rmtree_ok := fun _ => true;
  stat_size := fun _ => Some (1024 : @num ZNum)
|}.

Definition sample_probe_request : probe_request :=
  {| probe_url := Some "http://media.local/clip.mp4"; probe_job_id := None |}.

Definition sample_pipeline_request : pipeline_request (N := ZNum) :=
  {| video_job_id := Some "scene42";
     audio_base64 := Some "SUQz";
     subtitles := Some "1";
     background_music_url := Some "http://media.local/theme.mp3";
     music_volume := Some (1 : @num ZNum);
     platform := Some "tiktok";
     normalize := Some true |}.

Definition clip (url : string) : video_source :=
  {| src_url := Some url; src_job_id := None; src_base64 := None |}.

Definition sample_concat_request (vs : list video_source) (transition : string)
  : concat_request (N := ZNum) :=
  {| videos := Some vs;
     transition := Some transition;
     transition_duration := Some (1 : @num ZNum) |}.

Definition one_clip_fade : concat_request (N := ZNum) :=
  sample_concat_request [clip "http://media.local/a.mp4"] "fade".

Definition two_clips_dissolve : concat_request (N := ZNum) :=
  sample_concat_request
    [clip "http://media.local/a.mp4"; clip "http://media.local/b.mp4"]
    "dissolve".

(** A clip that names no source. *)
Definition blank_clip : video_source :=
  {| src_url := None; src_job_id := None; src_base64 := None |}.

Definition sample_clips : list video_source :=
  [clip "http://media.local/a.mp4"; clip "http://media.local/b.mp4"].

Definition sample_music_request : music_request (N := ZNum) :=
  {| mus_video_url := Some "http://media.local/talk.mp4";
     mus_video_job_id := None;
     mus_music_url := Some "http://media.local/theme.mp3";
     mus_music_base64 := None;
     mus_music_volume := Some (1 : @num ZNum);
     mus_voice_volume := Some (1 : @num ZNum);
     mus_loop_music := None;
     mus_fade_out := Some (2 : @num ZNum) |}.

(** A staging root with two job directories and a stray file; [/tmp] holds
    one other file, and every removal works. *)
Definition sample_store : store :=
  {| entries :=
       Some [("1a2b3c4d", Dir ["final_1a2b3c4d.mp4"; "01_video.mp4"]);
             ("notes.txt", File);
             ("5e6f7a8b", Dir ["thumbnail_5e6f7a8b.jpg"])];
     beside := String.eqb "passwords.txt";
     removable := fun _ => true |}.

(** A merge request that names its video and no audio. *)
Definition audioless_merge_request : merge_request (N := ZNum) :=
  {| mrg_video_url := Some "http://media.local/talk.mp4";
     mrg_video_job_id := None;
     mrg_audio_base64 := None;
     mrg_audio_url := Some "";
     mrg_volume := None |}.


(** * Properties *)

(** ** Strings and numerals *)

Lemma length_list_ascii_of_string (s : string) :
  List.length (list_ascii_of_string s) = String.length s.
Proof. induction s as [|c s IH]; simpl; congruence. Qed.

Lemma length_string_of_list_ascii (l : list ascii) :
  String.length (string_of_list_ascii l) = List.length l.
Proof. induction l as [|c l IH]; simpl; congruence. Qed.

Lemma string_of_list_ascii_app (l1 l2 : list ascii) :
  string_of_list_ascii (l1 ++ l2)
  = string_of_list_ascii l1 ++ string_of_list_ascii l2.
Proof. induction l1 as [|c l1 IH]; simpl; congruence. Qed.

Lemma append_assoc (a b c : string) : (a ++ b) ++ c = a ++ (b ++ c).
Proof. induction a as [|x a IH]; simpl; congruence. Qed.


Lemma append_inv_head (p a b : string) : p ++ a = p ++ b -> a = b.
Proof.
  induction p as [|x p IH]; simpl; intros H.
  - exact H.
  - injection H as H. auto.
Qed.

(** The slice keeps a suffix of the string. *)
Lemma slice_last_suffix (k : nat) (s : string) :
  exists pre, s = pre ++ slice_last k s.
Proof.
  unfold slice_last.
  exists (string_of_list_ascii
            (firstn (String.length s - k) (list_ascii_of_string s))).
  rewrite <- string_of_list_ascii_app, firstn_skipn.
  symmetry. apply string_of_list_ascii_of_string.
Qed.

(** The slice has [k] characters, or all of them when there are fewer. *)
Lemma slice_last_length (k : nat) (s : string) :
  String.length (slice_last k s) = Nat.min k (String.length s).
Proof.
  unfold slice_last.
  rewrite length_string_of_list_ascii, length_skipn, length_list_ascii_of_string.
  lia.
Qed.

Lemma str_truthy_false (s : string) : str_truthy s = false -> s = "".
Proof. destruct s; simpl; [reflexivity | discriminate]. Qed.





(** ** Characters *)









(** ** Reading back what the builders print *)









(** ** The step executor *)

Section Executor.

Context {N : PyNum}.

(** C5.  Every engine invocation of [run_ffmpeg] that completes is reported
    successful exactly when the exit status is 0, whatever the standard
    error holds; the diagnostics kept are the last 1000 characters of the
    standard error (all of it when shorter, none when it is empty).  An
    invocation that overruns its timeout reports nothing: it raises. *)
Theorem run_ffmpeg_exit_status_and_stderr_tail :
  forall (w : world) (cmd : list string) (timeout : Z),
    match ffmpeg w cmd timeout with
    | Some p =>
        run_ffmpeg w cmd timeout = ([EvEngine cmd timeout], Val (result_of p))
        /\ (success (result_of p) = true <-> returncode p = 0)
        /\ (success (result_of p) = false <-> returncode p <> 0)
        /\ (forall err : string,
               success (result_of {| returncode := returncode p;
                                     stdout := stdout p;
                                     stderr := err |})
               = success (result_of p))
        /\ match res_stderr (result_of p) with
           | Some d =>
               (String.length d <= 1000)%nat
               /\ String.length d = Nat.min 1000 (String.length (stderr p))
               /\ exists pre, stderr p = pre ++ d
           | None => stderr p = ""
           end
    | None =>
        run_ffmpeg w cmd timeout = ([EvEngine cmd timeout], Raise "TimeoutExpired")
    end.
Proof.
  intros w cmd timeout.
  unfold run_ffmpeg, bind, emit.
  destruct (ffmpeg w cmd timeout) as [p|]; simpl; [|reflexivity].
  split; [reflexivity|].
  split; [apply Z.eqb_eq|].
  split; [apply Z.eqb_neq|].
  split; [reflexivity|].
  destruct (str_truthy (stderr p)) eqn:E.
  - pose proof (slice_last_length 1000 (stderr p)) as L.
    split; [lia|]. split; [exact L|]. apply slice_last_suffix.
  - now apply str_truthy_false.
Qed.

End Executor.

(** Numerals of different integers differ. *)
Lemma py_int_inj (a b : Z) : py_int a = py_int b -> a = b.
Proof.
  unfold py_int. intros H.
  apply DecimalZ.to_int_inj.
  assert (ok : forall z, Z.to_int z <> Decimal.Pos Decimal.Nil
                         /\ Z.to_int z <> Decimal.Neg Decimal.Nil).
  { intros [|p|p]; simpl; split; try discriminate;
      intros [= E]; now apply (DecimalPos.Unsigned.to_uint_nonnil p). }
  destruct (ok a) as [a1 a2], (ok b) as [b1 b2].
  pose proof (NilZero.isi (Z.to_int a) a1 a2) as Ha.
  pose proof (NilZero.isi (Z.to_int b) b1 b2) as Hb.
  rewrite H in Ha. congruence.
Qed.

(** ** The crossfade chain *)

Section Crossfade.

Context {N : PyNum}.







End Crossfade.


(** ** The handler monad *)

Section Monad.

Context {N : PyNum}.

Lemma bind_trace {A B : Type} (m : M A) (f : A -> M B) :
  fst (bind m f)
  = (fst m ++ match snd m with
              | Val a => fst (f a)
              | _ => []
              end)%list.
Proof.
  destruct m as [t [a | r | e]]; simpl.
  - now destruct (f a).
  - now rewrite app_nil_r.
  - now rewrite app_nil_r.
Qed.

Lemma bind_outcome {A B : Type} (m : M A) (f : A -> M B) :
  snd (bind m f)
  = match snd m with
    | Val a => snd (f a)
    | Return r => Return r
    | Raise e => Raise e
    end.
Proof. destruct m as [t [a | r | e]]; simpl; [now destruct (f a) | easy | easy]. Qed.

Lemma bind_val {A B : Type} (t : list event) (a : A) (f : A -> M B) :
  bind (t, Val a) f = ((t ++ fst (f a))%list, snd (f a)).
Proof. simpl. now destruct (f a). Qed.

Lemma bind_assoc {A B C : Type} (m : M A) (f : A -> M B) (g : B -> M C) :
  bind (bind m f) g = bind m (fun a => bind (f a) g).
Proof.
  destruct m as [t [a | r | e]]; try reflexivity.
  simpl. destruct (f a) as [t1 [b | r | e]]; simpl; try reflexivity.
  destruct (g b) as [t2 o]. now rewrite app_assoc.
Qed.

Lemma bind_ext {A B : Type} (m : M A) (f g : A -> M B) :
  (forall a, f a = g a) -> bind m f = bind m g.
Proof. intros H. destruct m as [t [a | r | e]]; simpl; [now rewrite H | easy | easy]. Qed.

Lemma bind_ret_l {A B : Type} (a : A) (f : A -> M B) : bind (ret a) f = f a.
Proof. unfold ret. simpl. now destruct (f a). Qed.

Lemma engine_calls_app (t1 t2 : list event) :
  engine_calls (t1 ++ t2) = (engine_calls t1 ++ engine_calls t2)%list.
Proof. apply flat_map_app. Qed.

Lemma copies_app (t1 t2 : list event) :
  copies (t1 ++ t2) = (copies t1 ++ copies t2)%list.
Proof. apply flat_map_app. Qed.

Lemma quiet_bind {A B : Type} (m : M A) (f : A -> M B) :
  engine_calls (fst m) = [] ->
  (forall a, engine_calls (fst (f a)) = []) ->
  engine_calls (fst (bind m f)) = [].
Proof.
  intros Hm Hf. rewrite bind_trace, engine_calls_app, Hm.
  destruct (snd m); [apply Hf | reflexivity | reflexivity].
Qed.

Lemma handle_trace (body : M Empty_set) : fst (handle body) = fst body.
Proof. destruct body as [t [[] | r | e]]; reflexivity. Qed.

End Monad.

(** ** Primitives as equations *)

Section Primitives.
Context {N : PyNum}.
Variable w : world.

Lemma get_job_dir_eq (job_id : string) :
  get_job_dir w job_id
  = ([EvMkdir (path_join TEMP_DIR job_id)],
     if fs_ok w (path_join TEMP_DIR job_id)
     then Val (path_join TEMP_DIR job_id) else Raise "OSError").
Proof. unfold get_job_dir, bind, emit. simpl. now destruct (fs_ok w _). Qed.

Lemma get_job_dir_val (job_id a : string) :
  snd (get_job_dir w job_id) = Val a -> a = path_join TEMP_DIR job_id.
Proof.
  rewrite get_job_dir_eq. cbn [snd].
  destruct (fs_ok w _); [now intros [= <-] | discriminate].
Qed.

Lemma download_file_eq (url dest : string) :
  download_file w url dest
  = ([EvDownload url dest],
     if http_get w url then Val dest else Raise "RequestException").
Proof. unfold download_file, bind, emit. simpl. now destruct (http_get w _). Qed.

Lemma save_base64_file_eq (data dest : string) :
  save_base64_file w data dest
  = ([EvSaveB64 dest],
     if b64decode w data then Val dest else Raise "binascii.Error").
Proof. unfold save_base64_file, bind, emit. simpl. now destruct (b64decode w _). Qed.

Lemma write_file_eq (path content : string) :
  write_file w path content
  = ([EvWrite path content], if fs_ok w path then Val tt else Raise "OSError").
Proof. unfold write_file, bind, emit. simpl. now destruct (fs_ok w _). Qed.

Lemma copy_eq (src dst : string) :
  copy w src dst
  = ([EvCopy src dst], if fs_ok w dst then Val tt else Raise "OSError").
Proof. unfold copy, bind, emit. simpl. now destruct (fs_ok w _). Qed.

Lemma rmtree_eq (dir : string) :
  rmtree w dir
  = ([EvRmtree dir], if rmtree_ok w dir then Val tt else Raise "OSError").
Proof. unfold rmtree, bind, emit. simpl. now destruct (rmtree_ok w _). Qed.

Lemma get_media_info_nonzero (file_path : string) :
  returncode (ffprobe w (probe_cmd file_path)) <> 0 ->
  get_media_info w file_path = ([EvProbe (probe_cmd file_path)], Val None).
Proof.
  intros H. unfold get_media_info, bind, emit. simpl.
  apply Z.eqb_neq in H. now rewrite H.
Qed.

Lemma run_ffmpeg_eq (cmd : list string) (timeout : Z) :
  run_ffmpeg w cmd timeout
  = ([EvEngine cmd timeout],
     match ffmpeg w cmd timeout with
     | Some p => Val (result_of p)
     | None => Raise "TimeoutExpired"
     end).
Proof. unfold run_ffmpeg, bind, emit. simpl. now destruct (ffmpeg w _ _). Qed.

End Primitives.

(** ** Probe *)

(** In any world where the job directory, the download and the removal
    work, a probe that exits with a nonzero status is answered with ["success": true] and
    no metadata. *)
Lemma probe_media_nonzero_exit {N : PyNum} (renderer : string) (w : world)
    (url job_id : string) :
  let job_dir := path_join TEMP_DIR job_id in
  let file_path := path_join job_dir "probe_file" in
  str_truthy url = true ->
  fs_ok w job_dir = true ->
  rmtree_ok w job_dir = true ->
  http_get w url = true ->
  returncode (ffprobe w (probe_cmd file_path)) <> 0 ->
  probe_media renderer w {| probe_url := Some url; probe_job_id := None |} job_id
  = ([EvMkdir job_dir; EvDownload url file_path; EvProbe (probe_cmd file_path);
      EvRmtree job_dir],
     ([("success", JBool true); ("info", JNull)], 200)).
Proof.
  intros job_dir file_path Hurl Hfs Hrm Hget Hrc.
  unfold probe_media. rewrite get_job_dir_eq. fold job_dir. rewrite Hfs, bind_val.
  cbv beta zeta. cbn [get_truthy probe_url get_or]. rewrite Hurl.
  rewrite download_file_eq, Hget, bind_val. cbv beta.
  fold file_path. rewrite (get_media_info_nonzero w file_path Hrc), bind_val.
  cbv beta. rewrite rmtree_eq, Hrm. reflexivity.
Qed.

(** C9 (the code's behaviour at the failing input).  When the probe exits
    with status 1 the handler still answers 200 with ["success": true] and
    ["info": null]. *)
Theorem probe_media_reports_success_on_probe_failure :
  probe_media sample_renderer probe_failing_world sample_probe_request sample_job
  = ([EvMkdir "/tmp/ffmpeg-service/1a2b3c4d";
      EvDownload "http://media.local/clip.mp4" "/tmp/ffmpeg-service/1a2b3c4d/probe_file";
      EvProbe (probe_cmd "/tmp/ffmpeg-service/1a2b3c4d/probe_file");
      EvRmtree "/tmp/ffmpeg-service/1a2b3c4d"],
     ([("success", JBool true); ("info", JNull)], 200)).
Proof. reflexivity. Qed.

(** ** Subtitles *)

(** C7 (the code's behaviour).  The style string does not depend on the
    colours of the request: the two colour fields are always white and black.
    The two positions give different alignments but the same margin. *)
Theorem subtitle_filter_ignores_colours :
  forall {N : PyNum} (srt_path : string) (font_size : num)
         (font_color outline_color font_color' outline_color' position : string),
    subtitle_filter srt_path font_size font_color outline_color position
    = subtitle_filter srt_path font_size font_color' outline_color' position
    /\ subtitle_filter srt_path font_size font_color outline_color position
       = "subtitles='" ++ srt_path ++ "':force_style='FontSize=" ++ num_str font_size
         ++ ",PrimaryColour=&H00FFFFFF,OutlineColour=&H00000000,BorderStyle=3,Outline=2,MarginV="
         ++ py_int (margin_v position) ++ ",Alignment=" ++ py_int (alignment position) ++ "'"
    /\ margin_v "top" = margin_v "bottom"
    /\ alignment "bottom" = 2 /\ alignment "top" = 6.
Proof.
  intros. split; [reflexivity|]. split; [|now cbn].
  unfold subtitle_filter. simpl.
  repeat (rewrite ?append_assoc; simpl). reflexivity.
Qed.

(** ** Engine invocations of a computation *)

Section Calls.

Context {N : PyNum}.

Variable w : world.

Lemma calls_all_bind {A B : Type} (P : list string * Z -> Prop)
    (m : M A) (f : A -> M B) :
  calls_all P m -> (forall a, calls_all P (f a)) -> calls_all P (bind m f).
Proof.
  unfold calls_all. intros Hm Hf.
  rewrite bind_trace, engine_calls_app. apply Forall_app. split; [exact Hm|].
  destruct (snd m); [apply Hf | constructor | constructor].
Qed.

Lemma calls_all_bind_val {A B : Type} (P : list string * Z -> Prop)
    (m : M A) (f : A -> M B) :
  calls_all P m ->
  (forall a, snd m = Val a -> calls_all P (f a)) ->
  calls_all P (bind m f).
Proof.
  unfold calls_all. intros Hm Hf.
  rewrite bind_trace, engine_calls_app. apply Forall_app. split; [exact Hm|].
  destruct (snd m); [now apply Hf | constructor | constructor].
Qed.

Lemma calls_all_nil {A : Type} (P : list string * Z -> Prop) (o : outcome A) :
  calls_all P (([] : list event), o).
Proof. constructor. Qed.

Lemma calls_all_handle (P : list string * Z -> Prop) (body : M Empty_set) :
  calls_all P body -> Forall P (engine_calls (fst (handle body))).
Proof. now rewrite handle_trace. Qed.

Lemma quiet_calls {A : Type} (P : list string * Z -> Prop) (m : M A) :
  engine_calls (fst m) = [] -> calls_all P m.
Proof. unfold calls_all. intros ->. constructor. Qed.

Lemma get_job_dir_quiet job_id : engine_calls (fst (get_job_dir w job_id)) = [].
Proof. unfold get_job_dir, bind, emit. simpl. now destruct (fs_ok w _). Qed.

Lemma download_file_quiet url dest :
  engine_calls (fst (download_file w url dest)) = [].
Proof. unfold download_file, bind, emit. simpl. now destruct (http_get w _). Qed.

Lemma save_base64_file_quiet data dest :
  engine_calls (fst (save_base64_file w data dest)) = [].
Proof. unfold save_base64_file, bind, emit. simpl. now destruct (b64decode w _). Qed.

Lemma write_file_quiet path content :
  engine_calls (fst (write_file w path content)) = [].
Proof. unfold write_file, bind, emit. simpl. now destruct (fs_ok w _). Qed.

Lemma stat_st_size_quiet path : engine_calls (fst (stat_st_size w path)) = [].
Proof. unfold stat_st_size. now destruct (stat_size w _). Qed.

Lemma get_media_info_quiet path :
  engine_calls (fst (get_media_info w path)) = [].
Proof.
  unfold get_media_info, bind, emit. simpl.
  destruct (returncode _ =? 0); [|reflexivity]. now destruct (json_loads w _).
Qed.

Lemma media_duration_no_events (info : option json) :
  fst (media_duration info) = [].
Proof.
  unfold media_duration.
  destruct (json_truthy (json_opt info)); [|reflexivity].
  destruct (subscript (json_opt info) "format") as [fmt|]; [|reflexivity].
  destruct (subscript fmt "duration") as [d|]; [|reflexivity].
  now destruct (py_float d).
Qed.

Lemma media_duration_quiet (info : option json) :
  engine_calls (fst (media_duration info)) = [].
Proof. now rewrite media_duration_no_events. Qed.

Lemma fetch_video_quiet renderer u j path :
  engine_calls (fst (fetch_video renderer w u j path)) = [].
Proof.
  unfold fetch_video.
  destruct (get_truthy u); [apply download_file_quiet|].
  destruct (get_truthy j); [apply download_file_quiet | reflexivity].
Qed.

Lemma run_ffmpeg_calls (P : list string * Z -> Prop) cmd timeout :
  P (cmd, timeout) -> calls_all P (run_ffmpeg w cmd timeout).
Proof.
  intros H. unfold calls_all, run_ffmpeg, bind, emit. simpl.
  destruct (ffmpeg w cmd timeout); simpl; repeat constructor; exact H.
Qed.

End Calls.

Create HintDb quiet.
#[export] Hint Resolve get_job_dir_quiet download_file_quiet
  save_base64_file_quiet write_file_quiet stat_st_size_quiet
  get_media_info_quiet media_duration_quiet fetch_video_quiet : quiet.

(** Walks down a handler body, one statement at a time. *)
Ltac calls_all_tac :=
  repeat first
    [ apply calls_all_nil
    | apply run_ffmpeg_calls
    | apply quiet_calls; solve [auto with quiet]
    | apply calls_all_bind; [|intros]
    | match goal with
      | |- calls_all _ (if ?b then _ else _) => destruct b
      | |- calls_all _ (match ?x with _ => _ end) => destruct x
      end ].

(** ** Background music *)

(** C4.  The audio graph of [add_background_music] is the voice branch (from
    input 0), the music branch (from input 1) and the mix stage, which takes
    [voice] first and [music] second with [duration=first]; the pipeline's
    music step ends with the same stage.  Under the engine's contract the mix
    then declares the length of the voice input, whatever the length of the
    music, looped or not.  Every engine command the handler runs carries such
    a graph. *)
Theorem music_mix_duration_is_first :
  forall {N : PyNum} (voice_vol music_vol : num) (loop_music : bool)
         (fade_out duration : num),
    music_filter_complex voice_vol music_vol loop_music fade_out duration
    = ("[0:a]volume=" ++ num_str voice_vol ++ "[voice];")
      ++ (music_filter music_vol loop_music fade_out duration ++ ";")
      ++ render_amix voice_music_mix
    /\ (exists body,
           music_filter music_vol loop_music fade_out duration
           = "[1:a]" ++ body ++ "[music]")
    /\ render_amix voice_music_mix = "[voice][music]amix=inputs=2:duration=first[aout]"
    /\ (exists graph,
           pipeline_music_filter music_vol duration
           = "[0:a]volume=1.0[voice];" ++ graph ++ render_amix voice_music_mix)
    /\ (forall (D : Z) (music_length : extent),
           mix_declared (amix_duration voice_music_mix) [Finite D; music_length]
           = Finite D
           /\ extent_le (mix_declared (amix_duration voice_music_mix)
                                      [Finite D; music_length])
                        (Finite D))
    /\ (forall (renderer : string) (w : world) (data : music_request)
               (job_id : string) (c : list string * Z),
           In c (engine_calls (fst (add_background_music renderer w data job_id))) ->
           exists video_path music_path output_path voice music loop fade len,
             fst c = music_cmd video_path loop music_path
                       (music_filter_complex voice music loop fade len)
                       output_path).
Proof.
  intros N voice_vol music_vol loop_music fade_out duration.
  split; [reflexivity|].
  split.
  { exists ((if loop_music then "aloop=loop=-1:size=2e+09,volume=" else "volume=")
            ++ num_str music_vol
            ++ (if num_gt0 fade_out
                then ",afade=t=out:st=" ++ num_str (num_sub duration fade_out)
                     ++ ":d=" ++ num_str fade_out
                else "")).
    unfold music_filter.
    destruct loop_music, (num_gt0 fade_out); simpl;
      rewrite ?append_assoc; simpl; rewrite ?append_assoc; reflexivity. }
  split; [reflexivity|].
  split.
  { exists (("[1:a]aloop=loop=-1:size=2e+09,volume=" ++ num_str music_vol ++ ",")
            ++ ("afade=t=out:st=" ++ num_str (num_sub duration (num_of_Z 2))
                ++ ":d=2[music];")).
    unfold pipeline_music_filter. simpl.
    rewrite ?append_assoc; simpl; rewrite ?append_assoc; reflexivity. }
  split.
  { intros D music_length. simpl. split; [reflexivity | lia]. }
  intros renderer w data job_id c. revert c. apply Forall_forall.
  unfold add_background_music. apply calls_all_handle.
  unfold ffmpeg_failed, return_.
  calls_all_tac.
  simpl. do 8 eexists. reflexivity.
Qed.

(** ** Resize *)







(** ** Concatenation *)

Section Concat.
Context {N : PyNum}.
Variable renderer : string.
Variable w : world.

(** The download loop never runs the engine; it gathers one file per video,
    or answers 400 for a video without a source, or raises. *)
Lemma download_videos_outcome (job_dir : string) (vs : list video_source) :
  forall (i : Z) (input_files : list string),
    engine_calls (fst (download_videos renderer w job_dir i vs input_files)) = []
    /\ match snd (download_videos renderer w job_dir i vs input_files) with
       | Val files => List.length files = (List.length input_files + List.length vs)%nat
       | Return r => succeeded r = false /\ status r = 400
                     /\ field "output_url" r = None
       | Raise _ => True
       end.
Proof.
  induction vs as [|video rest IH]; intros i input_files.
  - simpl. split; [reflexivity | lia].
  - cbn [download_videos].
    set (video_path := path_join job_dir ("input_" ++ py_int i ++ ".mp4")).
    rewrite bind_trace, bind_outcome, engine_calls_app.
    set (fetch := if get_truthy (src_url video) then _ else _).
    assert (F : engine_calls (fst fetch) = []
                /\ match snd fetch with
                   | Val _ => True
                   | Return r => succeeded r = false /\ status r = 400
                                 /\ field "output_url" r = None
                   | Raise _ => True
                   end).
    { subst fetch.
      destruct (get_truthy (src_url video)).
      { split; [apply download_file_quiet|].
        unfold download_file, bind, emit. simpl. now destruct (http_get w _). }
      destruct (get_truthy (src_job_id video)).
      { split; [apply download_file_quiet|].
        unfold download_file, bind, emit. simpl. now destruct (http_get w _). }
      destruct (get_truthy (src_base64 video)).
      { split; [apply save_base64_file_quiet|].
        unfold save_base64_file, bind, emit. simpl. now destruct (b64decode w _). }
      simpl. auto. }
    destruct F as [F1 F2]. rewrite F1.
    destruct (snd fetch) as [p | r | e].
    + destruct (IH (i + 1) (input_files ++ [video_path])%list) as [IH1 IH2].
      split; [exact IH1|].
      destruct (snd (download_videos _ _ _ _ _ _)); try exact IH2.
      rewrite IH2, length_app. simpl. lia.
    + split; [reflexivity | exact F2].
    + split; [reflexivity | exact I].
Qed.

(** C8 (the code's behaviour).  A concat request with fewer than two videos
    is answered right after the job directory is made: the trace holds that
    one event, so no file is fetched, no filter is built and the engine is
    not run; the answer is a failure and, the directory made, it is the 400
    ["At least 2 videos required"].  Building does fail on structured input
    the handler accepts: the ['fade'] command is built for every duration and
    list of inputs, but for ['dissolve'], the third transition the docstring
    lists, assembling the command raises [UnboundLocalError] whatever the
    inputs. *)
Theorem concat_rejects_fewer_than_two :
  forall (data : concat_request) (job_id : string),
    len (get_or (videos data) []) < 2 ->
    let run := concat_videos renderer w data job_id in
    fst run = [EvMkdir (path_join TEMP_DIR job_id)]
    /\ engine_calls (fst run) = []
    /\ succeeded (snd run) = false
    /\ field "output_url" (snd run) = None
    /\ (fs_ok w (path_join TEMP_DIR job_id) = true ->
        snd run = ([("success", JBool false);
                    ("error", JStr "At least 2 videos required")], 400))
    /\ (forall (d : num) (input_files : list string) (output_path : string),
          exists cmd,
            transition_cmd "fade" d input_files output_path = ([], Val cmd))
    /\ (forall (d : num) (input_files : list string) (output_path : string),
          transition_cmd "dissolve" d input_files output_path
          = ([], Raise "UnboundLocalError")).
Proof.
  intros data job_id Hlen. apply Z.ltb_lt in Hlen.
  unfold concat_videos, get_job_dir, bind, emit. simpl.
  destruct (fs_ok w (path_join TEMP_DIR job_id)); simpl.
  - rewrite Hlen. simpl.
    do 4 (split; [reflexivity|]). split; [reflexivity|].
    split; [|reflexivity].
    intros d input_files output_path. eexists. reflexivity.
  - do 4 (split; [reflexivity|]). split; [discriminate|].
    split; [|reflexivity].
    intros d input_files output_path. eexists. reflexivity.
Qed.

(** C10.  With two or more videos and a transition that is neither ['none']
    nor ['fade'], the handler never runs the engine and always answers with a
    failure that names no output.  Assembling the command reads
    [filter_complex], which only the ['fade'] branch binds, and raises; when
    all the downloads succeed that exception is the answer, a 500. *)
Theorem concat_unknown_transition_fails :
  forall (data : concat_request) (job_id : string),
    2 <= len (get_or (videos data) []) ->
    get_or (transition data) "none" <> "none" ->
    get_or (transition data) "none" <> "fade" ->
    let run := concat_videos renderer w data job_id in
    let job_dir := path_join TEMP_DIR job_id in
    engine_calls (fst run) = []
    /\ succeeded (snd run) = false
    /\ status (snd run) <> 200
    /\ field "output_url" (snd run) = None
    /\ (forall d input_files output_path,
          transition_cmd (get_or (transition data) "none") d input_files output_path
          = ([], Raise "UnboundLocalError"))
    /\ (forall t input_files,
          fs_ok w job_dir = true ->
          download_videos renderer w job_dir 0 (get_or (videos data) []) []
          = (t, Val input_files) ->
          run = ((EvMkdir job_dir :: t)%list,
                 ([("success", JBool false); ("error", JStr "UnboundLocalError")], 500))).
Proof.
  intros data job_id Hlen Hnone Hfade run job_dir.
  apply Z.ltb_ge in Hlen.
  apply String.eqb_neq in Hnone, Hfade.
  assert (cmd_raises : forall d input_files output_path,
            transition_cmd (get_or (transition data) "none") d input_files output_path
            = ([], Raise "UnboundLocalError")).
  { intros. unfold transition_cmd. now rewrite Hnone, Hfade. }
  pose proof (download_videos_outcome job_dir (get_or (videos data) []) 0 [])
    as [Dq Do].
  assert (R : run
              = if fs_ok w job_dir then
                  match download_videos renderer w job_dir 0
                          (get_or (videos data) []) [] with
                  | (t, Val _) =>
                      ((EvMkdir job_dir :: t)%list,
                       ([("success", JBool false);
                         ("error", JStr "UnboundLocalError")], 500))
                  | (t, Return r) => ((EvMkdir job_dir :: t)%list, r)
                  | (t, Raise e) =>
                      ((EvMkdir job_dir :: t)%list,
                       ([("success", JBool false); ("error", JStr e)], 500))
                  end
                else ([EvMkdir job_dir],
                      ([("success", JBool false); ("error", JStr "OSError")], 500))).
  { subst run. unfold concat_videos, get_job_dir, bind, emit, ret.
    cbn -[path_join download_videos transition_cmd run_ffmpeg].
    fold job_dir.
    destruct (fs_ok w job_dir); [|reflexivity].
    rewrite Hlen.
    destruct (download_videos renderer w job_dir 0 (get_or (videos data) []) [])
      as [t [files | r | e]]; try reflexivity.
    rewrite Hnone, cmd_raises. cbn. now rewrite app_nil_r. }
  rewrite R. clear R.
  split; [|split; [|split; [|split; [|split; [exact cmd_raises|]]]]].
  all: destruct (fs_ok w job_dir); try discriminate; try reflexivity.
  all: destruct (download_videos renderer w job_dir 0 (get_or (videos data) []) [])
      as [t [files | r | e]]; cbn [fst snd] in *; try exact Dq;
      try reflexivity; try discriminate; try tauto.
  - destruct Do as (_ & St & _). rewrite St. discriminate.
  - intros t0 input_files _ [= <- _]. reflexivity.
Qed.
End Concat.

(** One clip only. *)
Lemma concat_rejects_fewer_than_two_witness :
  len (get_or (videos one_clip_fade) []) < 2
  /\ concat_videos sample_renderer calm_world one_clip_fade sample_job
     = ([EvMkdir "/tmp/ffmpeg-service/1a2b3c4d"],
        ([("success", JBool false); ("error", JStr "At least 2 videos required")], 400)).
Proof.
  assert (H : len (get_or (videos one_clip_fade) []) < 2) by (cbn; lia).
  split; [exact H|].
  destruct (concat_rejects_fewer_than_two sample_renderer calm_world _ sample_job H)
    as (T & _ & _ & _ & R & _ & _).
  rewrite (surjective_pairing (concat_videos _ _ _ _)), T, R; reflexivity.
Defined.

(** Two clips and ['dissolve']. *)
Lemma concat_unknown_transition_fails_witness :
  2 <= len (get_or (videos two_clips_dissolve) [])
  /\ get_or (transition two_clips_dissolve) "none" <> "none"
  /\ get_or (transition two_clips_dissolve) "none" <> "fade"
  /\ concat_videos sample_renderer calm_world two_clips_dissolve sample_job
     = ([EvMkdir "/tmp/ffmpeg-service/1a2b3c4d";
         EvDownload "http://media.local/a.mp4" "/tmp/ffmpeg-service/1a2b3c4d/input_0.mp4";
         EvDownload "http://media.local/b.mp4" "/tmp/ffmpeg-service/1a2b3c4d/input_1.mp4"],
        ([("success", JBool false); ("error", JStr "UnboundLocalError")], 500)).
Proof.
  pose (data := two_clips_dissolve).
  assert (H1 : 2 <= len (get_or (videos data) [])) by (cbn; lia).
  assert (H2 : get_or (transition data) "none" <> "none") by (cbn; discriminate).
  assert (H3 : get_or (transition data) "none" <> "fade") by (cbn; discriminate).
  repeat (split; [assumption|]).
  destruct (concat_unknown_transition_fails sample_renderer calm_world
              data sample_job H1 H2 H3) as (_ & _ & _ & _ & _ & R).
  apply (R _ ["/tmp/ffmpeg-service/1a2b3c4d/input_0.mp4";
              "/tmp/ffmpeg-service/1a2b3c4d/input_1.mp4"]); reflexivity.
Defined.


(** Closes the goals about a run that stopped early. *)
Ltac aborted :=
  cbn; repeat split; auto; try discriminate;
  try (intros; discriminate); try (right; reflexivity).

(** ** The full pipeline *)

Section Pipeline.
Context {N : PyNum}.
Variable renderer : string.
Variable w : world.

Lemma run_ffmpeg_cooperative (cmd : list string) (timeout : Z) :
  cooperative w ->
  exists r, run_ffmpeg w cmd timeout = ([EvEngine cmd timeout], Val r)
            /\ success r = engine_succeeds w cmd timeout.
Proof.
  intros C. rewrite run_ffmpeg_eq. unfold engine_succeeds.
  destruct (ffmpeg w cmd timeout) as [p|] eqn:E.
  - exists (result_of p). split; reflexivity.
  - now destruct (coop_engine w C cmd timeout).
Qed.

Lemma run_step_cooperative (s : optional_step) (data : pipeline_request)
    (job_dir : string) (st : pipeline_state) :
  cooperative w ->
  exists t st',
    run_step w s data job_dir st = (t, Val st')
    /\ copies t = []
    /\ ((engine_calls t = [] /\ st' = st)
        \/ (exists cmd,
               engine_calls t = [(cmd, 600)]
               /\ output_of cmd = step_output job_dir s
               /\ st' = if engine_succeeds w cmd 600
                        then advance st (step_output job_dir s) (step_name data s)
                        else st)).
Proof.
  intros C.
  destruct s; cbn [run_step step_output step_name].
  - unfold step_music.
    destruct (get_truthy (background_music_url data));
      [|exists [], st; repeat split; auto].
    rewrite download_file_eq, (coop_http w C), bind_val. cbv beta.
    rewrite <- bind_assoc.
    change (bind (get_media_info w (current_video st)) media_duration)
      with (probe_duration w (current_video st)).
    destruct (coop_probe w C (current_video st)) as [d ->].
    rewrite bind_val. cbv beta.
    match goal with |- context [run_ffmpeg w ?c 600] =>
      destruct (run_ffmpeg_cooperative c 600 C) as (r & -> & S) end.
    rewrite bind_val. cbv beta. rewrite !S.
    destruct (engine_succeeds w _ 600) eqn:E;
      (eexists _, _; split; [reflexivity|]; split; [reflexivity|];
       right; eexists; split; [reflexivity|]; split; [reflexivity|];
       now rewrite E).
  - unfold step_subtitles.
    destruct (get_truthy (subtitles data));
      [|exists [], st; repeat split; auto].
    rewrite write_file_eq, (coop_fs w C), bind_val. cbv beta.
    match goal with |- context [run_ffmpeg w ?c 600] =>
      destruct (run_ffmpeg_cooperative c 600 C) as (r & -> & S) end.
    rewrite bind_val. cbv beta. rewrite !S.
    destruct (engine_succeeds w _ 600) eqn:E;
      (eexists _, _; split; [reflexivity|]; split; [reflexivity|];
       right; eexists; split; [reflexivity|]; split; [reflexivity|];
       now rewrite E).
  - unfold step_resize.
    destruct (if get_truthy (platform data) then _ else _) as [[width height]|];
      [|exists [], st; repeat split; auto].
    match goal with |- context [run_ffmpeg w ?c 600] =>
      destruct (run_ffmpeg_cooperative c 600 C) as (r & -> & S) end.
    rewrite bind_val. cbv beta. rewrite !S.
    destruct (engine_succeeds w _ 600) eqn:E;
      (eexists _, _; split; [reflexivity|]; split; [reflexivity|];
       right; eexists; split; [reflexivity|]; split; [reflexivity|];
       now rewrite E).
  - unfold step_normalize.
    destruct (get_or (normalize data) false);
      [|exists [], st; repeat split; auto].
    match goal with |- context [run_ffmpeg w ?c 600] =>
      destruct (run_ffmpeg_cooperative c 600 C) as (r & -> & S) end.
    rewrite bind_val. cbv beta. rewrite !S.
    destruct (engine_succeeds w _ 600) eqn:E;
      (eexists _, _; split; [reflexivity|]; split; [reflexivity|];
       right; eexists; split; [reflexivity|]; split; [reflexivity|];
       now rewrite E).
Qed.

(** In a cooperative world a step runs the engine exactly when the request
    asks for it, whatever the state it starts from. *)
Lemma run_step_attempts (s : optional_step) (data : pipeline_request)
    (job_dir : string) (st : pipeline_state) :
  cooperative w ->
  map (fun c => output_of (fst c))
      (engine_calls (fst (run_step w s data job_dir st)))
  = if step_requested data s then [step_output job_dir s] else [].
Proof.
  intros C.
  destruct s; cbn [run_step step_output step_requested].
  - unfold step_music.
    destruct (get_truthy (background_music_url data)); [|reflexivity].
    rewrite download_file_eq, (coop_http w C), bind_val. cbv beta.
    rewrite <- bind_assoc.
    change (bind (get_media_info w (current_video st)) media_duration)
      with (probe_duration w (current_video st)).
    destruct (coop_probe w C (current_video st)) as [d ->].
    rewrite bind_val. cbv beta.
    match goal with |- context [run_ffmpeg w ?c 600] =>
      destruct (run_ffmpeg_cooperative c 600 C) as (r & -> & S) end.
    rewrite bind_val. cbv beta.
    destruct (success r); reflexivity.
  - unfold step_subtitles.
    destruct (get_truthy (subtitles data)); [|reflexivity].
    rewrite write_file_eq, (coop_fs w C), bind_val. cbv beta.
    match goal with |- context [run_ffmpeg w ?c 600] =>
      destruct (run_ffmpeg_cooperative c 600 C) as (r & -> & S) end.
    rewrite bind_val. cbv beta.
    destruct (success r); reflexivity.
  - unfold step_resize.
    destruct (if get_truthy (platform data) then _ else _) as [[width height]|];
      [|reflexivity].
    match goal with |- context [run_ffmpeg w ?c 600] =>
      destruct (run_ffmpeg_cooperative c 600 C) as (r & -> & S) end.
    rewrite bind_val. cbv beta.
    destruct (success r); reflexivity.
  - unfold step_normalize.
    destruct (get_or (normalize data) false); [|reflexivity].
    match goal with |- context [run_ffmpeg w ?c 600] =>
      destruct (run_ffmpeg_cooperative c 600 C) as (r & -> & S) end.
    rewrite bind_val. cbv beta.
    destruct (success r); reflexivity.
Qed.

Lemma last_produced_app (init : string) (t1 t2 : list event) :
  last_produced w init (t1 ++ t2) = last_produced w (last_produced w init t1) t2.
Proof. unfold last_produced. now rewrite engine_calls_app, fold_left_app. Qed.

Lemma step_output_inj (job_dir : string) (s s' : optional_step) :
  step_output job_dir s = step_output job_dir s' -> s = s'.
Proof.
  unfold step_output, path_join. intros H.
  destruct s, s'; try reflexivity; apply append_inv_head in H; discriminate.
Qed.

Lemma step_name_inj (data : pipeline_request) (s s' : optional_step) :
  step_name data s = step_name data s' -> s = s'.
Proof. destruct s, s'; try reflexivity; cbn; discriminate. Qed.

Lemma run_steps_cooperative (data : pipeline_request) (job_dir : string)
    (ss : list optional_step) :
  cooperative w -> NoDup ss ->
  forall st, exists t st',
    run_steps w ss data job_dir st = (t, Val st')
    /\ copies t = []
    /\ current_video st' = last_produced w (current_video st) t
    /\ (forall c, In c (engine_calls t) ->
          snd c = 600
          /\ exists s, In s ss /\ output_of (fst c) = step_output job_dir s)
    /\ (forall c c', In c (engine_calls t) -> In c' (engine_calls t) ->
          output_of (fst c) = output_of (fst c') -> c = c')
    /\ (forall name, In name (steps_completed st) -> In name (steps_completed st'))
    /\ (forall name, In name (steps_completed st') ->
          In name (steps_completed st)
          \/ exists s c, In s ss /\ name = step_name data s
                         /\ In c (engine_calls t)
                         /\ output_of (fst c) = step_output job_dir s
                         /\ engine_succeeds w (fst c) (snd c) = true)
    /\ (forall s c, In c (engine_calls t) ->
          output_of (fst c) = step_output job_dir s ->
          engine_succeeds w (fst c) (snd c) = true ->
          In (step_name data s) (steps_completed st')).
Proof.
  intros C. induction ss as [|s ss IH]; intros ND st.
  - exists [], st. cbn. repeat split; auto; try contradiction.
  - inversion ND as [|? ? Hnotin ND']; subst.
    destruct (run_step_cooperative s data job_dir st C) as (t1 & st1 & R1 & K1 & E1).
    destruct (IH ND' st1) as (t2 & st2 & R2 & K2 & cur & outs & uniq & mono & names & logged).
    exists (t1 ++ t2)%list, st2.
    cbn [run_steps]. rewrite R1, bind_val, R2. cbn [fst snd].
    split; [reflexivity|].
    split; [now rewrite copies_app, K1, K2|].
    rewrite last_produced_app, engine_calls_app.
    destruct E1 as [[calls1 ->] | (cmd & calls1 & out1 & ->)]; rewrite calls1.
    + (* the step did not run the engine *)
      assert (L : last_produced w (current_video st) t1 = current_video st)
        by (unfold last_produced; now rewrite calls1).
      rewrite L. cbn [app].
      split; [exact cur|].
      split.
      { intros c Hc. destruct (outs c Hc) as (T & s' & Hs' & O).
        split; [exact T|]. exists s'. split; [now right | exact O]. }
      split; [exact uniq|].
      split; [exact mono|].
      split.
      { intros name Hn. destruct (names name Hn) as [Hst | (s' & c & Hs' & rest)].
        - now left.
        - right. exists s', c. split; [now right | exact rest]. }
      exact logged.
    + (* the step ran the engine once *)
      assert (L : last_produced w (current_video st) t1
                  = current_video (if engine_succeeds w cmd 600
                                   then advance st (step_output job_dir s)
                                          (step_name data s)
                                   else st)).
      { unfold last_produced. rewrite calls1. cbn.
        destruct (engine_succeeds w cmd 600); [exact out1 | reflexivity]. }
      rewrite L.
      split; [exact cur|].
      assert (fresh : forall c, In c (engine_calls t2) ->
                        output_of (fst c) <> step_output job_dir s).
      { intros c Hc O. destruct (outs c Hc) as (_ & s' & Hs' & O').
        rewrite O in O'. apply step_output_inj in O'. now subst s'. }
      split.
      { intros c [<- | Hc].
        - split; [reflexivity|]. exists s. split; [now left | exact out1].
        - destruct (outs c Hc) as (T & s' & Hs' & O).
          split; [exact T|]. exists s'. split; [now right | exact O]. }
      split.
      { intros c c' [<- | Hc] [<- | Hc'] O; auto.
        - cbn [fst] in O. rewrite out1 in O. symmetry in O. now destruct (fresh c' Hc').
        - cbn [fst] in O. rewrite out1 in O. now destruct (fresh c Hc). }
      split.
      { intros name Hn. apply mono.
        destruct (engine_succeeds w cmd 600); [|exact Hn].
        cbn. apply in_or_app. now left. }
      split.
      { intros name Hn. destruct (names name Hn) as [Hst | (s' & c & Hs' & N' & Hc & rest)].
        - destruct (engine_succeeds w cmd 600) eqn:E; [|now left].
          cbn in Hst. apply in_app_or in Hst. destruct Hst as [Hst | [<- | []]].
          + now left.
          + right. exists s, (cmd, 600).
            split; [now left|]. split; [reflexivity|]. split; [now left|].
            split; [exact out1 | exact E].
        - right. exists s', c.
          split; [now right|]. split; [exact N'|]. split; [now right | exact rest]. }
      intros s' c [<- | Hc] O E.
      * cbn [fst snd] in O, E. rewrite out1 in O. apply step_output_inj in O. subst s'.
        apply mono. rewrite E. cbn. apply in_or_app. right. now left.
      * now apply (logged s' c).
Qed.

Lemma engine_tail_outcome (st : pipeline_state) (out name : string)
    (c0 : list string) (t : list event) (o : outcome pipeline_state)
    (cmd : list string) :
  bind (run_ffmpeg w c0 600)
       (fun result => if success result then ret (advance st out name) else ret st)
  = (t, o) ->
  In (cmd, 600) (engine_calls t) ->
  o = outcome_by_exit w cmd st out name.
Proof.
  unfold outcome_by_exit. rewrite run_ffmpeg_eq.
  destruct (ffmpeg w c0 600) as [q|] eqn:E.
  - rewrite bind_val. cbv beta. unfold result_of at 1 2. cbn [success].
    destruct (returncode q =? 0) eqn:S; cbn; intros [= <- <-] [[= <-] | []];
      now rewrite E, S.
  - cbn. intros [= <- <-] [[= <-] | []]. now rewrite E.
Qed.

Lemma prefixed_tail_outcome {A : Type} (pre : M A) (mk : A -> list string)
    (st : pipeline_state) (out name : string)
    (t : list event) (o : outcome pipeline_state) (cmd : list string) :
  engine_calls (fst pre) = [] ->
  bind pre (fun a =>
    bind (run_ffmpeg w (mk a) 600)
         (fun result => if success result then ret (advance st out name) else ret st))
  = (t, o) ->
  In (cmd, 600) (engine_calls t) ->
  o = outcome_by_exit w cmd st out name.
Proof.
  destruct pre as [t0 [a | r | e]]; cbn [fst]; intros Q.
  - rewrite bind_val. cbv beta.
    destruct (bind (run_ffmpeg w (mk a) 600) _) as [t1 o1] eqn:E.
    cbn [fst snd]. intros [= <- <-] Hin.
    rewrite engine_calls_app, Q in Hin. now apply (engine_tail_outcome _ _ _ _ _ _ _ E).
  - cbn. intros [= <- <-] Hin. rewrite Q in Hin. contradiction.
  - cbn. intros [= <- <-] Hin. rewrite Q in Hin. contradiction.
Qed.

Lemma run_step_outcome (s : optional_step) (data : pipeline_request)
    (job_dir : string) (st : pipeline_state)
    (t : list event) (o : outcome pipeline_state) (cmd : list string) :
  run_step w s data job_dir st = (t, o) ->
  In (cmd, 600) (engine_calls t) ->
  o = outcome_by_exit w cmd st (step_output job_dir s) (step_name data s).
Proof.
  destruct s; cbn [run_step step_output step_name].
  - unfold step_music.
    destruct (get_truthy (background_music_url data));
      [|intros [= <- <-] []].
    rewrite <- bind_assoc. rewrite <- bind_assoc.
    apply prefixed_tail_outcome.
    apply quiet_bind;
      [apply quiet_bind;
         [apply download_file_quiet | intros; apply get_media_info_quiet]
      | intros; apply media_duration_quiet].
  - unfold step_subtitles.
    destruct (get_truthy (subtitles data)); [|intros [= <- <-] []].
    apply (prefixed_tail_outcome _ (fun _ => _)). apply write_file_quiet.
  - unfold step_resize.
    destruct (if get_truthy (platform data) then _ else _) as [[width height]|];
      [|intros [= <- <-] []].
    apply engine_tail_outcome.
  - unfold step_normalize.
    destruct (get_or (normalize data) false); [|intros [= <- <-] []].
    apply engine_tail_outcome.
Qed.

Lemma run_steps_attempts (data : pipeline_request) (job_dir : string)
    (ss : list optional_step) :
  cooperative w ->
  forall st,
    map (fun c => output_of (fst c))
        (engine_calls (fst (run_steps w ss data job_dir st)))
    = map (step_output job_dir) (filter (step_requested data) ss).
Proof.
  intros C. induction ss as [|s ss IH]; intros st; [reflexivity|].
  cbn [run_steps filter].
  destruct (run_step_cooperative s data job_dir st C) as (t1 & st1 & R1 & _).
  pose proof (run_step_attempts s data job_dir st C) as A.
  rewrite R1 in A. cbn [fst] in A.
  rewrite R1, bind_val. cbn [fst]. rewrite engine_calls_app, map_app, A, IH.
  destruct (step_requested data s); reflexivity.
Qed.

Lemma step_merge_attempts (data : pipeline_request) (job_dir : string)
    (st : pipeline_state) :
  cooperative w ->
  map (fun c => output_of (fst c))
      (engine_calls (fst (step_merge w data job_dir st)))
  = if get_truthy (audio_base64 data)
    then [path_join job_dir "02_merged.mp4"] else [].
Proof.
  intros C. unfold step_merge.
  destruct (get_truthy (audio_base64 data)); [|reflexivity].
  rewrite save_base64_file_eq, (coop_b64 w C), bind_val. cbv beta.
  match goal with |- context [run_ffmpeg w ?c 600] =>
    destruct (run_ffmpeg_cooperative c 600 C) as (r & -> & S) end.
  rewrite bind_val. cbv beta.
  destruct (negb (success r)); reflexivity.
Qed.

(** The four blocks of the pipeline are [run_steps optional_steps]. *)
Lemma pipeline_steps_fold {B : Type} (data : pipeline_request) (job_dir : string)
    (st : pipeline_state) (k : pipeline_state -> M B) :
  bind (step_music w data job_dir st) (fun st =>
    bind (step_subtitles w data job_dir st) (fun st =>
      bind (step_resize w data job_dir st) (fun st =>
        bind (step_normalize w data job_dir st) k)))
  = bind (run_steps w optional_steps data job_dir st) k.
Proof.
  unfold optional_steps. cbn [run_steps run_step].
  rewrite bind_assoc. apply bind_ext. intros st1.
  rewrite bind_assoc. apply bind_ext. intros st2.
  rewrite bind_assoc. apply bind_ext. intros st3.
  rewrite bind_assoc. apply bind_ext. intros st4.
  now rewrite bind_ret_l.
Qed.

Lemma optional_steps_nodup : NoDup optional_steps.
Proof.
  unfold optional_steps.
  repeat constructor; cbn; intuition discriminate.
Qed.

Lemma step_merge_cooperative (data : pipeline_request) (job_dir : string)
    (st : pipeline_state) :
  cooperative w ->
  (get_truthy (audio_base64 data) = true ->
   engine_succeeds w (merge_cmd (current_video st)
                                (path_join job_dir "tts_audio.mp3")
                                (path_join job_dir "02_merged.mp4")) 600 = true) ->
  exists t st',
    step_merge w data job_dir st = (t, Val st')
    /\ copies t = []
    /\ current_video st' = last_produced w (current_video st) t
    /\ (forall c, In c (engine_calls t) ->
          output_of (fst c) = path_join job_dir "02_merged.mp4")
    /\ (forall name, In name (steps_completed st') ->
          In name (steps_completed st) \/ name = "merge_tts")
    /\ (forall name, In name (steps_completed st) -> In name (steps_completed st')).
Proof.
  intros C H. unfold step_merge.
  destruct (get_truthy (audio_base64 data)).
  - rewrite save_base64_file_eq, (coop_b64 w C), bind_val. cbv beta.
    match goal with |- context [run_ffmpeg w ?c 600] =>
      destruct (run_ffmpeg_cooperative c 600 C) as (r & -> & S) end.
    rewrite bind_val. cbv beta. rewrite !S, (H eq_refl).
    eexists _, _. split; [reflexivity|]. cbn [negb fst snd].
    split; [reflexivity|].
    split.
    { unfold last_produced. cbn. now rewrite (H eq_refl). }
    split.
    { intros c [<- | []]. reflexivity. }
    split.
    { cbn. intros name Hn. apply in_app_or in Hn.
      destruct Hn as [Hn | [<- | []]]; auto. }
    cbn. intros name Hn. apply in_or_app. now left.
  - exists [], st. repeat split; auto; contradiction.
Qed.

Lemma steps_of_log (body : list (string * json)) (code : Z) (log : list string)
    (pre : list (string * json)) :
  assoc "steps_completed" pre = None ->
  steps_of ((pre ++ ("steps_completed", JArr (map JStr log)) :: body)%list, code) = log.
Proof.
  intros H. unfold steps_of, field. cbn [fst].
  assert (E : assoc "steps_completed"
                (pre ++ ("steps_completed", JArr (map JStr log)) :: body)%list
              = Some (JArr (map JStr log))).
  { induction pre as [|[k v] pre IH]; cbn [assoc app] in H |- *.
    - reflexivity.
    - destruct (String.eqb "steps_completed" k); [discriminate H | now apply IH]. }
  rewrite E. clear E. induction log as [|l log IH]; cbn [map flat_map app];
    [reflexivity | now rewrite IH].
Qed.

(** C3.  When a narration is supplied and the engine fails on the merge
    (a nonzero exit status or an overrun timeout), the pipeline answers with
    a failure that names no output and no step log; nothing is copied to the
    final name, and the only engine invocation a run can hold is the merge
    itself: no later step runs.  When everything before the merge worked and
    the engine exited, the answer is the 500 ["Merge failed"] with the
    diagnostics. *)
Theorem merge_failure_aborts_pipeline :
  forall (data : pipeline_request) (job_id : string),
    let job_dir := path_join TEMP_DIR job_id in
    let merge := merge_cmd (path_join job_dir "01_video.mp4")
                           (path_join job_dir "tts_audio.mp3")
                           (path_join job_dir "02_merged.mp4") in
    let run := full_pipeline renderer w data job_id in
    get_truthy (audio_base64 data) = true ->
    engine_succeeds w merge 600 = false ->
    succeeded (snd run) = false
    /\ status (snd run) <> 200
    /\ field "output_url" (snd run) = None
    /\ field "steps_completed" (snd run) = None
    /\ copies (fst run) = []
    /\ (engine_calls (fst run) = [] \/ engine_calls (fst run) = [(merge, 600)])
    /\ (forall p,
          fs_ok w job_dir = true ->
          get_truthy (video_job_id data) = true ->
          http_get w (renderer ++ "/video/" ++ get_or (video_job_id data) "") = true ->
          b64decode w (get_or (audio_base64 data) "") = true ->
          ffmpeg w merge 600 = Some p ->
          run = ([EvMkdir job_dir;
                  EvDownload (renderer ++ "/video/" ++ get_or (video_job_id data) "")
                             (path_join job_dir "01_video.mp4");
                  EvSaveB64 (path_join job_dir "tts_audio.mp3");
                  EvEngine merge 600],
                 ([("success", JBool false); ("error", JStr "Merge failed");
                   ("details", json_opt_str (res_stderr (result_of p)))], 500))).
Proof.
  intros data job_id job_dir merge run Haudio Hfail.
  unfold engine_succeeds in Hfail.
  assert (R : run
              = if fs_ok w job_dir then
                  if get_truthy (video_job_id data) then
                    if http_get w (renderer ++ "/video/" ++ get_or (video_job_id data) "") then
                      if b64decode w (get_or (audio_base64 data) "") then
                        match ffmpeg w merge 600 with
                        | Some p =>
                            ([EvMkdir job_dir;
                              EvDownload (renderer ++ "/video/" ++ get_or (video_job_id data) "")
                                (path_join job_dir "01_video.mp4");
                              EvSaveB64 (path_join job_dir "tts_audio.mp3");
                              EvEngine merge 600],
                             ([("success", JBool false); ("error", JStr "Merge failed");
                               ("details", json_opt_str (res_stderr (result_of p)))], 500))
                        | None =>
                            ([EvMkdir job_dir;
                              EvDownload (renderer ++ "/video/" ++ get_or (video_job_id data) "")
                                (path_join job_dir "01_video.mp4");
                              EvSaveB64 (path_join job_dir "tts_audio.mp3");
                              EvEngine merge 600],
                             ([("success", JBool false); ("error", JStr "TimeoutExpired")], 500))
                        end
                      else
                        ([EvMkdir job_dir;
                          EvDownload (renderer ++ "/video/" ++ get_or (video_job_id data) "")
                            (path_join job_dir "01_video.mp4");
                          EvSaveB64 (path_join job_dir "tts_audio.mp3")],
                         ([("success", JBool false); ("error", JStr "binascii.Error")], 500))
                    else
                      ([EvMkdir job_dir;
                        EvDownload (renderer ++ "/video/" ++ get_or (video_job_id data) "")
                          (path_join job_dir "01_video.mp4")],
                       ([("success", JBool false); ("error", JStr "RequestException")], 500))
                  else
                    ([EvMkdir job_dir],
                     ([("success", JBool false); ("error", JStr "video_job_id required")], 400))
                else
                  ([EvMkdir job_dir],
                   ([("success", JBool false); ("error", JStr "OSError")], 500))).
  { subst run. unfold full_pipeline. rewrite get_job_dir_eq. fold job_dir.
    destruct (fs_ok w job_dir); [|reflexivity].
    rewrite bind_val. cbv beta zeta.
    destruct (get_truthy (video_job_id data)); [|reflexivity].
    cbn [negb]. rewrite download_file_eq.
    destruct (http_get w _); [|reflexivity].
    rewrite bind_val. cbv beta.
    unfold step_merge. rewrite Haudio, save_base64_file_eq.
    destruct (b64decode w _); [|reflexivity].
    rewrite bind_val. cbv beta. rewrite run_ffmpeg_eq. cbn [current_video].
    fold merge.
    destruct (ffmpeg w merge 600) as [p|]; [|reflexivity].
    assert (S : success (result_of p) = false) by exact Hfail.
    rewrite bind_val. cbv beta. rewrite !S. reflexivity. }
  rewrite R. clear R.
  destruct (fs_ok w job_dir); [|aborted].
  destruct (get_truthy (video_job_id data)); [|aborted].
  destruct (http_get w _); [|aborted].
  destruct (b64decode w _); [|aborted].
  destruct (ffmpeg w merge 600) as [p|]; [|aborted].
  aborted. intros p0 _ _ _ _ [= <-]. reflexivity.
Qed.

End Pipeline.

(** C2 (amended).  In any world, a best-effort step (music, subtitles,
    resize, loudness) whose engine invocation exits with a nonzero status
    ends normally with the state it started from: the current artifact and
    the step log are unchanged; one whose invocation overruns its timeout
    raises [TimeoutExpired] instead, which ends the run.  In a world where
    nothing raises (no overrun, no failed fetch or file operation), for a
    request that names its video and whose merge, if any, succeeds, the run
    answers 200 with ["success": true]; the one file copied to the final name
    is the artifact produced last, that is the output of the last engine
    invocation of the run that exited with 0 (the downloaded video when there
    is none); a step whose invocation failed is absent from
    ["steps_completed"] and a step whose invocation succeeded is in it; and
    execution proceeds past every failure: the engine invocations of the run
    are, in order, the merge if a narration was given and then one for each
    step the request asks for, whether or not the steps before it
    succeeded. *)
Theorem optional_step_failure_is_skipped :
  forall {N : PyNum} (renderer : string) (w : world)
         (data : pipeline_request) (job_id : string),
    let job_dir := path_join TEMP_DIR job_id in
    let video_path := path_join job_dir "01_video.mp4" in
    let merge := merge_cmd video_path (path_join job_dir "tts_audio.mp3")
                           (path_join job_dir "02_merged.mp4") in
    let run := full_pipeline renderer w data job_id in
    cooperative w ->
    get_truthy (video_job_id data) = true ->
    (get_truthy (audio_base64 data) = true -> engine_succeeds w merge 600 = true) ->
    (forall (w' : world) (s : optional_step) (st : pipeline_state)
            (t : list event) (o : outcome pipeline_state) (cmd : list string)
            (p : completed),
        run_step w' s data job_dir st = (t, o) ->
        In (cmd, 600) (engine_calls t) ->
        ffmpeg w' cmd 600 = Some p ->
        returncode p <> 0 ->
        o = Val st)
    /\ (forall (w' : world) (s : optional_step) (st : pipeline_state)
               (t : list event) (o : outcome pipeline_state) (cmd : list string),
           run_step w' s data job_dir st = (t, o) ->
           In (cmd, 600) (engine_calls t) ->
           ffmpeg w' cmd 600 = None ->
           o = Raise "TimeoutExpired")
    /\ succeeded (snd run) = true
    /\ status (snd run) = 200
    /\ copies (fst run)
       = [(last_produced w video_path (fst run), final_path_of job_dir job_id)]
    /\ (forall (s : optional_step) (cmd : list string) (timeout : Z),
          In (cmd, timeout) (engine_calls (fst run)) ->
          output_of cmd = step_output job_dir s ->
          engine_succeeds w cmd timeout = false ->
          ~ In (step_name data s) (steps_of (snd run)))
    /\ (forall (s : optional_step) (cmd : list string) (timeout : Z),
          In (cmd, timeout) (engine_calls (fst run)) ->
          output_of cmd = step_output job_dir s ->
          engine_succeeds w cmd timeout = true ->
          In (step_name data s) (steps_of (snd run)))
    /\ In "download_video" (steps_of (snd run))
    /\ map (fun c => output_of (fst c)) (engine_calls (fst run))
       = ((if get_truthy (audio_base64 data)
           then [path_join job_dir "02_merged.mp4"] else [])
          ++ map (step_output job_dir)
                 (filter (step_requested data) optional_steps))%list.
Proof.
  intros N renderer w data job_id job_dir video_path merge run C Hvid Hmerge.
  split.
  { intros w' s st t o cmd p R Hin E Hrc.
    rewrite (run_step_outcome w' s data job_dir st t o cmd R Hin).
    unfold outcome_by_exit. rewrite E.
    apply Z.eqb_neq in Hrc. now rewrite Hrc. }
  split.
  { intros w' s st t o cmd R Hin E.
    rewrite (run_step_outcome w' s data job_dir st t o cmd R Hin).
    unfold outcome_by_exit. now rewrite E. }
  pose (st0 := {| current_video := video_path;
                  steps_completed := ["download_video"] |}).
  destruct (step_merge_cooperative w data job_dir st0 C Hmerge)
    as (t1 & st1 & R1 & K1 & cur1 & outs1 & names1 & mono1).
  destruct (run_steps_cooperative w data job_dir optional_steps C
              optional_steps_nodup st1)
    as (t2 & st2 & R2 & K2 & cur2 & outs2 & uniq2 & mono2 & names2 & logged2).
  destruct (stat_size w (final_path_of job_dir job_id)) as [sz|] eqn:Hsz;
    [|now destruct (coop_stat w C (final_path_of job_dir job_id))].
  assert (R : run
              = (([EvMkdir job_dir;
                   EvDownload (renderer ++ "/video/" ++ get_or (video_job_id data) "")
                              video_path] ++ t1 ++ t2
                  ++ [EvCopy (current_video st2) (final_path_of job_dir job_id)])%list,
                 (([("success", JBool true);
                    ("job_id", JStr job_id);
                    ("operation", JStr "full-pipeline")]
                   ++ ("steps_completed", JArr (map JStr (steps_completed st2)))
                   :: [("output_url",
                        JStr ("/download/" ++ job_id ++ "/final_" ++ job_id ++ ".mp4"));
                       ("file_size", JNum sz)])%list, 200))).
  { subst run. unfold full_pipeline.
    rewrite get_job_dir_eq. fold job_dir. rewrite (coop_fs w C), bind_val.
    cbv beta zeta. rewrite Hvid. cbn [negb].
    rewrite download_file_eq, (coop_http w C), bind_val. cbv beta.
    fold video_path. fold st0. rewrite R1, bind_val. cbv beta.
    rewrite pipeline_steps_fold, R2, bind_val. cbv beta.
    unfold finish_pipeline. rewrite copy_eq, (coop_fs w C), bind_val. cbv beta.
    unfold stat_st_size. rewrite Hsz. reflexivity. }
  rewrite R. clear R. cbn [fst snd].
  assert (calls : engine_calls
                    ([EvMkdir job_dir;
                      EvDownload (renderer ++ "/video/" ++ get_or (video_job_id data) "")
                                 video_path] ++ t1 ++ t2
                     ++ [EvCopy (current_video st2) (final_path_of job_dir job_id)])
                  = (engine_calls t1 ++ engine_calls t2)%list).
  { rewrite !engine_calls_app. cbn. now rewrite app_nil_r. }
  rewrite steps_of_log by reflexivity.
  split; [reflexivity|].
  split; [reflexivity|].
  split.
  { unfold last_produced at 1. rewrite calls, fold_left_app.
    fold (last_produced w video_path t1).
    fold (last_produced w (last_produced w video_path t1) t2).
    change video_path with (current_video st0).
    rewrite <- cur1, <- cur2, !copies_app, K1, K2. reflexivity. }
  rewrite calls.
  assert (not_merge : forall s c, In c (engine_calls t1) ->
                        output_of (fst c) <> step_output job_dir s).
  { intros s c Hc O. rewrite (outs1 c Hc) in O.
    unfold path_join in O. destruct s; apply append_inv_head in O; discriminate. }
  split.
  { intros s cmd timeout Hin O Hfail Hlog.
    apply in_app_or in Hin. destruct Hin as [Hin | Hin].
    { now apply (not_merge s _ Hin). }
    destruct (names2 _ Hlog) as [Hst1 | (s' & c' & _ & Hname & Hc' & O' & Hok)].
    - destruct (names1 _ Hst1) as [[Hd | []] | Hm].
      + destruct s; discriminate Hd.
      + destruct s; discriminate Hm.
    - apply step_name_inj in Hname. subst s'.
      assert (E : (cmd, timeout) = c').
      { apply uniq2; auto. cbn [fst]. congruence. }
      subst c'. cbn [fst snd] in Hok. congruence. }
  split.
  { intros s cmd timeout Hin O Hok.
    apply in_app_or in Hin. destruct Hin as [Hin | Hin].
    { now destruct (not_merge s _ Hin). }
    apply (logged2 s (cmd, timeout)); auto. }
  split; [apply mono2, mono1; now left|].
  rewrite map_app.
  pose proof (step_merge_attempts w data job_dir st0 C) as A1.
  rewrite R1 in A1. cbn [fst] in A1.
  pose proof (run_steps_attempts w data job_dir optional_steps C st1) as A2.
  rewrite R2 in A2. cbn [fst] in A2.
  now rewrite A1, A2.
Qed.

(** The merge exits with status 1. *)
Lemma merge_failure_aborts_pipeline_witness :
  get_truthy (audio_base64 sample_pipeline_request) = true
  /\ engine_succeeds (failing_on "02_merged.mp4")
       (merge_cmd "/tmp/ffmpeg-service/1a2b3c4d/01_video.mp4"
                  "/tmp/ffmpeg-service/1a2b3c4d/tts_audio.mp3"
                  "/tmp/ffmpeg-service/1a2b3c4d/02_merged.mp4") 600 = false
  /\ succeeded (snd (full_pipeline sample_renderer (failing_on "02_merged.mp4")
                                   sample_pipeline_request sample_job)) = false
  /\ copies (fst (full_pipeline sample_renderer (failing_on "02_merged.mp4")
                                sample_pipeline_request sample_job)) = [].
Proof.
  assert (H1 : get_truthy (audio_base64 sample_pipeline_request) = true)
    by reflexivity.
  assert (H2 : engine_succeeds (failing_on "02_merged.mp4")
                 (merge_cmd "/tmp/ffmpeg-service/1a2b3c4d/01_video.mp4"
                            "/tmp/ffmpeg-service/1a2b3c4d/tts_audio.mp3"
                            "/tmp/ffmpeg-service/1a2b3c4d/02_merged.mp4") 600 = false)
    by reflexivity.
  split; [exact H1|]. split; [exact H2|].
  destruct (merge_failure_aborts_pipeline sample_renderer (failing_on "02_merged.mp4")
              sample_pipeline_request sample_job H1 H2)
    as (S & _ & _ & _ & K & _).
  split; [exact S | exact K].
Defined.

Lemma failing_on_cooperative (name : string) : cooperative (failing_on name).
Proof.
  constructor; intros; try reflexivity; try discriminate.
  eexists. reflexivity.
Defined.

(** The music mix exits with status 1; every other step succeeds. *)
Lemma optional_step_failure_is_skipped_witness :
  cooperative (failing_on "03_with_music.mp4")
  /\ get_truthy (video_job_id sample_pipeline_request) = true
  /\ succeeded (snd (full_pipeline sample_renderer (failing_on "03_with_music.mp4")
                                   sample_pipeline_request sample_job)) = true
  /\ ~ In "add_music"
         (steps_of (snd (full_pipeline sample_renderer (failing_on "03_with_music.mp4")
                                       sample_pipeline_request sample_job))).
Proof.
  pose proof (failing_on_cooperative "03_with_music.mp4") as C.
  assert (V : get_truthy (video_job_id sample_pipeline_request) = true)
    by reflexivity.
  split; [exact C|]. split; [exact V|].
  destruct (optional_step_failure_is_skipped sample_renderer
              (failing_on "03_with_music.mp4") sample_pipeline_request sample_job
              C V (fun _ => eq_refl))
    as (_ & _ & S & _ & _ & F & _).
  split; [exact S|].
  apply (F AddMusic
           (pipeline_music_cmd "/tmp/ffmpeg-service/1a2b3c4d/02_merged.mp4"
              "/tmp/ffmpeg-service/1a2b3c4d/music.mp3"
              (pipeline_music_filter (N := ZNum) 1 60)
              "/tmp/ffmpeg-service/1a2b3c4d/03_with_music.mp4")
           600).
  - cbn. right. left. reflexivity.
  - reflexivity.
  - reflexivity.
Defined.

(** C2 (counterexample to the claim as stated).  The music mix overruns its
    timeout and every other collaborator works.  The step is not skipped:
    the run answers 500 with ["success": false], nothing is copied to the
    final name, and the subtitles, resize and loudness steps the request asks
    for are never attempted. *)
Lemma optional_step_timeout_aborts_pipeline :
  succeeded (snd (full_pipeline sample_renderer (overrunning_on "03_with_music.mp4")
                    sample_pipeline_request sample_job)) = false
  /\ snd (full_pipeline sample_renderer (overrunning_on "03_with_music.mp4")
            sample_pipeline_request sample_job)
     = ([("success", JBool false); ("error", JStr "TimeoutExpired")], 500)
  /\ copies (fst (full_pipeline sample_renderer (overrunning_on "03_with_music.mp4")
                    sample_pipeline_request sample_job)) = []
  /\ map (fun c => output_of (fst c))
         (engine_calls
            (fst (full_pipeline sample_renderer (overrunning_on "03_with_music.mp4")
                    sample_pipeline_request sample_job)))
     = ["/tmp/ffmpeg-service/1a2b3c4d/02_merged.mp4";
        "/tmp/ffmpeg-service/1a2b3c4d/03_with_music.mp4"]
  /\ filter (step_requested sample_pipeline_request) optional_steps
     = [AddMusic; AddSubtitles; ResizePlatform; NormalizeAudio].
Proof. repeat split. Qed.

(** The run with the failed music mix, evaluated: the log skips [add_music]
    and the artifact copied is the output of the last step. *)
Example pipeline_run_with_failed_music :
  let run := full_pipeline sample_renderer (failing_on "03_with_music.mp4")
               sample_pipeline_request sample_job in
  steps_of (snd run)
  = ["download_video"; "merge_tts"; "add_subtitles"; "resize_tiktok"; "normalize_audio"]
  /\ copies (fst run)
     = [("/tmp/ffmpeg-service/1a2b3c4d/06_normalized.mp4",
         "/tmp/ffmpeg-service/1a2b3c4d/final_1a2b3c4d.mp4")]
  /\ status (snd run) = 200.
Proof. repeat split. Qed.

(** A run whose last step fails keeps the artifact of the step before. *)
Example pipeline_run_with_failed_normalize :
  let run := full_pipeline sample_renderer (failing_on "06_normalized.mp4")
               sample_pipeline_request sample_job in
  steps_of (snd run)
  = ["download_video"; "merge_tts"; "add_music"; "add_subtitles"; "resize_tiktok"]
  /\ copies (fst run)
     = [("/tmp/ffmpeg-service/1a2b3c4d/05_resized.mp4",
         "/tmp/ffmpeg-service/1a2b3c4d/final_1a2b3c4d.mp4")]
  /\ status (snd run) = 200.
Proof. repeat split. Qed.

(** ** Sample evaluations of the builders *)

Example fade_filter_three_clips :
  fade_filter_complex (N := ZNum) 3 1
  = "[0:v]setpts=PTS-STARTPTS[v0];[0:a]asetpts=PTS-STARTPTS[a0];[1:v]setpts=PTS-STARTPTS[v1];[1:a]asetpts=PTS-STARTPTS[a1];[2:v]setpts=PTS-STARTPTS[v2];[2:a]asetpts=PTS-STARTPTS[a2];[v0][v1]xfade=transition=fade:duration=1:offset=0[vout0];[vout0][v2]xfade=transition=fade:duration=1:offset=0[vout1];[vout1]null[vfinal]".
Proof. reflexivity. Qed.

Example fade_filter_two_clips :
  fade_filter_complex (N := ZNum) 2 1
  = "[0:v]setpts=PTS-STARTPTS[v0];[0:a]asetpts=PTS-STARTPTS[a0];[1:v]setpts=PTS-STARTPTS[v1];[1:a]asetpts=PTS-STARTPTS[a1];[v0][v1]xfade=transition=fade:duration=1:offset=0[vout0];[vout0]null[vfinal]".
Proof. reflexivity. Qed.

Example music_filter_looped_with_fade :
  music_filter_complex (N := ZNum) 1 2 true 2 60
  = "[0:a]volume=1[voice];[1:a]aloop=loop=-1:size=2e+09,volume=2,afade=t=out:st=58:d=2[music];[voice][music]amix=inputs=2:duration=first[aout]".
Proof. reflexivity. Qed.

Example music_filter_plain :
  music_filter_complex (N := ZNum) 1 2 false 0 60
  = "[0:a]volume=1[voice];[1:a]volume=2[music];[voice][music]amix=inputs=2:duration=first[aout]".
Proof. reflexivity. Qed.

Example resize_vf_contain :
  resize_vf "contain" 1080 1920 "black"
  = "scale=1080:1920:force_original_aspect_ratio=decrease,pad=1080:1920:(ow-iw)/2:(oh-ih)/2:color=black,setsar=1".
Proof. reflexivity. Qed.

Example resize_vf_cover :
  resize_vf "cover" 640 360 "black"
  = "scale=640:360:force_original_aspect_ratio=increase,crop=640:360,setsar=1".
Proof. reflexivity. Qed.

Example resize_vf_stretch :
  resize_vf "stretch" 640 360 "black" = "scale=640:360,setsar=1".
Proof. reflexivity. Qed.

Example subtitle_filter_yellow_on_top :
  subtitle_filter (N := ZNum) "/tmp/ffmpeg-service/1a2b3c4d/subtitles.srt" 24
                  "yellow" "blue" "top"
  = "subtitles='/tmp/ffmpeg-service/1a2b3c4d/subtitles.srt':force_style='FontSize=24,PrimaryColour=&H00FFFFFF,OutlineColour=&H00000000,BorderStyle=3,Outline=2,MarginV=50,Alignment=6'".
Proof. reflexivity. Qed.

(** * Further properties of the handlers *)

(** ** Answers *)

Section Answers.

Context {N : PyNum}.

Variable w : world.

Lemma answers_bind {A B : Type} (P : response -> Prop) (m : M A) (f : A -> M B) :
  answers P m -> (forall a, answers P (f a)) -> answers P (bind m f).
Proof.
  unfold answers. intros Hm Hf. rewrite bind_outcome.
  destruct (snd m); [apply Hf | exact Hm | exact I].
Qed.

Lemma answers_return {A : Type} (P : response -> Prop) (r : response) :
  P r -> answers P (return_ r : M A).
Proof. intros H. exact H. Qed.

Lemma answers_ret {A : Type} (P : response -> Prop) (a : A) : answers P (ret a).
Proof. exact I. Qed.

Lemma answers_raise {A : Type} (P : response -> Prop) (e : string) :
  answers P (raise e : M A).
Proof. exact I. Qed.

Lemma answers_get_job_dir P job_id : answers P (get_job_dir w job_id).
Proof. rewrite get_job_dir_eq. unfold answers. simpl. now destruct (fs_ok w _). Qed.

Lemma answers_download_file P url dest : answers P (download_file w url dest).
Proof. rewrite download_file_eq. unfold answers. simpl. now destruct (http_get w _). Qed.

Lemma answers_save_base64_file P data dest :
  answers P (save_base64_file w data dest).
Proof. rewrite save_base64_file_eq. unfold answers. simpl. now destruct (b64decode w _). Qed.

Lemma answers_write_file P path content : answers P (write_file w path content).
Proof. rewrite write_file_eq. unfold answers. simpl. now destruct (fs_ok w _). Qed.

Lemma answers_rmtree P dir : answers P (rmtree w dir).
Proof. rewrite rmtree_eq. unfold answers. simpl. now destruct (rmtree_ok w _). Qed.

Lemma answers_copy P src dst : answers P (copy w src dst).
Proof. rewrite copy_eq. unfold answers. simpl. now destruct (fs_ok w _). Qed.

Lemma answers_stat_st_size P path : answers P (stat_st_size w path).
Proof. unfold stat_st_size, answers. now destruct (stat_size w _). Qed.

Lemma answers_run_ffmpeg P cmd timeout : answers P (run_ffmpeg w cmd timeout).
Proof. rewrite run_ffmpeg_eq. unfold answers. simpl. now destruct (ffmpeg w _ _). Qed.

Lemma answers_get_media_info P path : answers P (get_media_info w path).
Proof.
  unfold get_media_info, bind, emit, answers. simpl.
  destruct (returncode _ =? 0); [|exact I]. now destruct (json_loads w _).
Qed.

Lemma answers_media_duration P (info : option json) : answers P (media_duration info).
Proof.
  unfold media_duration, answers.
  destruct (json_truthy (json_opt info)); [|exact I].
  destruct (subscript (json_opt info) "format") as [fmt|]; [|exact I].
  destruct (subscript fmt "duration") as [d|]; [|exact I].
  now destruct (py_float d).
Qed.

Lemma answers_read_local {A : Type} P (v : option A) : answers P (read_local v).
Proof. unfold read_local, answers. now destruct v. Qed.

Lemma answers_handle (P : response -> Prop) (body : M Empty_set) :
  answers P body ->
  (forall e, P ([("success", JBool false); ("error", JStr e)], 500)) ->
  P (snd (handle body)).
Proof.
  unfold answers. destruct body as [t [[] | r | e]]; simpl; auto.
Qed.

End Answers.

Create HintDb answers.
#[export] Hint Resolve answers_ret answers_raise answers_get_job_dir
  answers_download_file answers_save_base64_file answers_write_file
  answers_rmtree answers_copy answers_stat_st_size answers_run_ffmpeg
  answers_get_media_info answers_media_duration answers_read_local : answers.

(** Walks down a handler body; what is left are the early returns. *)
Ltac answers_tac :=
  repeat first
    [ solve [auto with answers]
    | apply answers_return
    | apply answers_bind; [|intros]
    | match goal with
      | |- answers _ (if ?b then _ else _) => destruct b
      | |- answers _ (match ?x with _ => _ end) => destruct x
      | |- answers _ (let (_, _) := ?x in _) => destruct x
      end ].

Ltac coherent_ok := unfold coherent; cbn; first [left; easy | right; split; [auto|easy]].

Section Coherence.

Context {N : PyNum}.
Variable renderer : string.
Variable w : world.

Lemma coherent_error (e : string) :
  coherent ([("success", JBool false); ("error", JStr e)], 500).
Proof. coherent_ok. Qed.

Lemma answers_fetch_video u j path :
  answers coherent (fetch_video renderer w u j path).
Proof. unfold fetch_video. answers_tac. coherent_ok. Qed.

Lemma answers_download_videos job_dir vs :
  forall i files, answers coherent (download_videos renderer w job_dir i vs files).
Proof.
  induction vs as [|v vs IH]; intros i files; cbn [download_videos].
  - exact I.
  - apply answers_bind; [|intros; apply IH].
    answers_tac. coherent_ok.
Qed.

End Coherence.

#[export] Hint Resolve answers_fetch_video answers_download_videos : answers.

(** X1.  Whatever the world does, every handler with a request boundary
    answers with a status and a ["success"] flag that agree: 200 with
    [true], or 400 or 500 with [false]. *)
Theorem responses_are_coherent :
  forall {N : PyNum} (renderer : string) (w : world) (job_id : string),
    (forall data, coherent (snd (merge_audio_video renderer w data job_id)))
    /\ (forall data, coherent (snd (concat_videos renderer w data job_id)))
    /\ (forall data, coherent (snd (add_subtitles renderer w data job_id)))
    /\ (forall data, coherent (snd (add_background_music renderer w data job_id)))
    /\ (forall data, coherent (snd (resize_video renderer w data job_id)))
    /\ (forall data, coherent (snd (extract_audio renderer w data job_id)))
    /\ (forall data, coherent (snd (generate_thumbnail renderer w data job_id)))
    /\ (forall data, coherent (snd (trim_video renderer w data job_id)))
    /\ (forall data, coherent (snd (normalize_audio renderer w data job_id)))
    /\ (forall data, coherent (snd (full_pipeline renderer w data job_id)))
    /\ (forall data, coherent (snd (probe_media renderer w data job_id))).
Proof.
  intros N renderer w job_id.
  repeat match goal with |- _ /\ _ => split end; intros data;
    unfold merge_audio_video, concat_videos, add_subtitles, add_background_music,
      resize_video, extract_audio, generate_thumbnail, trim_video,
      normalize_audio, full_pipeline, probe_media;
    (apply answers_handle; [|apply coherent_error]);
    unfold transition_cmd, step_merge, step_music, step_subtitles, step_resize,
      step_normalize, finish_pipeline, ffmpeg_failed;
    answers_tac; coherent_ok.
Qed.

(** ** What the engine's outcome decides *)

Section EngineDecides.

Context {N : PyNum}.
Variable renderer : string.
Variable w : world.

(** A computation that has not run the engine and can only return failures. *)
Lemma quiet_engine_backed {A : Type} (m : M A) :
  engine_calls (fst m) = [] ->
  answers (fun r => succeeded r = false) m ->
  engine_backed w m.
Proof.
  unfold engine_backed, answers. intros Q H.
  destruct (snd m); [exact Q | | exact I].
  intros S. congruence.
Qed.

Lemma quiet_failure_reported {A : Type} (m : M A) :
  engine_calls (fst m) = [] -> failure_reported w m.
Proof.
  unfold failure_reported. intros Q.
  destruct (snd m); [exact Q | |];
    intros cmd timeout p Hin; rewrite Q in Hin; contradiction.
Qed.

Lemma quiet_timeout_raises {A : Type} (m : M A) :
  engine_calls (fst m) = [] -> timeout_raises w m.
Proof. unfold timeout_raises. intros Q cmd timeout Hin. rewrite Q in Hin. contradiction. Qed.

Lemma engine_backed_bind {A B : Type} (m : M A) (f : A -> M B) :
  engine_backed w m -> (forall a, engine_backed w (f a)) -> engine_backed w (bind m f).
Proof.
  unfold engine_backed. intros Hm Hf.
  rewrite bind_trace, bind_outcome.
  destruct (snd m) as [a | r | e].
  - rewrite engine_calls_app, Hm. apply Hf.
  - now rewrite app_nil_r.
  - exact I.
Qed.

Lemma failure_reported_bind {A B : Type} (m : M A) (f : A -> M B) :
  failure_reported w m -> (forall a, failure_reported w (f a)) ->
  failure_reported w (bind m f).
Proof.
  unfold failure_reported. intros Hm Hf.
  rewrite bind_trace, bind_outcome.
  destruct (snd m) as [a | r | e].
  - rewrite engine_calls_app, Hm. apply Hf.
  - now rewrite app_nil_r.
  - now rewrite app_nil_r.
Qed.

Lemma timeout_raises_bind {A B : Type} (m : M A) (f : A -> M B) :
  timeout_raises w m -> (forall a, timeout_raises w (f a)) ->
  timeout_raises w (bind m f).
Proof.
  unfold timeout_raises. intros Hm Hf cmd timeout.
  rewrite bind_trace, bind_outcome, engine_calls_app.
  intros Hin E. apply in_app_or in Hin.
  destruct (snd m) as [a | r | e] eqn:S.
  - destruct Hin as [Hin | Hin].
    + destruct (Hm cmd timeout Hin E) as [Hm' _]. discriminate Hm'.
    + destruct (Hf a cmd timeout Hin E) as [O [before T]].
      split; [exact O|]. exists (fst m ++ before)%list.
      now rewrite T, app_assoc.
  - destruct Hin as [Hin | []].
    destruct (Hm cmd timeout Hin E) as [Hm' _]. discriminate Hm'.
  - destruct Hin as [Hin | []].
    destruct (Hm cmd timeout Hin E) as [Hm' [before T]].
    injection Hm' as ->. split; [reflexivity|].
    exists before. now rewrite app_nil_r.
Qed.

(** The closing statements of a one-step handler: the engine run, the test
    of its result, the size of the output and the success. *)
Lemma engine_backed_tail {A : Type} (cmd : list string) (timeout : Z) (path : string)
    (mk : num -> response) :
  engine_backed w
    (bind (run_ffmpeg w cmd timeout) (fun result =>
       if negb (success result) then (ffmpeg_failed result : M A)
       else bind (stat_st_size w path) (fun file_size => return_ (mk file_size)))).
Proof.
  unfold engine_backed, engine_succeeds. rewrite run_ffmpeg_eq.
  destruct (ffmpeg w cmd timeout) as [p|] eqn:E; [|exact I].
  rewrite bind_val. cbv beta.
  destruct (success (result_of p)) eqn:S; cbn [negb].
  - unfold stat_st_size. destruct (stat_size w path); cbn; [|exact I].
    intros _. exists cmd, timeout. rewrite E. split; [reflexivity | exact S].
  - cbn. intros H. discriminate H.
Qed.

Lemma failure_reported_tail {A : Type} (cmd : list string) (timeout : Z) (path : string)
    (mk : num -> response) :
  failure_reported w
    (bind (run_ffmpeg w cmd timeout) (fun result =>
       if negb (success result) then (ffmpeg_failed result : M A)
       else bind (stat_st_size w path) (fun file_size => return_ (mk file_size)))).
Proof.
  unfold failure_reported. rewrite run_ffmpeg_eq.
  destruct (ffmpeg w cmd timeout) as [p|] eqn:E.
  2:{ cbn. intros c t q [[= <- <-] | []] E'. congruence. }
  rewrite bind_val. cbv beta.
  destruct (success (result_of p)) eqn:S; cbn [negb].
  - cbn in S. apply Z.eqb_eq in S.
    unfold stat_st_size. destruct (stat_size w path); cbn.
    + intros c t q [[= <- <-] | []] E' Hrc. congruence.
    + intros c t q [[= <- <-] | []] E'. congruence.
  - cbn. intros c t q [[= <- <-] | []] E' Hrc. rewrite E in E'. now injection E' as <-.
Qed.

Lemma timeout_raises_run_ffmpeg (cmd : list string) (timeout : Z) :
  timeout_raises w (run_ffmpeg w cmd timeout).
Proof.
  unfold timeout_raises. rewrite run_ffmpeg_eq. cbn.
  intros c t [[= <- <-] | []] E. rewrite E. split; [reflexivity|].
  now exists [].
Qed.

Lemma failing_fetch_video u j path :
  answers (fun r => succeeded r = false) (fetch_video renderer w u j path).
Proof. unfold fetch_video. answers_tac; reflexivity. Qed.

Lemma failing_download_videos job_dir vs i files :
  answers (fun r => succeeded r = false)
          (download_videos renderer w job_dir i vs files).
Proof.
  pose proof (download_videos_outcome renderer w job_dir vs i files) as [_ H].
  unfold answers. destruct (snd _); auto. tauto.
Qed.

Lemma download_videos_quiet job_dir vs i files :
  engine_calls (fst (download_videos renderer w job_dir i vs files)) = [].
Proof. apply download_videos_outcome. Qed.

Lemma read_local_quiet {A : Type} (v : option A) :
  engine_calls (fst (read_local v)) = [].
Proof. now destruct v. Qed.

End EngineDecides.

#[export] Hint Resolve download_videos_quiet read_local_quiet : quiet.
#[export] Hint Resolve failing_fetch_video failing_download_videos : answers.

(** Walks down the body of a one-step handler for one of the three readings
    of the engine's outcome. *)
Ltac engine_tac :=
  repeat first
    [ apply engine_backed_tail
    | apply failure_reported_tail
    | apply timeout_raises_run_ffmpeg
    | apply quiet_engine_backed; [solve [auto with quiet] | solve [auto with answers]]
    | apply quiet_engine_backed; [reflexivity | apply answers_return; reflexivity]
    | apply quiet_failure_reported; solve [auto with quiet]
    | apply quiet_timeout_raises; solve [auto with quiet]
    | apply engine_backed_bind; [|intros]
    | apply failure_reported_bind; [|intros]
    | apply timeout_raises_bind; [|intros]
    | match goal with
      | |- ?P _ (if ?b then _ else _) => destruct b
      | |- ?P _ (match ?x with _ => _ end) => destruct x
      | |- ?P _ (let (_, _) := ?x in _) => destruct x
      end ].

Section EngineDecidesHandlers.

Context {N : PyNum}.
Variable w : world.

Lemma engine_backed_handle (body : M Empty_set) :
  engine_backed w body -> run_backed w (handle body).
Proof.
  unfold engine_backed, run_backed. destruct body as [t [[] | r | e]]; cbn; auto.
  intros _ H. discriminate H.
Qed.

Lemma failure_reported_handle (body : M Empty_set) :
  failure_reported w body -> run_reports_failure w (handle body).
Proof.
  unfold failure_reported, run_reports_failure. destruct body as [t [[] | r | e]]; cbn.
  - intros H cmd timeout p Hin E Hrc. now apply (H cmd timeout p).
  - intros H cmd timeout p Hin E Hrc. now destruct (Hrc (H cmd timeout p Hin E)).
Qed.

Lemma timeout_raises_handle (body : M Empty_set) :
  timeout_raises w body -> run_reports_timeout w (handle body).
Proof.
  unfold timeout_raises, run_reports_timeout. intros H cmd timeout Hin E.
  rewrite handle_trace in Hin. destruct (H cmd timeout Hin E) as [O T].
  rewrite handle_trace. split; [|exact T].
  destruct body as [t [[] | r | e]]; cbn in *; [discriminate O|].
  now injection O as ->.
Qed.

End EngineDecidesHandlers.

(** X2.  A one-step handler answers with a success only after the engine
    ran exactly once and exited with status 0: no success is reported
    without the output having been produced. *)
Theorem success_is_backed_by_engine :
  forall {N : PyNum} (renderer : string) (w : world) (job_id : string),
    (forall data, run_backed w (merge_audio_video renderer w data job_id))
    /\ (forall data, run_backed w (concat_videos renderer w data job_id))
    /\ (forall data, run_backed w (add_subtitles renderer w data job_id))
    /\ (forall data, run_backed w (add_background_music renderer w data job_id))
    /\ (forall data, run_backed w (resize_video renderer w data job_id))
    /\ (forall data, run_backed w (extract_audio renderer w data job_id))
    /\ (forall data, run_backed w (generate_thumbnail renderer w data job_id))
    /\ (forall data, run_backed w (trim_video renderer w data job_id))
    /\ (forall data, run_backed w (normalize_audio renderer w data job_id)).
Proof.
  intros N renderer w job_id.
  repeat match goal with |- _ /\ _ => split end; intros data;
    unfold merge_audio_video, concat_videos, add_subtitles, add_background_music,
      resize_video, extract_audio, generate_thumbnail, trim_video, normalize_audio;
    apply engine_backed_handle;
    unfold transition_cmd;
    engine_tac.
Qed.

(** X3.  When the engine run of a one-step handler exits with a nonzero
    status, the answer is the 500 ["FFmpeg failed"] whose details are the
    kept tail of that run's standard error. *)
Theorem engine_failure_is_reported :
  forall {N : PyNum} (renderer : string) (w : world) (job_id : string),
    (forall data, run_reports_failure w (merge_audio_video renderer w data job_id))
    /\ (forall data, run_reports_failure w (concat_videos renderer w data job_id))
    /\ (forall data, run_reports_failure w (add_subtitles renderer w data job_id))
    /\ (forall data, run_reports_failure w (add_background_music renderer w data job_id))
    /\ (forall data, run_reports_failure w (resize_video renderer w data job_id))
    /\ (forall data, run_reports_failure w (extract_audio renderer w data job_id))
    /\ (forall data, run_reports_failure w (generate_thumbnail renderer w data job_id))
    /\ (forall data, run_reports_failure w (trim_video renderer w data job_id))
    /\ (forall data, run_reports_failure w (normalize_audio renderer w data job_id)).
Proof.
  intros N renderer w job_id.
  repeat match goal with |- _ /\ _ => split end; intros data;
    unfold merge_audio_video, concat_videos, add_subtitles, add_background_music,
      resize_video, extract_audio, generate_thumbnail, trim_video, normalize_audio;
    apply failure_reported_handle;
    unfold transition_cmd;
    engine_tac.
Qed.

(** X4.  In every handler, the pipeline and its best-effort steps included,
    an engine run that overruns its timeout ends the request: the answer is
    the 500 of the raised [TimeoutExpired] and that run is the last event of
    the trace (nothing is retried, no later step runs, nothing is copied). *)
Theorem engine_timeout_ends_the_request :
  forall {N : PyNum} (renderer : string) (w : world) (job_id : string),
    (forall data, run_reports_timeout w (merge_audio_video renderer w data job_id))
    /\ (forall data, run_reports_timeout w (concat_videos renderer w data job_id))
    /\ (forall data, run_reports_timeout w (add_subtitles renderer w data job_id))
    /\ (forall data, run_reports_timeout w (add_background_music renderer w data job_id))
    /\ (forall data, run_reports_timeout w (resize_video renderer w data job_id))
    /\ (forall data, run_reports_timeout w (extract_audio renderer w data job_id))
    /\ (forall data, run_reports_timeout w (generate_thumbnail renderer w data job_id))
    /\ (forall data, run_reports_timeout w (trim_video renderer w data job_id))
    /\ (forall data, run_reports_timeout w (normalize_audio renderer w data job_id))
    /\ (forall data, run_reports_timeout w (full_pipeline renderer w data job_id)).
Proof.
  intros N renderer w job_id.
  repeat match goal with |- _ /\ _ => split end; intros data;
    unfold merge_audio_video, concat_videos, add_subtitles, add_background_music,
      resize_video, extract_audio, generate_thumbnail, trim_video,
      normalize_audio, full_pipeline;
    apply timeout_raises_handle;
    unfold transition_cmd, step_merge, step_music, step_subtitles, step_resize,
      step_normalize, finish_pipeline, ffmpeg_failed;
    engine_tac.
Qed.

(** ** Where a job writes *)

Section Confinement.

Context {N : PyNum}.
Variable renderer : string.
Variable w : world.

Lemma trace_all_bind {A B : Type} (P : event -> Prop) (m : M A) (f : A -> M B) :
  trace_all P m ->
  (forall a, snd m = Val a -> trace_all P (f a)) ->
  trace_all P (bind m f).
Proof.
  unfold trace_all. intros Hm Hf. rewrite bind_trace.
  apply Forall_app. split; [exact Hm|].
  destruct (snd m); [now apply Hf | constructor | constructor].
Qed.

Lemma trace_all_silent {A : Type} (P : event -> Prop) (m : M A) :
  fst m = [] -> trace_all P m.
Proof. unfold trace_all. intros ->. constructor. Qed.

Lemma trace_all_get_job_dir P job_id :
  P (EvMkdir (path_join TEMP_DIR job_id)) -> trace_all P (get_job_dir w job_id).
Proof. intros H. rewrite get_job_dir_eq. repeat constructor. exact H. Qed.

Lemma trace_all_download_file P url dest :
  P (EvDownload url dest) -> trace_all P (download_file w url dest).
Proof. intros H. rewrite download_file_eq. repeat constructor. exact H. Qed.

Lemma trace_all_save_base64_file P data dest :
  P (EvSaveB64 dest) -> trace_all P (save_base64_file w data dest).
Proof. intros H. rewrite save_base64_file_eq. repeat constructor. exact H. Qed.

Lemma trace_all_write_file P path content :
  P (EvWrite path content) -> trace_all P (write_file w path content).
Proof. intros H. rewrite write_file_eq. repeat constructor. exact H. Qed.


Lemma trace_all_copy P src dst : P (EvCopy src dst) -> trace_all P (copy w src dst).
Proof. intros H. rewrite copy_eq. repeat constructor. exact H. Qed.

Lemma trace_all_run_ffmpeg P cmd timeout :
  P (EvEngine cmd timeout) -> trace_all P (run_ffmpeg w cmd timeout).
Proof. intros H. rewrite run_ffmpeg_eq. repeat constructor. exact H. Qed.

Lemma trace_all_get_media_info P path :
  P (EvProbe (probe_cmd path)) -> trace_all P (get_media_info w path).
Proof.
  intros H. unfold trace_all, get_media_info, bind, emit. simpl.
  destruct (returncode _ =? 0); [destruct (json_loads w _)|];
    repeat constructor; exact H.
Qed.

Lemma trace_all_stat_st_size P path : trace_all P (stat_st_size w path).
Proof. apply trace_all_silent. unfold stat_st_size. now destruct (stat_size w _). Qed.

Lemma trace_all_media_duration P (info : option json) :
  trace_all P (media_duration info).
Proof. apply trace_all_silent, media_duration_no_events. Qed.

Lemma trace_all_read_local {A : Type} P (v : option A) : trace_all P (read_local v).
Proof. apply trace_all_silent. now destruct v. Qed.
















End Confinement.







(** ** Requests without a source *)

(** Rewrites a handler up to its first test of the request. *)
Ltac reject_tac :=
  unfold rejected_run; rewrite get_job_dir_eq;
  match goal with
  | |- context [fs_ok ?w ?p] => destruct (fs_ok w p)
  end; [rewrite bind_val; cbv beta zeta | reflexivity].

(** X6.  A request that names no video (both [video_url] and
    [video_job_id] absent or empty; [video_job_id] for the pipeline, [url]
    and [job_id] for the probe) is turned down with a 400 as soon as the job
    directory exists: nothing is fetched and the engine is not run. *)
Theorem missing_video_is_rejected_first :
  forall {N : PyNum} (renderer : string) (w : world) (job_id : string),
    let msg := "video_url or video_job_id required" in
    (forall data,
        get_truthy (mrg_video_url data) = false ->
        get_truthy (mrg_video_job_id data) = false ->
        merge_audio_video renderer w data job_id = rejected_run w job_id msg)
    /\ (forall data,
        get_truthy (sub_video_url data) = false ->
        get_truthy (sub_video_job_id data) = false ->
        add_subtitles renderer w data job_id = rejected_run w job_id msg)
    /\ (forall data,
        get_truthy (mus_video_url data) = false ->
        get_truthy (mus_video_job_id data) = false ->
        add_background_music renderer w data job_id = rejected_run w job_id msg)
    /\ (forall data,
        get_truthy (rsz_video_url data) = false ->
        get_truthy (rsz_video_job_id data) = false ->
        resize_video renderer w data job_id = rejected_run w job_id msg)
    /\ (forall data,
        get_truthy (ext_video_url data) = false ->
        get_truthy (ext_video_job_id data) = false ->
        extract_audio renderer w data job_id = rejected_run w job_id msg)
    /\ (forall data,
        get_truthy (thb_video_url data) = false ->
        get_truthy (thb_video_job_id data) = false ->
        generate_thumbnail renderer w data job_id = rejected_run w job_id msg)
    /\ (forall data,
        get_truthy (trm_video_url data) = false ->
        get_truthy (trm_video_job_id data) = false ->
        trim_video renderer w data job_id = rejected_run w job_id msg)
    /\ (forall data,
        get_truthy (nrm_video_url data) = false ->
        get_truthy (nrm_video_job_id data) = false ->
        normalize_audio renderer w data job_id = rejected_run w job_id msg)
    /\ (forall data,
        get_truthy (video_job_id data) = false ->
        full_pipeline renderer w data job_id
        = rejected_run w job_id "video_job_id required")
    /\ (forall data,
        get_truthy (probe_url data) = false ->
        get_truthy (probe_job_id data) = false ->
        probe_media renderer w data job_id
        = rejected_run w job_id "url or job_id required").
Proof.
  intros N renderer w job_id msg.
  repeat match goal with |- _ /\ _ => split end; intros data;
    unfold merge_audio_video, add_subtitles, add_background_music, resize_video,
      extract_audio, generate_thumbnail, trim_video, normalize_audio,
      full_pipeline, probe_media, fetch_video;
    try (intros H1 H2; reject_tac; try destruct (resize_dimensions data);
         rewrite H1, H2; reflexivity).
  intros H1. reject_tac. rewrite H1. reflexivity.
Qed.

(** ** Trimming *)

(** X7.  The cut's length: with no [duration] and an [end], the engine is
    given [-t end-start], unless [end] equals [start], where no [-t] is
    given at all and the copy runs to the end of the video; the difference
    is not checked, so an [end] before [start] gives a negative [-t].  A
    [duration] that is given wins over [end]; given as 0 it means no [-t]
    either, whatever [end] is. *)
Theorem trim_duration_argument :
  forall (start : Z) (duration end_ : option Z) (video_path output_path : string),
    let limited d :=
      ["ffmpeg"; "-y"; "-ss"; py_int start; "-i"; video_path;
       "-t"; py_int d;
       "-c"; "copy"; "-movflags"; "+faststart"; output_path] in
    let unlimited :=
      ["ffmpeg"; "-y"; "-ss"; py_int start; "-i"; video_path;
       "-c"; "copy"; "-movflags"; "+faststart"; output_path] in
    trim_cmd start (trim_duration start duration end_) video_path output_path
    = match duration, end_ with
      | Some d, _ => if d =? 0 then unlimited else limited d
      | None, Some e => if e =? start then unlimited else limited (e - start)
      | None, None => unlimited
      end.
Proof.
  intros start duration end_ video_path output_path limited unlimited.
  unfold trim_cmd, trim_duration, int_truthy.
  destruct duration as [d|], end_ as [e|]; cbn [get_or].
  - now destruct (d =? 0).
  - now destruct (d =? 0).
  - replace (e - start =? 0) with (e =? start).
    + now destruct (e =? start).
    + destruct (e =? start) eqn:E; symmetry.
      * apply Z.eqb_eq in E. apply Z.eqb_eq. lia.
      * apply Z.eqb_neq in E. apply Z.eqb_neq. lia.
  - reflexivity.
Qed.

(** ** Retrieval *)

Lemma list_ascii_of_string_app (a b : string) :
  list_ascii_of_string (a ++ b)
  = (list_ascii_of_string a ++ list_ascii_of_string b)%list.
Proof. induction a as [|c a IH]; simpl; congruence. Qed.

Lemma append_length (a b : string) :
  String.length (a ++ b) = (String.length a + String.length b)%nat.
Proof. induction a as [|c a IH]; simpl; congruence. Qed.

Lemma append_inv_tail (a b s : string) : a ++ s = b ++ s -> a = b.
Proof.
  intros H. apply (f_equal list_ascii_of_string) in H.
  rewrite !list_ascii_of_string_app in H. apply app_inv_tail in H.
  apply (f_equal string_of_list_ascii) in H.
  now rewrite !string_of_list_ascii_of_string in H.
Qed.

(** The slice of the width of a suffix is that suffix. *)
Lemma slice_last_app (a b : string) : slice_last (String.length b) (a ++ b) = b.
Proof.
  unfold slice_last.
  rewrite append_length, list_ascii_of_string_app.
  replace (String.length a + String.length b - String.length b)%nat
    with (List.length (list_ascii_of_string a) + 0)%nat
    by (rewrite length_list_ascii_of_string; lia).
  rewrite skipn_app, Nat.add_0_r, skipn_all.
  replace (_ - _)%nat with 0%nat by lia.
  cbn. apply string_of_list_ascii_of_string.
Qed.

Lemma endswith_app (stem ext suffix : string) :
  String.length ext = String.length suffix ->
  endswith (stem ++ ext) suffix = String.eqb ext suffix.
Proof. intros H. unfold endswith. now rewrite <- H, slice_last_app. Qed.

(** X8.  The download route picks the content type from the last four
    characters of the file name alone.  So the artifacts named [*.mp4] and
    the extracted [*.mp3] and the thumbnail [*.jpg] are served under their
    own type, while audio extracted as [wav] or [aac], a format the extract
    handler accepts, is served as [video/mp4]. *)
Theorem download_mimetype_by_extension :
  forall {N : PyNum} (st : store) (job_id : string),
    (forall stem ext : string,
        String.length ext = 4%nat ->
        mimetype_of (stem ++ ext) = mimetype_of ext)
    /\ mimetype_of ("thumbnail_" ++ job_id ++ ".jpg") = "image/jpeg"
    /\ mimetype_of (extract_audio_name job_id "mp3") = "audio/mpeg"
    /\ (forall operation,
          mimetype_of (operation ++ job_id ++ ".mp4") = "video/mp4")
    /\ (forall audio_format sent,
          audio_format = "wav" \/ audio_format = "aac" ->
          download_file_route st job_id (extract_audio_name job_id audio_format)
          = inr sent ->
          sent_mimetype sent = "video/mp4"
          /\ sent_download_name sent = extract_audio_name job_id audio_format)
    /\ (forall filename,
          file_exists st job_id filename = false ->
          download_file_route st job_id filename
          = inl ([("error", JStr "File not found")], 404)).
Proof.
  intros N st job_id.
  assert (by_ext : forall stem ext : string,
             String.length ext = 4%nat ->
             mimetype_of (stem ++ ext) = mimetype_of ext).
  { intros stem ext H. unfold mimetype_of.
    rewrite !(endswith_app stem ext) by (rewrite H; reflexivity).
    rewrite <- !(endswith_app "" ext) by (rewrite H; reflexivity).
    reflexivity. }
  split; [exact by_ext|].
  split.
  { rewrite <- append_assoc. now rewrite by_ext. }
  split.
  { unfold extract_audio_name.
    replace ("audio_" ++ job_id ++ "." ++ "mp3") with (("audio_" ++ job_id) ++ ".mp3")
      by now rewrite append_assoc.
    now rewrite by_ext. }
  split.
  { intros operation. rewrite <- append_assoc. now rewrite by_ext. }
  split.
  { intros audio_format sent Hfmt. unfold download_file_route.
    destruct (file_exists st job_id _); cbn [negb]; [|discriminate].
    intros [= <-]. cbn [sent_mimetype sent_download_name]. split; [|reflexivity].
    unfold extract_audio_name.
    destruct Hfmt as [-> | ->].
    - replace ("audio_" ++ job_id ++ "." ++ "wav") with (("audio_" ++ job_id) ++ ".wav")
        by now rewrite append_assoc.
      now rewrite by_ext.
    - replace ("audio_" ++ job_id ++ "." ++ "aac") with (("audio_" ++ job_id) ++ ".aac")
        by now rewrite append_assoc.
      now rewrite by_ext. }
  intros filename H. unfold download_file_route. now rewrite H.
Qed.

(** ** Cleanup *)

Lemma find_entry_remove_same (name : string) (es : list (string * node)) :
  find_entry name (remove_entry name es) = None.
Proof.
  induction es as [|[n e] es IH]; [reflexivity|].
  cbn [remove_entry filter fst]. destruct (String.eqb name n) eqn:E; cbn [negb].
  - exact IH.
  - cbn [find_entry]. rewrite E. exact IH.
Qed.

Lemma find_entry_remove_other (name other : string) (es : list (string * node)) :
  other <> name ->
  find_entry other (remove_entry name es) = find_entry other es.
Proof.
  intros H. induction es as [|[n e] es IH]; [reflexivity|].
  cbn [remove_entry filter fst]. destruct (String.eqb name n) eqn:E; cbn [negb].
  - apply String.eqb_eq in E. subst n. cbn [find_entry].
    apply String.eqb_neq in H. rewrite H. exact IH.
  - cbn [find_entry]. destruct (String.eqb other n); [reflexivity | exact IH].
Qed.

(** A plain name is read as itself. *)
Lemma plain_segment (s : string) : plain_name s = true -> segment_of s = Name s.
Proof.
  unfold plain_name, segment_of. intros H.
  destruct (String.eqb s ""); [discriminate H|].
  destruct (String.eqb s "."); [discriminate H|].
  destruct (String.eqb s ".."); [discriminate H | reflexivity].
Qed.

(** X9.  After a cleanup of a job named by a plain name that answered with
    a success, the job is gone: its directory is no entry of the staging
    root, every download from it is a 404 and a second cleanup answers 404
    ["Job not found"] and changes nothing; downloads from every other job
    named by a plain name behave as before. *)
Theorem cleanup_removes_only_that_job :
  forall {N : PyNum} (st st' : store) (job_id : string) (r : response),
    plain_name job_id = true ->
    cleanup st job_id = Some (st', r) ->
    succeeded r = true ->
    (exists es,
        entries st = Some es
        /\ st' = with_entries st (Some (remove_entry job_id es)))
    /\ status r = 200
    /\ (forall filename,
          download_file_route st' job_id filename
          = inl ([("error", JStr "File not found")], 404))
    /\ cleanup st' job_id
       = Some (st', ([("success", JBool false); ("error", JStr "Job not found")], 404))
    /\ (forall other filename,
          plain_name other = true ->
          other <> job_id ->
          download_file_route st' other filename
          = download_file_route st other filename).
Proof.
  intros N st st' job_id r P. pose proof (plain_segment job_id P) as Seg.
  unfold cleanup, job_exists, rmtree_job. rewrite Seg.
  destruct (entries st) as [es|] eqn:E; [|intros [= <- <-] S; discriminate S].
  cbn [get_or].
  destruct (find_entry job_id es) as [[files|]|] eqn:F; try discriminate.
  2:{ intros [= <- <-] S. discriminate S. }
  destruct (removable st job_id); [|discriminate].
  intros [= <- <-] _.
  split; [now exists es|]. split; [reflexivity|].
  split.
  { intros filename. unfold download_file_route, file_exists.
    cbn [entries with_entries]. rewrite Seg, find_entry_remove_same.
    now destruct (segment_of filename). }
  split.
  { cbn [entries with_entries]. now rewrite find_entry_remove_same. }
  intros other filename Po Hne. pose proof (plain_segment other Po) as So.
  unfold download_file_route, file_exists. cbn [entries with_entries].
  now rewrite E, So, find_entry_remove_other.
Qed.

Lemma cleanup_removes_only_that_job_witness :
  plain_name sample_job = true
  /\ cleanup (N := ZNum) sample_store sample_job
     = Some (with_entries sample_store
               (Some [("notes.txt", File);
                      ("5e6f7a8b", Dir ["thumbnail_5e6f7a8b.jpg"])]),
             ([("success", JBool true); ("message", JStr "Cleaned up 1a2b3c4d")], 200))
  /\ download_file_route (N := ZNum)
       (with_entries sample_store
          (Some [("notes.txt", File);
                 ("5e6f7a8b", Dir ["thumbnail_5e6f7a8b.jpg"])]))
       sample_job "final_1a2b3c4d.mp4"
     = inl ([("error", JStr "File not found")], 404).
Proof.
  split; [reflexivity|]. split; [reflexivity|].
  destruct (cleanup_removes_only_that_job (N := ZNum) sample_store
              (with_entries sample_store
                 (Some [("notes.txt", File);
                        ("5e6f7a8b", Dir ["thumbnail_5e6f7a8b.jpg"])]))
              sample_job
              ([("success", JBool true); ("message", JStr "Cleaned up 1a2b3c4d")], 200))
    as (_ & _ & gone & _).
  - reflexivity.
  - reflexivity.
  - reflexivity.
  - apply gone.
Defined.

Lemma cleanup_all_fold (st : store) (es kept : list (string * node)) (count : Z) :
  (forall e, In e es -> is_dir e = true -> removable st (fst e) = true) ->
  fold_left (fun acc item =>
               match acc with
               | None => None
               | Some (kept, count) =>
                   if is_dir item then
                     if removable st (fst item)
                     then Some (kept, count + 1)
                     else None
                   else Some ((kept ++ [item])%list, count)
               end)
            es (Some (kept, count))
  = Some ((kept ++ filter (fun e => negb (is_dir e)) es)%list,
          count + Z.of_nat (List.length (filter is_dir es))).
Proof.
  revert kept count. induction es as [|item es IH]; intros kept count R.
  - cbn. now rewrite app_nil_r, Z.add_0_r.
  - cbn [fold_left filter]. destruct (is_dir item) eqn:D; cbn [negb].
    + rewrite (R item (or_introl eq_refl) D).
      rewrite IH by (intros e He; apply R; now right).
      cbn [List.length]. do 2 f_equal. lia.
    + rewrite IH by (intros e He; apply R; now right).
      now rewrite <- app_assoc.
Qed.

Lemma find_entry_files (name : string) (es : list (string * node)) :
  match find_entry name (filter (fun e => negb (is_dir e)) es) with
  | Some (Dir _) => False
  | _ => True
  end.
Proof.
  induction es as [|[n e] es IH]; [exact I|].
  cbn [filter]. unfold is_dir at 1. cbn [snd].
  destruct e; cbn [negb]; [exact IH|].
  cbn [find_entry]. destruct (String.eqb name n); [exact I | exact IH].
Qed.

(** X10.  On a staging root that is there and whose directories can all be
    removed, the bulk cleanup removes exactly the directories and reports how
    many they were; plain files stay, in their order.  Afterwards no download
    under a job named by a plain name finds a file, and a second bulk
    cleanup reports 0. *)
Theorem cleanup_all_counts_directories :
  forall {N : PyNum} (st : store) (es : list (string * node)),
    entries st = Some es ->
    (forall e, In e es -> is_dir e = true -> removable st (fst e) = true) ->
    let dirs := Z.of_nat (List.length (filter is_dir es)) in
    let st' := with_entries st (Some (filter (fun e => negb (is_dir e)) es)) in
    cleanup_all st
    = Some (st', ([("success", JBool true); ("cleaned", JNum (num_of_Z dirs))], 200))
    /\ (forall job_id filename,
          plain_name job_id = true ->
          plain_name filename = true ->
          download_file_route st' job_id filename
          = inl ([("error", JStr "File not found")], 404))
    /\ cleanup_all st'
       = Some (st', ([("success", JBool true); ("cleaned", JNum (num_of_Z 0))], 200)).
Proof.
  intros N st es E R dirs st'.
  split.
  { unfold cleanup_all. rewrite E, (cleanup_all_fold st es [] 0 R). reflexivity. }
  split.
  { intros job_id filename Pj Pf.
    unfold download_file_route, file_exists. subst st'. cbn [entries with_entries].
    rewrite (plain_segment _ Pj), (plain_segment _ Pf).
    pose proof (find_entry_files job_id es) as F.
    destruct (find_entry job_id _) as [[files|]|];
      [contradiction | reflexivity | reflexivity]. }
  assert (no_dirs : filter is_dir (filter (fun e => negb (is_dir e)) es) = []).
  { clear. induction es as [|item s IH]; [reflexivity|].
    cbn [filter]. destruct (is_dir item) eqn:D; cbn [negb filter]; [exact IH|].
    now rewrite D. }
  assert (same : filter (fun e => negb (is_dir e))
                        (filter (fun e => negb (is_dir e)) es)
                 = filter (fun e => negb (is_dir e)) es).
  { clear. induction es as [|item s IH]; [reflexivity|].
    cbn [filter]. destruct (is_dir item) eqn:D; cbn [negb filter]; [exact IH|].
    rewrite D. cbn [negb]. now rewrite IH. }
  unfold cleanup_all. subst st'. cbn [entries with_entries].
  rewrite (cleanup_all_fold _ _ [] 0).
  - rewrite no_dirs, same. reflexivity.
  - intros e He D. apply filter_In in He. destruct He as [_ He].
    rewrite D in He. discriminate He.
Qed.

Lemma cleanup_all_counts_directories_witness :
  cleanup_all (N := ZNum) sample_store
  = Some (with_entries sample_store (Some [("notes.txt", File)]),
          ([("success", JBool true); ("cleaned", JNum (2 : @num ZNum))], 200)).
Proof.
  apply (cleanup_all_counts_directories (N := ZNum) sample_store
           [("1a2b3c4d", Dir ["final_1a2b3c4d.mp4"; "01_video.mp4"]);
            ("notes.txt", File);
            ("5e6f7a8b", Dir ["thumbnail_5e6f7a8b.jpg"])]).
  - reflexivity.
  - intros e _ _. reflexivity.
Defined.

(** ** Dot segments in the routes *)

(** X19.  The routes join the segments of the address to the staging root
    as they come, and a segment may be [.] or [..].  So on a staging root
    that is there: a cleanup of [.] removes the root itself, with every job
    in it, and answers 200, after which no download finds anything and the
    bulk cleanup raises; a cleanup of [..] raises; a download under [.]
    sends an entry of the root, and a download under [..] sends a file that
    lies beside the root, outside it. *)
Theorem dot_segments_leave_the_job_directory :
  forall {N : PyNum} (st : store) (es : list (string * node)),
    entries st = Some es ->
    (removable st "." = true ->
     cleanup st "."
     = Some (with_entries st None,
             ([("success", JBool true); ("message", JStr "Cleaned up .")], 200))
     /\ (forall job_id filename,
           download_file_route (with_entries st None) job_id filename
           = inl ([("error", JStr "File not found")], 404))
     /\ cleanup_all (with_entries st None) = None)
    /\ (removable st "." = false -> cleanup st "." = None)
    /\ cleanup st ".." = None
    /\ (forall name e,
          plain_name name = true ->
          find_entry name es = Some e ->
          download_file_route st "." name
          = inr {| sent_path := path_join TEMP_DIR name;
                   sent_mimetype := mimetype_of name;
                   sent_as_attachment := true;
                   sent_download_name := name |})
    /\ (forall name,
          plain_name name = true ->
          beside st name = true ->
          download_file_route st ".." name
          = inr {| sent_path := TEMP_DIR ++ "/../" ++ name;
                   sent_mimetype := mimetype_of name;
                   sent_as_attachment := true;
                   sent_download_name := name |}).
Proof.
  intros N st es E.
  split.
  { intros R. split; [|split].
    - unfold cleanup, job_exists, rmtree_job. rewrite E. cbn [segment_of String.eqb
        Ascii.eqb Bool.eqb orb]. now rewrite R.
    - intros job_id filename. reflexivity.
    - reflexivity. }
  split.
  { intros R. unfold cleanup, job_exists, rmtree_job. rewrite E.
    cbn [segment_of String.eqb Ascii.eqb Bool.eqb orb]. now rewrite R. }
  split.
  { unfold cleanup, job_exists, rmtree_job. now rewrite E. }
  split.
  - intros name e P F. pose proof (plain_segment name P) as Seg.
    unfold download_file_route, file_exists, join_segment. rewrite E, Seg.
    cbn [segment_of String.eqb Ascii.eqb Bool.eqb orb]. rewrite ?Seg, F. reflexivity.
  - intros name P B. pose proof (plain_segment name P) as Seg.
    unfold download_file_route, file_exists, join_segment. rewrite E, Seg.
    cbn [segment_of String.eqb Ascii.eqb Bool.eqb orb]. rewrite ?Seg, B, orb_true_r.
    cbn [negb]. now rewrite append_assoc.
Qed.

(** On the sample root: the stray file is sent through [.], the file beside
    the root through [..]. *)
Lemma dot_segments_leave_the_job_directory_witness :
  entries sample_store
  = Some [("1a2b3c4d", Dir ["final_1a2b3c4d.mp4"; "01_video.mp4"]);
          ("notes.txt", File);
          ("5e6f7a8b", Dir ["thumbnail_5e6f7a8b.jpg"])]
  /\ cleanup (N := ZNum) sample_store "."
     = Some (with_entries sample_store None,
             ([("success", JBool true); ("message", JStr "Cleaned up .")], 200))
  /\ download_file_route (N := ZNum) sample_store "." "notes.txt"
     = inr {| sent_path := "/tmp/ffmpeg-service/notes.txt";
              sent_mimetype := "video/mp4";
              sent_as_attachment := true;
              sent_download_name := "notes.txt" |}
  /\ download_file_route (N := ZNum) sample_store ".." "passwords.txt"
     = inr {| sent_path := "/tmp/ffmpeg-service/../passwords.txt";
              sent_mimetype := "video/mp4";
              sent_as_attachment := true;
              sent_download_name := "passwords.txt" |}.
Proof.
  split; [reflexivity|].
  destruct (dot_segments_leave_the_job_directory (N := ZNum) sample_store
              [("1a2b3c4d", Dir ["final_1a2b3c4d.mp4"; "01_video.mp4"]);
               ("notes.txt", File);
               ("5e6f7a8b", Dir ["thumbnail_5e6f7a8b.jpg"])] eq_refl)
    as (C & _ & _ & H & U).
  split; [apply C; reflexivity|].
  split; [apply (H "notes.txt" File); reflexivity|].
  apply (U "passwords.txt"); reflexivity.
Defined.

(** ** The clips of a concat request *)

Lemma NoDup_map_injective {A B : Type} (f : A -> B) (l : list A) :
  (forall a b, f a = f b -> a = b) -> NoDup l -> NoDup (map f l).
Proof.
  intros Inj ND. induction ND as [|a l NotIn ND IH]; cbn; constructor; auto.
  intros In'. apply in_map_iff in In' as (b & E & Hb).
  apply Inj in E. subst b. contradiction.
Qed.

Section Clips.

Context {N : PyNum}.
Variable renderer : string.
Variable w : world.

Lemma input_path_inj (job_dir : string) (i j : Z) :
  input_path job_dir i = input_path job_dir j -> i = j.
Proof.
  unfold input_path, path_join. intros H.
  do 3 apply append_inv_head in H.
  apply append_inv_tail in H. now apply py_int_inj.
Qed.

(** What one round of the loop does with a clip. *)
Lemma fetch_clip_outcome (job_dir : string) (i : Z) (video : video_source) :
  let fetch :=
    if get_truthy (src_url video) then
      download_file w (get_or (src_url video) "") (input_path job_dir i)
    else if get_truthy (src_job_id video) then
      download_file w (renderer ++ "/video/" ++ get_or (src_job_id video) "")
                    (input_path job_dir i)
    else if get_truthy (src_base64 video) then
      save_base64_file w (get_or (src_base64 video) "") (input_path job_dir i)
    else
      return_ ([("success", JBool false);
                ("error", JStr ("Invalid video source at index " ++ py_int i))], 400) in
  if sourceless video
  then fetch = ([], Return ([("success", JBool false);
                             ("error", JStr ("Invalid video source at index " ++ py_int i))],
                            400))
  else List.length (fst fetch) = 1%nat
       /\ match snd fetch with Return _ => False | _ => True end.
Proof.
  cbv zeta. unfold sourceless.
  destruct (get_truthy (src_url video)); cbn [negb andb].
  { rewrite download_file_eq. cbn [fst snd List.length].
    now destruct (http_get w _). }
  destruct (get_truthy (src_job_id video)); cbn [negb andb].
  { rewrite download_file_eq. cbn [fst snd List.length].
    now destruct (http_get w _). }
  destruct (get_truthy (src_base64 video)); cbn [negb andb].
  { rewrite save_base64_file_eq. cbn [fst snd List.length].
    now destruct (b64decode w _). }
  reflexivity.
Qed.

Lemma download_videos_run (job_dir : string) (vs : list video_source) :
  forall (i : Z) (files : list string),
    match snd (download_videos renderer w job_dir i vs files) with
    | Val out =>
        out = (files ++ map (fun k => input_path job_dir (i + Z.of_nat k))
                            (seq 0 (List.length vs)))%list
        /\ List.length (fst (download_videos renderer w job_dir i vs files))
           = List.length vs
        /\ forallb (fun v => negb (sourceless v)) vs = true
    | Return r =>
        exists k video,
          nth_error vs k = Some video
          /\ sourceless video = true
          /\ forallb (fun v => negb (sourceless v)) (firstn k vs) = true
          /\ r = ([("success", JBool false);
                   ("error",
                    JStr ("Invalid video source at index " ++ py_int (i + Z.of_nat k)))],
                  400)
          /\ List.length (fst (download_videos renderer w job_dir i vs files)) = k
    | Raise _ => True
    end.
Proof.
  induction vs as [|video rest IH]; intros i files.
  - cbn. rewrite app_nil_r. auto.
  - cbn [download_videos]. fold (input_path job_dir i).
    pose proof (fetch_clip_outcome job_dir i video) as F. cbv zeta in F.
    rewrite bind_outcome, bind_trace.
    match type of F with
    | if _ then ?m = _ else _ => set (fetch := m) in *
    end.
    destruct (sourceless video) eqn:Src.
    + rewrite F. cbn [fst snd app List.length].
      exists 0%nat, video. cbn. rewrite Src, Z.add_0_r. auto.
    + destruct F as [L NR].
      destruct (snd fetch) as [p | r | e]; [|contradiction|exact I].
      specialize (IH (i + 1) (files ++ [input_path job_dir i])%list).
      destruct (snd (download_videos renderer w job_dir (i + 1) rest _))
        as [out | r | e]; [| |exact I].
      * destruct IH as (-> & Len & Good).
        split.
        { rewrite <- app_assoc. cbn [app List.length seq map]. f_equal.
          rewrite Z.add_0_r. f_equal.
          rewrite <- seq_shift, map_map. apply map_ext. intros k. f_equal. lia. }
        split.
        { rewrite length_app, L, Len. reflexivity. }
        cbn [forallb]. rewrite Src, Good. reflexivity.
      * destruct IH as (k & v & Hk & Sv & Good & -> & Len).
        exists (S k), v. cbn [nth_error firstn forallb]. rewrite Src. cbn [negb andb].
        repeat split; auto.
        { replace (i + Z.of_nat (S k)) with (i + 1 + Z.of_nat k) by lia.
          reflexivity. }
        { rewrite length_app, L, Len. reflexivity. }
Qed.

End Clips.

(** X11.  When the download loop of a concat request completes, it has
    stored clip number [k] in [input_<k>.mp4] of the job directory, for every
    clip in the order of the request: the files are as many as the clips,
    pairwise different, every clip named a source, and each clip cost one
    fetch. *)
Theorem concat_clips_are_stored_in_order :
  forall {N : PyNum} (renderer : string) (w : world) (job_dir : string)
         (vs : list video_source) (input_files : list string),
    snd (download_videos renderer w job_dir 0 vs []) = Val input_files ->
    input_files = map (input_path job_dir) (py_range (len vs))
    /\ List.length input_files = List.length vs
    /\ NoDup input_files
    /\ forallb (fun v => negb (sourceless v)) vs = true
    /\ List.length (fst (download_videos renderer w job_dir 0 vs [])) = List.length vs.
Proof.
  intros N renderer w job_dir vs input_files H.
  pose proof (download_videos_run renderer w job_dir vs 0 []) as R.
  rewrite H in R. destruct R as (-> & Len & Good). cbn [app].
  assert (E : map (fun k => input_path job_dir (0 + Z.of_nat k)) (seq 0 (List.length vs))
              = map (input_path job_dir) (py_range (len vs))).
  { unfold py_range, len. rewrite Nat2Z.id, map_map. now apply map_ext. }
  rewrite E.
  split; [reflexivity|].
  split; [unfold py_range, len; now rewrite !length_map, length_seq, Nat2Z.id|].
  split; [|split; [exact Good|exact Len]].
  apply NoDup_map_injective.
  - intros a b. apply input_path_inj.
  - unfold py_range. apply NoDup_map_injective; [|apply seq_NoDup].
    intros a b. apply Nat2Z.inj.
Qed.

(** X12.  Clips are not checked before the loop: when the loop answers on
    its own, it is the 400 ["Invalid video source at index k"] for the first
    clip [k] that names no source, and the [k] clips before it have already
    been fetched. *)
Theorem concat_rejects_first_sourceless_clip :
  forall {N : PyNum} (renderer : string) (w : world) (job_dir : string)
         (vs : list video_source) (r : response),
    snd (download_videos renderer w job_dir 0 vs []) = Return r ->
    exists k video,
      nth_error vs k = Some video
      /\ sourceless video = true
      /\ forallb (fun v => negb (sourceless v)) (firstn k vs) = true
      /\ r = ([("success", JBool false);
               ("error", JStr ("Invalid video source at index " ++ py_int (Z.of_nat k)))],
              400)
      /\ List.length (fst (download_videos renderer w job_dir 0 vs [])) = k.
Proof.
  intros N renderer w job_dir vs r H.
  pose proof (download_videos_run renderer w job_dir vs 0 []) as R.
  rewrite H in R. exact R.
Qed.

Lemma concat_clips_are_stored_in_order_witness :
  snd (download_videos sample_renderer calm_world
         "/tmp/ffmpeg-service/1a2b3c4d" 0 sample_clips [])
  = Val ["/tmp/ffmpeg-service/1a2b3c4d/input_0.mp4";
         "/tmp/ffmpeg-service/1a2b3c4d/input_1.mp4"]
  /\ NoDup ["/tmp/ffmpeg-service/1a2b3c4d/input_0.mp4";
            "/tmp/ffmpeg-service/1a2b3c4d/input_1.mp4"].
Proof.
  split; [reflexivity|].
  apply (concat_clips_are_stored_in_order sample_renderer calm_world
           "/tmp/ffmpeg-service/1a2b3c4d" sample_clips).
  reflexivity.
Defined.

Lemma concat_rejects_first_sourceless_clip_witness :
  exists k video,
    nth_error (clip "http://media.local/a.mp4" :: blank_clip :: sample_clips) k
    = Some video
    /\ sourceless video = true
    /\ forallb (fun v => negb (sourceless v))
         (firstn k (clip "http://media.local/a.mp4" :: blank_clip :: sample_clips))
       = true
    /\ (([("success", JBool false);
          ("error", JStr "Invalid video source at index 1")], 400) : @response ZNum)
       = ([("success", JBool false);
           ("error", JStr ("Invalid video source at index " ++ py_int (Z.of_nat k)))],
          400)
    /\ List.length
         (fst (download_videos sample_renderer calm_world
                 "/tmp/ffmpeg-service/1a2b3c4d" 0
                 (clip "http://media.local/a.mp4" :: blank_clip :: sample_clips) []))
       = k.
Proof.
  apply (concat_rejects_first_sourceless_clip sample_renderer calm_world
           "/tmp/ffmpeg-service/1a2b3c4d"
           (clip "http://media.local/a.mp4" :: blank_clip :: sample_clips)).
  reflexivity.
Defined.

(** ** The step log of the pipeline *)

Section Ends.

Context {N : PyNum}.

Lemma ends_bind {A B : Type} (Q' : A -> Prop) (Q : B -> Prop)
    (P : response -> Prop) (m : M A) (f : A -> M B) :
  ends Q' P m -> (forall a, Q' a -> ends Q P (f a)) -> ends Q P (bind m f).
Proof.
  unfold ends. intros Hm Hf. rewrite bind_outcome.
  destruct (snd m); [now apply Hf | exact Hm | exact I].
Qed.

Lemma ends_of_answers {A : Type} (P : response -> Prop) (m : M A) :
  answers P m -> ends (fun _ => True) P m.
Proof. unfold answers, ends. now destruct (snd m). Qed.

Lemma ends_ret {A : Type} (Q : A -> Prop) (P : response -> Prop) (a : A) :
  Q a -> ends Q P (ret a).
Proof. intros H. exact H. Qed.

Lemma ends_return {A : Type} (Q : A -> Prop) (P : response -> Prop) (r : response) :
  P r -> ends Q P (return_ r : M A).
Proof. intros H. exact H. Qed.

Lemma ends_handle (P : response -> Prop) (body : M Empty_set) :
  ends (fun _ => True) P body ->
  (forall e, P ([("success", JBool false); ("error", JStr e)], 500)) ->
  P (snd (handle body)).
Proof. unfold ends. destruct body as [t [[] | r | e]]; simpl; auto. Qed.

End Ends.

(** Passes a statement that cannot return early. *)
Ltac ends_next :=
  eapply ends_bind;
  [apply ends_of_answers; solve [auto with answers] | intros ? _].

Section PipelineLog.

Context {N : PyNum}.
Variable renderer : string.
Variable w : world.

(** What a best-effort step does to the log. *)
Lemma run_step_log (P : response -> Prop) (s : optional_step)
    (data : pipeline_request) (job_dir : string) (st : pipeline_state) :
  ends (fun st' =>
          exists done : bool,
            (done = true -> step_requested data s = true)
            /\ steps_completed st'
               = (steps_completed st
                  ++ if done then [step_name data s] else [])%list)
       P (run_step w s data job_dir st).
Proof.
  assert (skip : forall st0 : pipeline_state,
            exists done : bool,
              (done = true -> step_requested data s = true)
              /\ steps_completed st0
                 = (steps_completed st0
                    ++ if done then [step_name data s] else [])%list).
  { intros st0. exists false. split; [discriminate | now rewrite app_nil_r]. }
  destruct s; cbn [run_step step_name].
  - unfold step_music.
    destruct (get_truthy (background_music_url data)) eqn:Req;
      [|apply ends_ret, skip].
    do 3 ends_next. ends_next.
    destruct (success _); apply ends_ret; [|apply skip].
    exists true. split; [intros _; exact Req | reflexivity].
  - unfold step_subtitles.
    destruct (get_truthy (subtitles data)) eqn:Req; [|apply ends_ret, skip].
    ends_next. ends_next.
    destruct (success _); apply ends_ret; [|apply skip].
    exists true. split; [intros _; exact Req | reflexivity].
  - unfold step_resize.
    destruct (if get_truthy (platform data) then _ else _) as [[width height]|] eqn:Req;
      [|apply ends_ret, skip].
    ends_next.
    destruct (success _); apply ends_ret; [|apply skip].
    exists true. split; [intros _; cbn [step_requested]; now rewrite Req | reflexivity].
  - unfold step_normalize.
    destruct (get_or (normalize data) false) eqn:Req; [|apply ends_ret, skip].
    ends_next.
    destruct (success _); apply ends_ret; [|apply skip].
    exists true. split; [intros _; exact Req | reflexivity].
Qed.

(** What the merge does to the log. *)
Lemma step_merge_log (P : response -> Prop) (data : pipeline_request)
    (job_dir : string) (st : pipeline_state) :
  (forall details,
      P ([("success", JBool false); ("error", JStr "Merge failed");
          ("details", details)], 500)) ->
  ends (fun st' =>
          steps_completed st'
          = (steps_completed st
             ++ if get_truthy (audio_base64 data) then ["merge_tts"] else [])%list)
       P (step_merge w data job_dir st).
Proof.
  intros HP. unfold step_merge.
  destruct (get_truthy (audio_base64 data));
    [|apply ends_ret; now rewrite app_nil_r].
  ends_next. ends_next.
  destruct (negb _); [apply ends_return, HP | now apply ends_ret].
Qed.

End PipelineLog.

(** X13.  Whatever the world does, the step log of a pipeline run that
    succeeds is in pipeline order: [download_video] first, then [merge_tts]
    exactly when a narration was given, then some of [add_music],
    [add_subtitles], [resize_<platform>] and [normalize_audio] in this order,
    each at most once and only if the request asked for the step (for the
    resize: a platform of the pipeline's own table). *)
Theorem pipeline_log_follows_the_request :
  forall {N : PyNum} (renderer : string) (w : world)
         (data : pipeline_request) (job_id : string),
    let run := full_pipeline renderer w data job_id in
    succeeded (snd run) = true ->
    exists done : optional_step -> bool,
      (forall s, done s = true -> step_requested data s = true)
      /\ steps_of (snd run)
         = ("download_video"
            :: (if get_truthy (audio_base64 data) then ["merge_tts"] else [])
            ++ logged_steps data done)%list.
Proof.
  intros N renderer w data job_id run. subst run.
  pose (P := fun r : response =>
          succeeded r = true ->
          exists done : optional_step -> bool,
            (forall s, done s = true -> step_requested data s = true)
            /\ steps_of r
               = ("download_video"
                  :: (if get_truthy (audio_base64 data) then ["merge_tts"] else [])
                  ++ logged_steps data done)%list).
  change (P (snd (full_pipeline renderer w data job_id))).
  unfold full_pipeline.
  apply ends_handle; [|intros e; unfold P; cbn; discriminate].
  ends_next.
  destruct (negb _); [apply ends_return; unfold P; cbn; discriminate|].
  ends_next.
  eapply ends_bind;
    [apply step_merge_log; intros details; unfold P; cbn; discriminate
    | cbv beta; intros st1 L1].
  eapply ends_bind;
    [apply (run_step_log w _ AddMusic) | intros st2 (d2 & R2 & L2)].
  eapply ends_bind;
    [apply (run_step_log w _ AddSubtitles) | intros st3 (d3 & R3 & L3)].
  eapply ends_bind;
    [apply (run_step_log w _ ResizePlatform) | intros st4 (d4 & R4 & L4)].
  eapply ends_bind;
    [apply (run_step_log w _ NormalizeAudio) | intros st5 (d5 & R5 & L5)].
  unfold finish_pipeline. ends_next. ends_next.
  apply ends_return. unfold P. intros _.
  exists (fun s => match s with
                   | AddMusic => d2
                   | AddSubtitles => d3
                   | ResizePlatform => d4
                   | NormalizeAudio => d5
                   end).
  split; [intros [] ; assumption|].
  etransitivity;
    [apply (steps_of_log _ 200 (steps_completed st5)
              [("success", JBool true); ("job_id", JStr job_id);
               ("operation", JStr "full-pipeline")]); reflexivity|].
  rewrite L5, L4, L3, L2, L1. cbn [steps_completed].
  unfold logged_steps, optional_steps. cbn [flat_map].
  rewrite app_nil_r, <- !app_assoc. reflexivity.
Qed.

Lemma pipeline_log_follows_the_request_witness :
  succeeded (snd (full_pipeline sample_renderer calm_world
                    sample_pipeline_request sample_job)) = true
  /\ exists done : optional_step -> bool,
      (forall s, done s = true -> step_requested sample_pipeline_request s = true)
      /\ steps_of (snd (full_pipeline sample_renderer calm_world
                          sample_pipeline_request sample_job))
         = ("download_video"
            :: (if get_truthy (audio_base64 sample_pipeline_request)
                then ["merge_tts"] else [])
            ++ logged_steps sample_pipeline_request done)%list.
Proof.
  split; [reflexivity|].
  apply (pipeline_log_follows_the_request sample_renderer calm_world
           sample_pipeline_request sample_job).
  reflexivity.
Defined.

(** ** A video the probe cannot read *)

Section Unprobed.

Context {N : PyNum}.
Variable renderer : string.
Variable w : world.

(** The duration read after a probe that exited with a nonzero status. *)
Lemma probe_duration_nonzero {B : Type} (path : string) (k : num -> M B)
    (P : list string * Z -> Prop) :
  returncode (ffprobe w (probe_cmd path)) <> 0 ->
  calls_all P (k (num_of_Z 60)) ->
  calls_all P (bind (get_media_info w path) (fun info =>
                 bind (media_duration info) k)).
Proof.
  intros H K. rewrite (get_media_info_nonzero w path H), bind_val. cbv beta.
  unfold media_duration. cbn [json_opt json_truthy]. rewrite bind_ret_l.
  unfold calls_all. cbn [fst]. exact K.
Qed.

End Unprobed.

(** X14.  When the probe of the video exits with a nonzero status, the music
    is mixed as if the video lasted 60 seconds: the one engine command
    [/add-background-music] can issue is the command built for a duration of
    60 (the fade-out starts at 60 minus its length), and so is the one the
    music step of the pipeline can issue, whose fade starts at 60 - 2. *)
Theorem unprobed_video_counts_as_sixty_seconds :
  forall {N : PyNum} (renderer : string) (w : world)
         (data : music_request) (job_id : string)
         (pdata : pipeline_request) (st : pipeline_state),
    let job_dir := path_join TEMP_DIR job_id in
    let video_path := path_join job_dir "input_video.mp4" in
    let loop_music := get_or (mus_loop_music data) true in
    returncode (ffprobe w (probe_cmd video_path)) <> 0 ->
    returncode (ffprobe w (probe_cmd (current_video st))) <> 0 ->
    Forall (fun c =>
              c = (music_cmd video_path loop_music (path_join job_dir "music.mp3")
                     (music_filter_complex
                        (get_or (mus_voice_volume data) (num_lit "1.0"))
                        (get_or (mus_music_volume data) (num_lit "0.15"))
                        loop_music
                        (get_or (mus_fade_out data) (num_lit "2.0"))
                        (num_of_Z 60))
                     (path_join job_dir ("with_music_" ++ job_id ++ ".mp4")),
                   600))
           (engine_calls (fst (add_background_music renderer w data job_id)))
    /\ Forall (fun c =>
                 c = (pipeline_music_cmd (current_video st)
                        (path_join job_dir "music.mp3")
                        (pipeline_music_filter
                           (get_or (music_volume pdata) (num_lit "0.1"))
                           (num_of_Z 60))
                        (path_join job_dir "03_with_music.mp4"),
                      600))
              (engine_calls (fst (step_music w pdata job_dir st))).
Proof.
  intros N renderer w data job_id pdata st job_dir video_path loop_music Hv Hc.
  split.
  - unfold add_background_music. apply calls_all_handle.
    apply calls_all_bind_val; [apply quiet_calls; auto with quiet|].
    intros jd Hjd. apply get_job_dir_val in Hjd. subst jd. cbv zeta.
    apply calls_all_bind; [apply quiet_calls; auto with quiet | intros _].
    apply calls_all_bind; [calls_all_tac | intros _].
    apply probe_duration_nonzero; [exact Hv|].
    unfold ffmpeg_failed. calls_all_tac. reflexivity.
  - unfold step_music.
    destruct (get_truthy (background_music_url pdata)); [|constructor].
    apply calls_all_bind; [apply quiet_calls; auto with quiet | intros _].
    apply probe_duration_nonzero; [exact Hc|].
    calls_all_tac; reflexivity.
Qed.

Lemma unprobed_video_counts_as_sixty_seconds_witness :
  returncode (ffprobe probe_failing_world
                (probe_cmd "/tmp/ffmpeg-service/1a2b3c4d/input_video.mp4")) <> 0
  /\ Forall (fun c =>
               c = (music_cmd "/tmp/ffmpeg-service/1a2b3c4d/input_video.mp4" true
                      "/tmp/ffmpeg-service/1a2b3c4d/music.mp3"
                      (music_filter_complex (N := ZNum) 1 1 true 2 60)
                      "/tmp/ffmpeg-service/1a2b3c4d/with_music_1a2b3c4d.mp4", 600))
        (engine_calls (fst (add_background_music sample_renderer probe_failing_world
                              sample_music_request sample_job))).
Proof.
  split; [vm_compute; discriminate|].
  apply (unprobed_video_counts_as_sixty_seconds sample_renderer
           probe_failing_world sample_music_request sample_job
           sample_pipeline_request
           {| current_video := "/tmp/ffmpeg-service/1a2b3c4d/01_video.mp4";
              steps_completed := ["download_video"] |});
    vm_compute; discriminate.
Defined.

(** ** The engine time of a request *)

Section Budget.

Context {N : PyNum}.
Variable renderer : string.
Variable w : world.

Lemma budget_quiet (n : nat) (timeout : Z) (t : list event) :
  engine_calls t = [] -> budget n timeout t.
Proof. unfold budget. intros ->. split; [cbn; lia | constructor]. Qed.

Lemma budget_bind {A B : Type} (a b : nat) (timeout : Z) (m : M A) (f : A -> M B) :
  budget a timeout (fst m) ->
  (forall x, budget b timeout (fst (f x))) ->
  budget (a + b) timeout (fst (bind m f)).
Proof.
  unfold budget. intros [La Ta] Hf.
  rewrite bind_trace, engine_calls_app, length_app.
  destruct (snd m) as [x | r | e].
  - destruct (Hf x) as [Lb Tb]. split; [lia | now apply Forall_app].
  - cbn. split; [lia | now rewrite app_nil_r].
  - cbn. split; [lia | now rewrite app_nil_r].
Qed.

Lemma budget_bind_quiet {A B : Type} (n : nat) (timeout : Z) (m : M A) (f : A -> M B) :
  engine_calls (fst m) = [] ->
  (forall x, budget n timeout (fst (f x))) ->
  budget n timeout (fst (bind m f)).
Proof.
  intros Q Hf. apply (budget_bind 0 n); [now apply budget_quiet | exact Hf].
Qed.

Lemma budget_run_ffmpeg (cmd : list string) (timeout : Z) :
  budget 1 timeout (fst (run_ffmpeg w cmd timeout)).
Proof.
  rewrite run_ffmpeg_eq. unfold budget. cbn. split; [lia | now repeat constructor].
Qed.

Lemma budget_run_then {B : Type} (n : nat) (cmd : list string) (timeout : Z)
    (f : ffmpeg_result -> M B) :
  (forall result, budget n timeout (fst (f result))) ->
  budget (S n) timeout (fst (bind (run_ffmpeg w cmd timeout) f)).
Proof. intros Hf. apply (budget_bind 1 n); [apply budget_run_ffmpeg | exact Hf]. Qed.

Lemma budget_handle (n : nat) (timeout : Z) (body : M Empty_set) :
  budget n timeout (fst body) -> budget n timeout (fst (handle body)).
Proof. now rewrite handle_trace. Qed.

End Budget.

(** Closes the goal that a computation does not run the engine. *)
Ltac quiet_tac :=
  repeat first
    [ reflexivity
    | solve [auto with quiet]
    | apply quiet_bind; [|intros]
    | match goal with
      | |- engine_calls (fst (if ?b then _ else _)) = [] => destruct b
      | |- engine_calls (fst (match ?x with _ => _ end)) = [] => destruct x
      end ].

(** Walks down a handler body up to and past its engine invocation. *)
Ltac budget_tac :=
  repeat first
    [ apply budget_quiet; solve [quiet_tac]
    | apply budget_run_then; intros
    | apply budget_bind_quiet; [solve [quiet_tac] | intros]
    | match goal with
      | |- budget _ _ (fst (if ?b then _ else _)) => destruct b
      | |- budget _ _ (fst (match ?x with _ => _ end)) => destruct x
      | |- budget _ _ (fst (let (_, _) := ?x in _)) => destruct x
      end ].

Section PipelineBudget.

Context {N : PyNum}.
Variable renderer : string.
Variable w : world.

Lemma budget_step_merge data job_dir st :
  budget 1 600 (fst (step_merge w data job_dir st)).
Proof. unfold step_merge. budget_tac. Qed.

Lemma budget_run_step s data job_dir st :
  budget 1 600 (fst (run_step w s data job_dir st)).
Proof.
  destruct s; cbn [run_step];
    unfold step_music, step_subtitles, step_resize, step_normalize; budget_tac.
Qed.

End PipelineBudget.

(** X15.  The engine time a request can take is bounded: a one-step handler
    runs the engine at most once, with a limit of 600 seconds (900 for the
    concatenation), on every path, failures included; the pipeline runs it
    at most five times, with 600 seconds each; the probe never runs it. *)
Theorem engine_time_is_bounded :
  forall {N : PyNum} (renderer : string) (w : world) (job_id : string),
    (forall data, budget 1 600 (fst (merge_audio_video renderer w data job_id)))
    /\ (forall data, budget 1 900 (fst (concat_videos renderer w data job_id)))
    /\ (forall data, budget 1 600 (fst (add_subtitles renderer w data job_id)))
    /\ (forall data, budget 1 600 (fst (add_background_music renderer w data job_id)))
    /\ (forall data, budget 1 600 (fst (resize_video renderer w data job_id)))
    /\ (forall data, budget 1 600 (fst (extract_audio renderer w data job_id)))
    /\ (forall data, budget 1 600 (fst (generate_thumbnail renderer w data job_id)))
    /\ (forall data, budget 1 600 (fst (trim_video renderer w data job_id)))
    /\ (forall data, budget 1 600 (fst (normalize_audio renderer w data job_id)))
    /\ (forall data, budget 5 600 (fst (full_pipeline renderer w data job_id)))
    /\ (forall data, engine_calls (fst (probe_media renderer w data job_id)) = []).
Proof.
  intros N renderer w job_id.
  repeat match goal with |- _ /\ _ => split end; intros data;
    unfold merge_audio_video, concat_videos, add_subtitles, add_background_music,
      resize_video, extract_audio, generate_thumbnail, trim_video,
      normalize_audio, full_pipeline, probe_media;
    try (apply budget_handle; unfold transition_cmd, ffmpeg_failed; budget_tac).
  - apply (budget_bind 1 4); [apply budget_step_merge | intros st1].
    apply (budget_bind 1 3); [apply (budget_run_step w AddMusic) | intros st2].
    apply (budget_bind 1 2); [apply (budget_run_step w AddSubtitles) | intros st3].
    apply (budget_bind 1 1); [apply (budget_run_step w ResizePlatform) | intros st4].
    apply (budget_bind 1 0); [apply (budget_run_step w NormalizeAudio) | intros st5].
    unfold finish_pipeline. budget_tac.
  - rewrite handle_trace. quiet_tac.
Qed.

(** ** What is left on disk *)

Section Leftovers.

Context {N : PyNum}.
Variable renderer : string.
Variable w : world.

Lemma kept_fetch_video u j path :
  trace_all (fun e => removes e = false) (fetch_video renderer w u j path).
Proof.
  unfold fetch_video.
  destruct (get_truthy u); [now apply trace_all_download_file|].
  destruct (get_truthy j); [now apply trace_all_download_file|].
  now apply trace_all_silent.
Qed.

Lemma kept_download_videos job_dir vs :
  forall i files,
    trace_all (fun e => removes e = false)
              (download_videos renderer w job_dir i vs files).
Proof.
  induction vs as [|v vs IH]; intros i files; cbn [download_videos].
  - now apply trace_all_silent.
  - apply trace_all_bind; [|intros; apply IH].
    destruct (get_truthy (src_url v)); [now apply trace_all_download_file|].
    destruct (get_truthy (src_job_id v)); [now apply trace_all_download_file|].
    destruct (get_truthy (src_base64 v)); [now apply trace_all_save_base64_file|].
    now apply trace_all_silent.
Qed.

Lemma kept_handle (body : M Empty_set) :
  trace_all (fun e => removes e = false) body ->
  Forall (fun e => removes e = false) (fst (handle body)).
Proof. now rewrite handle_trace. Qed.

Lemma get_media_info_trace (path : string) :
  fst (get_media_info w path) = [EvProbe (probe_cmd path)].
Proof.
  unfold get_media_info, bind, emit. simpl.
  destruct (returncode _ =? 0); [|reflexivity]. now destruct (json_loads w _).
Qed.

(** The probe from the fetch of its file on. *)
Lemma probe_tail (job_dir : string) (fetch : M string) (t0 : list event) :
  (forall e, In e (fst fetch) -> removes e = false) ->
  answers (fun r => status r = 400) fetch ->
  let run :=
    handle (bind (t0, Val job_dir) (fun job_dir =>
      bind fetch (fun _ =>
        bind (get_media_info w (path_join job_dir "probe_file")) (fun info =>
          bind (rmtree w job_dir) (fun _ =>
            return_ ([("success", JBool true); ("info", json_opt info)], 200)))))) in
  (status (snd run) = 200 ->
   exists before, fst run = (before ++ [EvRmtree job_dir])%list)
  /\ (forall d, In (EvRmtree d) (fst run) ->
        In (EvRmtree d) t0 \/ status (snd run) = 200 \/ rmtree_ok w d = false).
Proof.
  intros K A run. subst run. rewrite bind_val. cbv beta.
  destruct fetch as [t1 [p | r | e]]; cbn [fst snd] in K; unfold answers in A;
    cbn [snd] in A.
  2:{ cbn. rewrite A. split; [discriminate|].
      intros d Hd. apply in_app_or in Hd. destruct Hd as [Hd | Hd]; [now left|].
      try rewrite app_nil_r in Hd. apply K in Hd. discriminate Hd. }
  2:{ cbn. split; [discriminate|].
      intros d Hd. apply in_app_or in Hd. destruct Hd as [Hd | Hd]; [now left|].
      try rewrite app_nil_r in Hd. apply K in Hd. discriminate Hd. }
  rewrite bind_val. cbv beta.
  destruct (get_media_info w (path_join job_dir "probe_file")) as [t2 o] eqn:G.
  pose proof (get_media_info_trace (path_join job_dir "probe_file")) as T.
  rewrite G in T. cbn [fst] in T. subst t2.
  destruct o as [info | r | e].
  - rewrite bind_val. cbv beta. rewrite rmtree_eq.
    destruct (rmtree_ok w job_dir) eqn:F.
    + rewrite bind_val. cbn.
      split.
      * intros _. exists (t0 ++ t1 ++ [EvProbe (probe_cmd (path_join job_dir "probe_file"))])%list.
        now rewrite <- !app_assoc.
      * intros d Hd. right. now left.
    + cbn. split; [discriminate|].
      intros d Hd. apply in_app_or in Hd. destruct Hd as [Hd | Hd]; [now left|].
      apply in_app_or in Hd. destruct Hd as [Hd | Hd];
        [apply K in Hd; discriminate Hd|].
      cbn in Hd. destruct Hd as [Hd | [Hd | []]]; [discriminate Hd|].
      injection Hd as <-. right. now right.
  - pose proof (answers_get_media_info w (fun _ => False)
                  (path_join job_dir "probe_file")) as NR.
    unfold answers in NR. rewrite G in NR. contradiction.
  - cbn. split; [discriminate|].
    intros d Hd. apply in_app_or in Hd. destruct Hd as [Hd | Hd]; [now left|].
    apply in_app_or in Hd. destruct Hd as [Hd | Hd];
      [apply K in Hd; discriminate Hd|].
    cbn in Hd. destruct Hd as [Hd | []]. discriminate Hd.
Qed.

End Leftovers.

(** Walks down a handler body checking that no event removes anything. *)
Ltac kept_tac :=
  repeat first
    [ apply kept_fetch_video
    | apply kept_download_videos
    | apply trace_all_stat_st_size
    | apply trace_all_media_duration
    | apply trace_all_read_local
    | apply trace_all_get_job_dir; reflexivity
    | apply trace_all_download_file; reflexivity
    | apply trace_all_save_base64_file; reflexivity
    | apply trace_all_write_file; reflexivity
    | apply trace_all_copy; reflexivity
    | apply trace_all_get_media_info; reflexivity
    | apply trace_all_run_ffmpeg; reflexivity
    | apply trace_all_silent; reflexivity
    | apply trace_all_bind; [|intros]
    | match goal with
      | |- trace_all _ (if ?b then _ else _) => destruct b
      | |- trace_all _ (match ?x with _ => _ end) => destruct x
      | |- trace_all _ (let (_, _) := ?x in _) => destruct x
      end ].

(** X16.  No media handler ever removes anything: whatever the outcome, the
    job directory and the files staged in it stay until a cleanup route is
    called.  The probe is the exception: it removes its job directory as its
    last act before answering 200, and on no other path (a removal in a run
    that does not answer 200 is the removal itself failing).  The removal
    has its own way to fail, apart from the making of the directory: when it
    does, after a download and a probe that worked, the run ends there with
    a 500. *)
Theorem job_directories_outlive_requests :
  forall {N : PyNum} (renderer : string) (w : world) (job_id : string),
    let kept := Forall (fun e => removes e = false) in
    (forall data, kept (fst (merge_audio_video renderer w data job_id)))
    /\ (forall data, kept (fst (concat_videos renderer w data job_id)))
    /\ (forall data, kept (fst (add_subtitles renderer w data job_id)))
    /\ (forall data, kept (fst (add_background_music renderer w data job_id)))
    /\ (forall data, kept (fst (resize_video renderer w data job_id)))
    /\ (forall data, kept (fst (extract_audio renderer w data job_id)))
    /\ (forall data, kept (fst (generate_thumbnail renderer w data job_id)))
    /\ (forall data, kept (fst (trim_video renderer w data job_id)))
    /\ (forall data, kept (fst (normalize_audio renderer w data job_id)))
    /\ (forall data, kept (fst (full_pipeline renderer w data job_id)))
    /\ (forall data,
          let run := probe_media renderer w data job_id in
          (status (snd run) = 200 ->
           exists before,
             fst run = (before ++ [EvRmtree (path_join TEMP_DIR job_id)])%list)
          /\ (forall d, In (EvRmtree d) (fst run) ->
                status (snd run) = 200 \/ rmtree_ok w d = false))
    /\ (forall url info,
          let job_dir := path_join TEMP_DIR job_id in
          let file_path := path_join job_dir "probe_file" in
          str_truthy url = true ->
          fs_ok w job_dir = true ->
          http_get w url = true ->
          snd (get_media_info w file_path) = Val info ->
          rmtree_ok w job_dir = false ->
          probe_media renderer w {| probe_url := Some url; probe_job_id := None |}
            job_id
          = ([EvMkdir job_dir; EvDownload url file_path;
              EvProbe (probe_cmd file_path); EvRmtree job_dir],
             ([("success", JBool false); ("error", JStr "OSError")], 500))).
Proof.
  intros N renderer w job_id kept. subst kept.
  match goal with
  | |- ?A /\ ?B /\ ?C /\ ?D /\ ?E /\ ?F /\ ?G /\ ?H /\ ?I /\ ?J /\ ?K /\ ?L =>
      cut (L /\ (A /\ B /\ C /\ D /\ E /\ F /\ G /\ H /\ I /\ J /\ K));
        [tauto|]
  end.
  split.
  { intros url info job_dir file_path Hurl Hfs Hget Hinfo Hrm.
    unfold probe_media. rewrite get_job_dir_eq. fold job_dir. rewrite Hfs, bind_val.
    cbv beta zeta. cbn [get_truthy probe_url get_or]. rewrite Hurl.
    rewrite download_file_eq, Hget, bind_val. cbv beta. fold file_path.
    pose proof (get_media_info_trace w file_path) as T.
    destruct (get_media_info w file_path) as [t o]. cbn [fst snd] in T, Hinfo.
    subst t o. rewrite bind_val. cbv beta. rewrite rmtree_eq, Hrm. reflexivity. }
  repeat match goal with |- _ /\ _ => split end; intros data;
    unfold merge_audio_video, concat_videos, add_subtitles, add_background_music,
      resize_video, extract_audio, generate_thumbnail, trim_video,
      normalize_audio, full_pipeline;
    try (apply kept_handle;
         unfold transition_cmd, step_merge, step_music, step_subtitles,
           step_resize, step_normalize, finish_pipeline, ffmpeg_failed;
         kept_tac).
  - cbv zeta. unfold probe_media. rewrite get_job_dir_eq.
    destruct (fs_ok w (path_join TEMP_DIR job_id)) eqn:F.
    2:{ cbn. split; [discriminate|]. intros d [Hd | []]. discriminate Hd. }
    destruct (probe_tail w (path_join TEMP_DIR job_id)
                (if get_truthy (probe_url data) then
                   download_file w (get_or (probe_url data) "")
                     (path_join (path_join TEMP_DIR job_id) "probe_file")
                 else if get_truthy (probe_job_id data) then
                   download_file w
                     (renderer ++ "/video/" ++ get_or (probe_job_id data) "")
                     (path_join (path_join TEMP_DIR job_id) "probe_file")
                 else
                   return_ ([("success", JBool false);
                             ("error", JStr "url or job_id required")], 400))
                [EvMkdir (path_join TEMP_DIR job_id)]) as [T1 T2].
    + intros e He.
      destruct (get_truthy (probe_url data));
        [rewrite download_file_eq in He; destruct He as [<- | []]; reflexivity|].
      destruct (get_truthy (probe_job_id data));
        [rewrite download_file_eq in He; destruct He as [<- | []]; reflexivity|].
      destruct He.
    + answers_tac; reflexivity.
    + split; [exact T1|].
      intros d Hd. destruct (T2 d Hd) as [[Hm | []] | H]; [discriminate Hm | exact H].
Qed.

(** A probe whose directory cannot be removed. *)
Lemma job_directories_outlive_requests_witness :
  rmtree_ok stuck_removal_world (path_join TEMP_DIR sample_job) = false
  /\ probe_media sample_renderer stuck_removal_world sample_probe_request sample_job
     = ([EvMkdir "/tmp/ffmpeg-service/1a2b3c4d";
         EvDownload "http://media.local/clip.mp4"
           "/tmp/ffmpeg-service/1a2b3c4d/probe_file";
         EvProbe (probe_cmd "/tmp/ffmpeg-service/1a2b3c4d/probe_file");
         EvRmtree "/tmp/ffmpeg-service/1a2b3c4d"],
        ([("success", JBool false); ("error", JStr "OSError")], 500)).
Proof.
  split; [reflexivity|].
  pose proof (job_directories_outlive_requests (N := ZNum) sample_renderer
                stuck_removal_world sample_job) as K.
  cbv zeta in K.
  destruct K as (_ & _ & _ & _ & _ & _ & _ & _ & _ & _ & _ & F).
  apply (F "http://media.local/clip.mp4" (Some sample_info)); reflexivity.
Defined.

(** ** Requests without their second input *)

Lemma fetch_video_address {N : PyNum} (renderer : string) (w : world)
    (u j : option string) (url path : string) :
  video_address renderer u j = Some url ->
  fetch_video renderer w u j path = download_file w url path.
Proof.
  unfold video_address, fetch_video.
  destruct (get_truthy u); [now intros [= <-]|].
  destruct (get_truthy j); [now intros [= <-] | discriminate].
Qed.

(** X17.  The second input is looked at only after the video is in: a
    request that names its video but no audio (merge), no subtitles text or
    address (subtitles) or no music (background music) is turned down with
    its 400 after the job directory was made and the video downloaded, and
    before anything else is fetched or run. *)
Theorem missing_second_input_is_rejected_after_fetch :
  forall {N : PyNum} (renderer : string) (w : world) (job_id url : string),
    fs_ok w (path_join TEMP_DIR job_id) = true ->
    http_get w url = true ->
    (forall data,
        video_address renderer (mrg_video_url data) (mrg_video_job_id data) = Some url ->
        get_truthy (mrg_audio_base64 data) = false ->
        get_truthy (mrg_audio_url data) = false ->
        merge_audio_video renderer w data job_id
        = rejected_after_fetch job_id url "audio_base64 or audio_url required")
    /\ (forall data,
        video_address renderer (sub_video_url data) (sub_video_job_id data) = Some url ->
        get_truthy (sub_subtitles data) = false ->
        get_truthy (sub_subtitles_url data) = false ->
        add_subtitles renderer w data job_id
        = rejected_after_fetch job_id url "subtitles or subtitles_url required")
    /\ (forall data,
        video_address renderer (mus_video_url data) (mus_video_job_id data) = Some url ->
        get_truthy (mus_music_base64 data) = false ->
        get_truthy (mus_music_url data) = false ->
        add_background_music renderer w data job_id
        = rejected_after_fetch job_id url "music_url or music_base64 required").
Proof.
  intros N renderer w job_id url Hfs Hget.
  repeat match goal with |- _ /\ _ => split end; intros data Hv H1 H2;
    unfold merge_audio_video, add_subtitles, add_background_music,
      rejected_after_fetch;
    rewrite get_job_dir_eq, Hfs, bind_val; cbv beta zeta;
    rewrite (fetch_video_address renderer w _ _ url _ Hv), download_file_eq, Hget,
      bind_val; cbv beta;
    rewrite H1, H2; reflexivity.
Qed.

Lemma missing_second_input_is_rejected_after_fetch_witness :
  merge_audio_video sample_renderer calm_world audioless_merge_request sample_job
  = rejected_after_fetch sample_job "http://media.local/talk.mp4"
      "audio_base64 or audio_url required".
Proof.
  apply (missing_second_input_is_rejected_after_fetch sample_renderer calm_world
           sample_job "http://media.local/talk.mp4");
    reflexivity.
Defined.

(** ** What a success hands back *)

Section Delivery.

Context {N : PyNum}.
Variable renderer : string.
Variable w : world.








End Delivery.


